(** * Verification of the computing-society moderation bot

    A shallow embedding of the bot's handlers (the revisions of [main.go]),
    of the parts of the Go library they rely on ([regexp], [strings.Split],
    [time], [encoding/json]), and the properties of the specification
    proved or refuted against them. *)

From Stdlib Require Import ZArith Lia Bool Ascii String List.
From stdpp Require Import base option list strings sorting gmap.

Local Open Scope string_scope.
Local Open Scope list_scope.
Local Open Scope Z_scope.

(** ** Regular expressions (package [regexp])

    Go strings are byte sequences; [ascii] is one byte.  Only the operators
    used by the pattern of the program are embedded. *)

Module Regexp.

Inductive regex : Type :=
| Never                                   (* matches no string *)
| Eps                                     (* the empty string *)
| Class (p : ascii → bool)                (* one byte of a class, [[...]] *)
| Cat (r1 r2 : regex)                     (* r1r2 *)
| Alt (r1 r2 : regex)                     (* r1|r2 *)
| Star (r : regex).                       (* r* *)

(** [r+] *)
Definition Plus (r : regex) : regex := Cat r (Star r).

(** a literal byte, and a literal string *)
Definition Lit (c : ascii) : regex := Class (Ascii.eqb c).

Fixpoint Lits (s : string) : regex :=
  match s with
  | EmptyString => Eps
  | String c s' => Cat (Lit c) (Lits s')
  end.

(** The strings of a regular expression. *)
Inductive Matches : regex → string → Prop :=
| MEps : Matches Eps ""
| MClass p c : p c = true → Matches (Class p) (String c "")
| MCat r1 r2 s1 s2 : Matches r1 s1 → Matches r2 s2 → Matches (Cat r1 r2) (s1 +:+ s2)
| MAltL r1 r2 s : Matches r1 s → Matches (Alt r1 r2) s
| MAltR r1 r2 s : Matches r2 s → Matches (Alt r1 r2) s
| MStar0 r : Matches (Star r) ""
| MStarS r s1 s2 : Matches r s1 → Matches (Star r) s2 → Matches (Star r) (s1 +:+ s2).

(** The matcher: Brzozowski derivatives, one byte at a time. *)
Fixpoint nullable (r : regex) : bool :=
  match r with
  | Never => false
  | Eps => true
  | Class _ => false
  | Cat r1 r2 => nullable r1 && nullable r2
  | Alt r1 r2 => nullable r1 || nullable r2
  | Star _ => true
  end.

Fixpoint deriv (c : ascii) (r : regex) : regex :=
  match r with
  | Never => Never
  | Eps => Never
  | Class p => if p c then Eps else Never
  | Cat r1 r2 =>
      if nullable r1 then Alt (Cat (deriv c r1) r2) (deriv c r2)
      else Cat (deriv c r1) r2
  | Alt r1 r2 => Alt (deriv c r1) (deriv c r2)
  | Star r1 => Cat (deriv c r1) (Star r1)
  end.

Fixpoint fullMatch (r : regex) (s : string) : bool :=
  match s with
  | EmptyString => nullable r
  | String c s' => fullMatch (deriv c r) s'
  end.

(** A compiled pattern of the shape [^body$].  Without the [m] flag [^] and
    [$] hold at the two ends of the text only, so that the search of
    [MatchString] for a match anywhere in [s] is a match of [body] against
    the whole of [s]. *)
Record Regexp : Type := Anchored { body : regex }.

Definition MatchString (re : Regexp) (s : string) : bool :=
  fullMatch (body re) s.

End Regexp.

(** ** The email pattern

    [emailRegex = regexp.MustCompile(`^[a-zA-Z0-9._%+-]+@uclan\.ac\.uk$`)] *)

Definition byteIn (lo hi c : ascii) : bool :=
  ((N_of_ascii lo <=? N_of_ascii c) && (N_of_ascii c <=? N_of_ascii hi))%N.

(** the class [[a-zA-Z0-9._%+-]] *)
Definition localClass (c : ascii) : bool :=
  byteIn "a" "z" c || byteIn "A" "Z" c || byteIn "0" "9" c
  || Ascii.eqb c "." || Ascii.eqb c "_" || Ascii.eqb c "%"
  || Ascii.eqb c "+" || Ascii.eqb c "-".

Definition emailDomain : string := "@uclan.ac.uk".

Definition emailRegex : Regexp.Regexp :=
  Regexp.Anchored
    (Regexp.Cat (Regexp.Plus (Regexp.Class localClass)) (Regexp.Lits emailDomain)).

(** The specification's wording of an accepted address: one or more bytes
    of the class, then the domain suffix, and nothing else. *)
Fixpoint allLocal (s : string) : bool :=
  match s with
  | EmptyString => true
  | String c s' => localClass c && allLocal s'
  end.

Definition isInstitutionalEmail (s : string) : Prop :=
  ∃ loc : string, loc ≠ "" ∧ allLocal loc = true ∧ s = loc +:+ emailDomain.

(** ** Machine integers and time (package [time]) *)

Definition minInt64 : Z := - 2 ^ 63.
Definition maxInt64 : Z := 2 ^ 63 - 1.

(** the value an [int64] computation wraps to *)
Definition wrap64 (z : Z) : Z := (z + 2 ^ 63) mod 2 ^ 64 - 2 ^ 63.

Module time.

(** [time.Duration] is an [int64] count of nanoseconds.  A [time.Time] taken
    by [time.Now()] carries a reading of the monotonic clock, and [Sub] of two
    such values is the difference of the readings: a [Time] is embedded as
    that reading, in nanoseconds (an [int64]). *)
Abbreviation Duration := Z (only parsing).
Abbreviation Time := Z (only parsing).

Definition Nanosecond : Duration := 1.
Definition Second : Duration := 1000000000.
Definition Minute : Duration := 60 * Second.

(** [t.Sub(u)]: the difference, saturated to the range of [Duration]. *)
Definition Sub (t u : Time) : Duration :=
  let d := t - u in
  if maxInt64 <? d then maxInt64
  else if d <? minInt64 then minInt64
  else d.

End time.

(** ** Decimal output ([%d] of [fmt], [strconv.FormatInt]) *)

Definition digitChar (d : Z) : ascii := ascii_of_N (Z.to_N (48 + d)).

Fixpoint formatDigits (fuel : nat) (n : Z) (acc : string) : string :=
  let acc' := String (digitChar (n mod 10)) acc in
  match fuel with
  | O => acc'
  | S fuel' => if n <? 10 then acc' else formatDigits fuel' (n / 10) acc'
  end.

Definition FormatInt (z : Z) : string :=
  if z <? 0 then String "-" (formatDigits (Z.to_nat (Z.log2 (- z))) (- z) "")
  else formatDigits (Z.to_nat (Z.log2 z)) z "".

(** ** [strings.Split] with a separator of one byte

    [Split(s, sep)] cuts [s] at every occurrence of [sep]; the result has one
    more element than [s] has occurrences of [sep], so it is never empty. *)

Module Strings.

Fixpoint Split (s : string) (sep : ascii) : list string :=
  match s with
  | EmptyString => [""]
  | String c s' =>
      if Ascii.eqb c sep then "" :: Split s' sep
      else match Split s' sep with
           | part :: parts => String c part :: parts
           | [] => [String c ""]
           end
  end.

End Strings.

(** ** Strings as byte sequences *)

Definition byteZ (c : ascii) : Z := Z.of_N (N_of_ascii c).

(** the conversion [byte(z)] *)
Definition byte (z : Z) : ascii := ascii_of_N (Z.to_N (z mod 256)).

(** the byte of the double quote *)
Definition dquote : ascii := "034".

Fixpoint dropS (n : nat) (s : string) : string :=
  match n, s with
  | O, _ => s
  | S n', EmptyString => EmptyString
  | S n', String _ s' => dropS n' s'
  end.

Fixpoint takeS (n : nat) (s : string) : string :=
  match n, s with
  | O, _ => EmptyString
  | S n', EmptyString => EmptyString
  | S n', String c s' => String c (takeS n' s')
  end.

(** ** UTF-8 (package [unicode/utf8]) *)

Module utf8.

Definition RuneError : Z := 0xFFFD.
Definition RuneSelf : Z := 0x80.
Definition MaxRune : Z := 0x10FFFF.
Definition surrogateMin : Z := 0xD800.
Definition surrogateMax : Z := 0xDFFF.

Definition t2 : Z := 0xC0.
Definition t3 : Z := 0xE0.
Definition t4 : Z := 0xF0.
Definition tx : Z := 0x80.
Definition maskx : Z := 0x3F.
Definition mask2 : Z := 0x1F.
Definition mask3 : Z := 0x0F.
Definition mask4 : Z := 0x07.
Definition locb : Z := 0x80.
Definition hicb : Z := 0xBF.

(** the table [first]: information about the first byte of an encoding *)
Definition xx : Z := 0xF1.
Definition as_ : Z := 0xF0.
Definition s1 : Z := 0x02.
Definition s2 : Z := 0x13.
Definition s3 : Z := 0x03.
Definition s4 : Z := 0x23.
Definition s5 : Z := 0x34.
Definition s6 : Z := 0x04.
Definition s7 : Z := 0x44.

Definition first (b : Z) : Z :=
  if b <? 0x80 then as_
  else if b <? 0xC2 then xx
  else if b <? 0xE0 then s1
  else if b =? 0xE0 then s2
  else if b <? 0xED then s3
  else if b =? 0xED then s4
  else if b <? 0xF0 then s3
  else if b =? 0xF0 then s5
  else if b <? 0xF4 then s6
  else if b =? 0xF4 then s7
  else xx.

Definition acceptRanges (i : Z) : Z * Z :=
  if i =? 0 then (locb, hicb)
  else if i =? 1 then (0xA0, hicb)
  else if i =? 2 then (locb, 0x9F)
  else if i =? 3 then (0x90, hicb)
  else if i =? 4 then (locb, 0x8F)
  else (0, 0).

(** [DecodeRuneInString(s)]: the first rune of [s] and its width in bytes;
    [(RuneError, 1)] for an encoding that is invalid or cut short. *)
Definition DecodeRuneInString (s : string) : Z * nat :=
  match s with
  | EmptyString => (RuneError, 0%nat)
  | String c0 r0 =>
      let b0 := byteZ c0 in
      let x := first b0 in
      if as_ <=? x then ((if x =? xx then RuneError else b0), 1%nat)
      else
        let sz := Z.land x 7 in
        let accept := acceptRanges (Z.shiftr x 4) in
        match r0 with
        | EmptyString => (RuneError, 1%nat)
        | String c1 r1 =>
            let b1 := byteZ c1 in
            if (b1 <? fst accept) || (snd accept <? b1) then (RuneError, 1%nat)
            else if sz <=? 2 then
              (Z.lor (Z.shiftl (Z.land b0 mask2) 6) (Z.land b1 maskx), 2%nat)
            else
              match r1 with
              | EmptyString => (RuneError, 1%nat)
              | String c2 r2 =>
                  let b2 := byteZ c2 in
                  if (b2 <? locb) || (hicb <? b2) then (RuneError, 1%nat)
                  else if sz <=? 3 then
                    (Z.lor (Z.lor (Z.shiftl (Z.land b0 mask3) 12)
                                  (Z.shiftl (Z.land b1 maskx) 6))
                           (Z.land b2 maskx), 3%nat)
                  else
                    match r2 with
                    | EmptyString => (RuneError, 1%nat)
                    | String c3 _ =>
                        let b3 := byteZ c3 in
                        if (b3 <? locb) || (hicb <? b3) then (RuneError, 1%nat)
                        else
                          (Z.lor (Z.lor (Z.lor (Z.shiftl (Z.land b0 mask4) 18)
                                               (Z.shiftl (Z.land b1 maskx) 12))
                                        (Z.shiftl (Z.land b2 maskx) 6))
                                 (Z.land b3 maskx), 4%nat)
                    end
              end
        end
  end.

Definition encode3 (r : Z) : string :=
  String (byte (Z.lor t3 (Z.shiftr r 12)))
    (String (byte (Z.lor tx (Z.land (Z.shiftr r 6) maskx)))
       (String (byte (Z.lor tx (Z.land r maskx))) "")).

Definition encode4 (r : Z) : string :=
  String (byte (Z.lor t4 (Z.shiftr r 18)))
    (String (byte (Z.lor tx (Z.land (Z.shiftr r 12) maskx)))
       (String (byte (Z.lor tx (Z.land (Z.shiftr r 6) maskx)))
          (String (byte (Z.lor tx (Z.land r maskx))) ""))).

(** the bytes [AppendRune] and [EncodeRune] write for the rune [r] *)
Definition EncodeRune (r : Z) : string :=
  if (0 <=? r) && (r <=? 0x7F) then String (byte r) ""
  else if (0 <=? r) && (r <=? 0x7FF) then
    String (byte (Z.lor t2 (Z.shiftr r 6))) (String (byte (Z.lor tx (Z.land r maskx))) "")
  else if (r <? 0) || (MaxRune <? r) || ((surrogateMin <=? r) && (r <=? surrogateMax))
  then encode3 RuneError
  else if r <=? 0xFFFF then encode3 r
  else encode4 r.

Fixpoint validFuel (fuel : nat) (s : string) : bool :=
  match fuel with
  | O => true
  | S fuel' =>
      match s with
      | EmptyString => true
      | String c r =>
          if byteZ c <? RuneSelf then validFuel fuel' r
          else
            let '(rune, size) := DecodeRuneInString s in
            if (rune =? RuneError) && (size =? 1)%nat then false
            else validFuel fuel' (dropS size s)
      end
  end.

(** [ValidString(s)]: [s] consists of valid encodings only *)
Definition ValidString (s : string) : bool := validFuel (String.length s) s.

End utf8.

(** ** UTF-16 surrogates (package [unicode/utf16]) *)

Module utf16.

Definition surr1 : Z := 0xd800.
Definition surr2 : Z := 0xdc00.
Definition surr3 : Z := 0xe000.
Definition surrSelf : Z := 0x10000.

Definition IsSurrogate (r : Z) : bool := (surr1 <=? r) && (r <? surr3).

Definition DecodeRune (r1 r2 : Z) : Z :=
  if (surr1 <=? r1) && (r1 <? surr2) && (surr2 <=? r2) && (r2 <? surr3)
  then Z.lor (Z.shiftl (r1 - surr1) 10) (r2 - surr2) + surrSelf
  else utf8.RuneError.

End utf16.

(** ** Decimal input ([strconv.ParseInt] in base 10 with 64 bits) *)

Definition isDigit (c : ascii) : bool := (48 <=? byteZ c) && (byteZ c <=? 57).

Fixpoint parseDigits (s : string) (acc : Z) : option Z :=
  match s with
  | EmptyString => Some acc
  | String c s' =>
      if isDigit c then parseDigits s' (10 * acc + (byteZ c - 48)) else None
  end.

Definition ParseUint (s : string) : option Z :=
  match s with
  | EmptyString => None
  | _ => parseDigits s 0
  end.

Definition ParseInt (s : string) : option Z :=
  match s with
  | EmptyString => None
  | String c s' =>
      let '(neg, digits) :=
        if Ascii.eqb c "+" then (false, s')
        else if Ascii.eqb c "-" then (true, s')
        else (false, s) in
      match ParseUint digits with
      | None => None
      | Some un =>
          if negb neg && (2 ^ 63 <=? un) then None
          else if neg && (2 ^ 63 <? un) then None
          else Some (if neg then - un else un)
      end
  end.

(** ** JSON (package [encoding/json]) *)

Module Json.

(** A JSON text as a tree.  A number keeps its literal, a string is stored
    decoded, an object keeps its members in the order of the text. *)
#[warnings="-register-all"]
Inductive json : Type :=
| JNull
| JBool (b : bool)
| JNumber (lit : string)
| JString (s : string)
| JArray (elems : list json)
| JObject (members : list (string * json)).

(** *** Encoding *)

Definition hex (n : Z) : ascii :=
  if n <? 10 then ascii_of_N (Z.to_N (48 + n)) else ascii_of_N (Z.to_N (87 + n)).

(** [htmlSafeSet]: the bytes below [RuneSelf] copied as they are *)
Definition htmlSafeSet (c : ascii) : bool :=
  (0x20 <=? byteZ c) && (byteZ c <? 0x80)
  && negb (Ascii.eqb c dquote) && negb (Ascii.eqb c "\")
  && negb (Ascii.eqb c "<") && negb (Ascii.eqb c ">") && negb (Ascii.eqb c "&").

(** the escape of a byte below [RuneSelf] that is not in [htmlSafeSet] *)
Definition escapeByte (c : ascii) : string :=
  if Ascii.eqb c "\" || Ascii.eqb c dquote then String "\" (String c "")
  else if Ascii.eqb c "008" then "\b"
  else if Ascii.eqb c "012" then "\f"
  else if Ascii.eqb c "010" then "\n"
  else if Ascii.eqb c "013" then "\r"
  else if Ascii.eqb c "009" then "\t"
  else "\u00" +:+ String (hex (Z.shiftr (byteZ c) 4)) (String (hex (Z.land (byteZ c) 0xF)) "").

(** the loop of [appendString]: the escaped form of [src], without the
    enclosing quotes; [fuel] bounds the number of iterations *)
Fixpoint appendStringFuel (fuel : nat) (src : string) : string :=
  match fuel with
  | O => ""
  | S fuel' =>
      match src with
      | EmptyString => ""
      | String b rest =>
          if byteZ b <? utf8.RuneSelf then
            (if htmlSafeSet b then String b "" else escapeByte b)
              +:+ appendStringFuel fuel' rest
          else
            let '(c, size) := utf8.DecodeRuneInString src in
            if (c =? utf8.RuneError) && (size =? 1)%nat then
              String "\" "ufffd" +:+ appendStringFuel fuel' (dropS size src)
            else if (c =? 0x2028) || (c =? 0x2029) then
              "\u202" +:+ String (hex (Z.land c 0xF)) (appendStringFuel fuel' (dropS size src))
            else
              takeS size src +:+ appendStringFuel fuel' (dropS size src)
      end
  end.

(** [appendString(nil, src, true)]: [src] as a JSON string literal *)
Definition appendString (src : string) : string :=
  String dquote (appendStringFuel (String.length src) src +:+ String dquote "").

(** the newline of [Indent] at a depth, with prefix [""] and indent of two
    spaces *)
Fixpoint indentation (depth : nat) : string :=
  match depth with
  | O => ""
  | S d => "  " +:+ indentation d
  end.

Definition newline (depth : nat) : string := String "010" (indentation depth).

(** The text [MarshalIndent] produces for a tree at a nesting depth: the
    compact encoding of [Marshal], laid out by [Indent]. *)
Fixpoint render (depth : nat) (v : json) : string :=
  match v with
  | JNull => "null"
  | JBool true => "true"
  | JBool false => "false"
  | JNumber lit => lit
  | JString s => appendString s
  | JArray [] => "[]"
  | JArray (x :: xs) =>
      "[" +:+ newline (S depth) +:+ render (S depth) x
      +:+ (fix more (l : list json) : string :=
             match l with
             | [] => ""
             | y :: l' => "," +:+ newline (S depth) +:+ render (S depth) y +:+ more l'
             end) xs
      +:+ newline depth +:+ "]"
  | JObject [] => "{}"
  | JObject ((k, x) :: xs) =>
      "{" +:+ newline (S depth) +:+ appendString k +:+ ": " +:+ render (S depth) x
      +:+ (fix more (l : list (string * json)) : string :=
             match l with
             | [] => ""
             | (k', y) :: l' =>
                 "," +:+ newline (S depth) +:+ appendString k' +:+ ": "
                 +:+ render (S depth) y +:+ more l'
             end) xs
      +:+ newline depth +:+ "}"
  end.

(** the members of a map, in the order of their keys *)
Definition sortedEntries {V} (m : gmap string V) : list (string * V) :=
  merge_sort (λ a b : string * V, String.le a.1 b.1) (map_to_list m).

(** *** Decoding: from the text to the tree *)

Definition isSpace (c : ascii) : bool :=
  Ascii.eqb c " " || Ascii.eqb c "009" || Ascii.eqb c "013" || Ascii.eqb c "010".

Fixpoint skipSpace (s : string) : string :=
  match s with
  | EmptyString => EmptyString
  | String c s' => if isSpace c then skipSpace s' else s
  end.

Definition hexVal (c : ascii) : option Z :=
  let b := byteZ c in
  if (48 <=? b) && (b <=? 57) then Some (b - 48)
  else if (97 <=? b) && (b <=? 102) then Some (b - 97 + 10)
  else if (65 <=? b) && (b <=? 70) then Some (b - 65 + 10)
  else None.

(** four hexadecimal digits at the head of [s] *)
Definition hex4 (s : string) : option Z :=
  match s with
  | String h1 (String h2 (String h3 (String h4 _))) =>
      match hexVal h1, hexVal h2, hexVal h3, hexVal h4 with
      | Some d1, Some d2, Some d3, Some d4 => Some (((d1 * 16 + d2) * 16 + d3) * 16 + d4)
      | _, _, _, _ => None
      end
  | _ => None
  end.

(** [getu4]: the rune of a [\uXXXX] at the head of [s], or [-1] *)
Definition getu4 (s : string) : Z :=
  match s with
  | String "\" (String "u" r) => match hex4 r with Some rr => rr | None => -1 end
  | _ => -1
  end.

Definition simpleEscape (e : ascii) : option ascii :=
  if Ascii.eqb e dquote then Some dquote
  else if Ascii.eqb e "\" then Some "\"%char
  else if Ascii.eqb e "/" then Some "/"%char
  else if Ascii.eqb e "b" then Some "008"%char
  else if Ascii.eqb e "f" then Some "012"%char
  else if Ascii.eqb e "n" then Some "010"%char
  else if Ascii.eqb e "r" then Some "013"%char
  else if Ascii.eqb e "t" then Some "009"%char
  else None.

Definition prepend (chunk : string) (r : option (string * string)) : option (string * string) :=
  match r with
  | Some (t, rest) => Some (chunk +:+ t, rest)
  | None => None
  end.

(** A string literal, from behind its opening quote: the decoded string
    ([unquote]) and the text behind the closing quote.  The scanner refuses
    control characters and unknown escapes; invalid UTF-8 is replaced by
    U+FFFD. *)
Fixpoint stringLit (fuel : nat) (s : string) : option (string * string) :=
  match fuel with
  | O => None
  | S fuel' =>
      match s with
      | EmptyString => None
      | String c r =>
          if Ascii.eqb c dquote then Some ("", r)
          else if Ascii.eqb c "\" then
            match r with
            | EmptyString => None
            | String e r' =>
                if Ascii.eqb e "u" then
                  match hex4 r' with
                  | None => None
                  | Some rr =>
                      let r6 := dropS 4 r' in
                      if utf16.IsSurrogate rr then
                        let dec := utf16.DecodeRune rr (getu4 r6) in
                        if negb (dec =? utf8.RuneError) then
                          prepend (utf8.EncodeRune dec) (stringLit fuel' (dropS 6 r6))
                        else
                          prepend (utf8.EncodeRune utf8.RuneError) (stringLit fuel' r6)
                      else prepend (utf8.EncodeRune rr) (stringLit fuel' r6)
                  end
                else
                  match simpleEscape e with
                  | Some b => prepend (String b "") (stringLit fuel' r')
                  | None => None
                  end
            end
          else if byteZ c <? 0x20 then None
          else if byteZ c <? utf8.RuneSelf then prepend (String c "") (stringLit fuel' r)
          else
            let '(rr, size) := utf8.DecodeRuneInString s in
            prepend (utf8.EncodeRune rr) (stringLit fuel' (dropS size s))
      end
  end.

(** the digits at the head of [s], and the rest *)
Fixpoint spanDigits (s : string) : string * string :=
  match s with
  | EmptyString => ("", "")
  | String c s' =>
      if isDigit c then let '(d, r) := spanDigits s' in (String c d, r)
      else ("", s)
  end.

(** A number literal at the head of [s]: an optional minus sign; then a
    zero, or a digit from 1 to 9 and any digits; then an optional fraction
    (a point and one or more digits); then an optional exponent (e or E, an
    optional sign, one or more digits). *)
Definition numberLit (s : string) : option (string * string) :=
  let '(sign, s1) :=
    match s with
    | String "-" r => ("-", r)
    | _ => ("", s)
    end in
  let intPart :=
    match s1 with
    | String "0" r => Some ("0", r)
    | _ => match spanDigits s1 with
           | (EmptyString, _) => None
           | (d, r) => Some (d, r)
           end
    end in
  match intPart with
  | None => None
  | Some (ip, s2) =>
      let frac :=
        match s2 with
        | String "." r =>
            match spanDigits r with
            | (EmptyString, _) => None
            | (d, r') => Some (String "." d, r')
            end
        | _ => Some ("", s2)
        end in
      match frac with
      | None => None
      | Some (fp, s3) =>
          let exp :=
            match s3 with
            | String e r =>
                if Ascii.eqb e "e" || Ascii.eqb e "E" then
                  let '(es, r1) :=
                    match r with
                    | String "+" r' => ("+", r')
                    | String "-" r' => ("-", r')
                    | _ => ("", r)
                    end in
                  match spanDigits r1 with
                  | (EmptyString, _) => None
                  | (d, r') => Some (String e (es +:+ d), r')
                  end
                else Some ("", s3)
            | EmptyString => Some ("", s3)
            end in
          match exp with
          | None => None
          | Some (ep, s4) => Some (sign +:+ ip +:+ fp +:+ ep, s4)
          end
      end
  end.

(** [s] without the prefix [p] *)
Fixpoint stripPrefix (p s : string) : option string :=
  match p, s with
  | EmptyString, _ => Some s
  | String a p', String b s' => if Ascii.eqb a b then stripPrefix p' s' else None
  | String _ _, EmptyString => None
  end.

(** A value at the head of [s], behind optional white space; then the
    members of an object and the elements of an array from behind the opening
    bracket.  [fuel] bounds the depth of the calls; each call consumes input. *)
Fixpoint value (fuel : nat) (s : string) : option (json * string) :=
  match fuel with
  | O => None
  | S fuel' =>
      match skipSpace s with
      | EmptyString => None
      | String c r =>
          if Ascii.eqb c "{" then
            match skipSpace r with
            | String "}" r' => Some (JObject [], r')
            | _ => match members fuel' r with
                   | Some (ms, r') => Some (JObject ms, r')
                   | None => None
                   end
            end
          else if Ascii.eqb c "[" then
            match skipSpace r with
            | String "]" r' => Some (JArray [], r')
            | _ => match elements fuel' r with
                   | Some (vs, r') => Some (JArray vs, r')
                   | None => None
                   end
            end
          else if Ascii.eqb c dquote then
            match stringLit (S (String.length r)) r with
            | Some (str, r') => Some (JString str, r')
            | None => None
            end
          else if Ascii.eqb c "t" then
            match stripPrefix "rue" r with Some r' => Some (JBool true, r') | None => None end
          else if Ascii.eqb c "f" then
            match stripPrefix "alse" r with Some r' => Some (JBool false, r') | None => None end
          else if Ascii.eqb c "n" then
            match stripPrefix "ull" r with Some r' => Some (JNull, r') | None => None end
          else
            match numberLit (String c r) with
            | Some (lit, r') => Some (JNumber lit, r')
            | None => None
            end
      end
  end
with members (fuel : nat) (s : string) : option (list (string * json) * string) :=
  match fuel with
  | O => None
  | S fuel' =>
      match skipSpace s with
      | String c r =>
          if Ascii.eqb c dquote then
            match stringLit (S (String.length r)) r with
            | Some (k, r1) =>
                match skipSpace r1 with
                | String ":" r2 =>
                    match value fuel' r2 with
                    | Some (v, r3) =>
                        match skipSpace r3 with
                        | String "," r4 =>
                            match members fuel' r4 with
                            | Some (ms, r5) => Some ((k, v) :: ms, r5)
                            | None => None
                            end
                        | String "}" r4 => Some ([(k, v)], r4)
                        | _ => None
                        end
                    | None => None
                    end
                | _ => None
                end
            | None => None
            end
          else None
      | EmptyString => None
      end
  end
with elements (fuel : nat) (s : string) : option (list json * string) :=
  match fuel with
  | O => None
  | S fuel' =>
      match value fuel' s with
      | Some (v, r1) =>
          match skipSpace r1 with
          | String "," r2 =>
              match elements fuel' r2 with
              | Some (vs, r3) => Some (v :: vs, r3)
              | None => None
              end
          | String "]" r2 => Some ([v], r2)
          | _ => None
          end
      | None => None
      end
  end.

(** the tree of a valid JSON text ([checkValid]); [None] is a syntax error *)
Definition parse (data : string) : option json :=
  match value (S (String.length data)) data with
  | Some (v, rest) =>
      match skipSpace rest with
      | EmptyString => Some v
      | String _ _ => None
      end
  | None => None
  end.

(** *** Decoding: from the tree to a Go value

    A decoder stores a JSON value into a Go value of its type.  A value of
    the wrong JSON type leaves the Go value as it is and is reported as an
    [UnmarshalTypeError]; decoding goes on, and the first such error is the
    error of [Unmarshal]. *)

Definition decoder (T : Type) : Type := json → T → T * option string.

Definition firstError (e1 e2 : option string) : option string :=
  match e1 with
  | Some e => Some e
  | None => e2
  end.

Definition typeError (what : string) : option string :=
  Some ("json: cannot unmarshal " +:+ what).

Definition decodeString : decoder string := λ v old,
  match v with
  | JString s => (s, None)
  | JNull => (old, None)
  | JBool _ => (old, typeError "bool")
  | JNumber _ => (old, typeError "number")
  | JArray _ => (old, typeError "array")
  | JObject _ => (old, typeError "object")
  end.

Definition decodeBool : decoder bool := λ v old,
  match v with
  | JBool b => (b, None)
  | JNull => (old, None)
  | JString _ => (old, typeError "string")
  | JNumber _ => (old, typeError "number")
  | JArray _ => (old, typeError "array")
  | JObject _ => (old, typeError "object")
  end.

Definition decodeInt64 : decoder Z := λ v old,
  match v with
  | JNumber lit =>
      match ParseInt lit with
      | Some n => (n, None)
      | None => (old, typeError ("number " +:+ lit))
      end
  | JNull => (old, None)
  | JString _ => (old, typeError "string")
  | JBool _ => (old, typeError "bool")
  | JArray _ => (old, typeError "array")
  | JObject _ => (old, typeError "object")
  end.

(** [foldName]: the folded form of an object key, to compare it with a field
    name made of ASCII bytes.  Lower-case ASCII letters fold to upper case;
    outside ASCII only U+017F and U+212A fold to an ASCII letter ([S], [K]);
    a key with any other rune matches no field ([None]). *)
Fixpoint foldName (s : string) : option string :=
  match s with
  | EmptyString => Some ""
  | String c r =>
      if byteZ c <? 0x80 then
        let up := if (97 <=? byteZ c) && (byteZ c <=? 122) then byte (byteZ c - 32) else c in
        match foldName r with Some t => Some (String up t) | None => None end
      else
        match s with
        | String "197" (String "191" r') =>
            match foldName r' with Some t => Some (String "S" t) | None => None end
        | String "226" (String "132" (String "170" r')) =>
            match foldName r' with Some t => Some (String "K" t) | None => None end
        | _ => None
        end
  end.

(** the field of a key: the field of that name, else a field whose name is
    the key up to case *)
Definition findField {T} (fields : list (string * decoder T)) (key : string)
  : option (decoder T) :=
  match list_find (λ f : string * decoder T, f.1 = key) fields with
  | Some (_, f) => Some f.2
  | None =>
      match list_find (λ f : string * decoder T,
                         is_Some (foldName key) ∧ foldName f.1 = foldName key) fields with
      | Some (_, f) => Some f.2
      | None => None
      end
  end.

(** an object into a struct: every member into its field, in the order of
    the text; members of no field are skipped *)
Definition decodeStruct {T} (fields : list (string * decoder T)) : decoder T := λ v old,
  match v with
  | JObject ms =>
      fold_left (λ (acc : T * option string) (kv : string * json),
                   match findField fields kv.1 with
                   | Some dec =>
                       let '(t, e) := dec kv.2 acc.1 in (t, firstError acc.2 e)
                   | None => acc
                   end) ms (old, None)
  | JNull => (old, None)
  | JString _ => (old, typeError "string")
  | JNumber _ => (old, typeError "number")
  | JBool _ => (old, typeError "bool")
  | JArray _ => (old, typeError "array")
  end.

(** an object into a map with string keys: a [nil] map is allocated, every
    member is decoded into a fresh element and stored under its key; [null]
    makes the map [nil] *)
Definition decodeMap {V} (zero : V) (elem : decoder V) : decoder (option (gmap string V)) :=
  λ v old,
  match v with
  | JObject ms =>
      let '(m, e) :=
        fold_left (λ (acc : gmap string V * option string) (kv : string * json),
                     let '(x, e) := elem kv.2 zero in
                     (<[kv.1 := x]> acc.1, firstError acc.2 e))
                  ms (default ∅ old, None) in
      (Some m, e)
  | JNull => (None, None)
  | JString _ => (old, typeError "string")
  | JNumber _ => (old, typeError "number")
  | JBool _ => (old, typeError "bool")
  | JArray _ => (old, typeError "array")
  end.

(** [Unmarshal(data, &v)] with the decoder of the type of [v]: a syntax error
    leaves [v] as it is *)
Definition Unmarshal {T} (dec : decoder T) (data : string) (old : T) : T * option string :=
  match parse data with
  | None => (old, Some "json: syntax error")
  | Some v => dec v old
  end.

End Json.

(** ** The platform (package [discordgo]) and the operating system

    A handler talks to the platform through a [Session].  What the platform
    answers is not decided by the program: the answers are the fields of
    [Session], functions of the arguments of the call.  The calls a handler
    makes that have an effect outside the process are recorded, in order, in
    the trace of the state. *)

Inductive result (A : Type) : Type :=
| Ok (a : A)
| Err (e : string).
Arguments Ok {A} a.
Arguments Err {A} e.

Inductive ChannelType : Type :=
| ChannelTypeGuildText | ChannelTypeDM | ChannelTypeGuildVoice | ChannelTypeGroupDM
| ChannelTypeOther.

Inductive InteractionType : Type :=
| InteractionPing
| InteractionApplicationCommand
| InteractionMessageComponent
| InteractionApplicationCommandAutocomplete
| InteractionModalSubmit.

Definition InteractionType_String (t : InteractionType) : string :=
  match t with
  | InteractionPing => "Ping"
  | InteractionApplicationCommand => "ApplicationCommand"
  | InteractionMessageComponent => "MessageComponent"
  | InteractionApplicationCommandAutocomplete => "ApplicationCommandAutocomplete"
  | InteractionModalSubmit => "ModalSubmit"
  end.

Inductive ButtonStyle : Type := SuccessButton | DangerButton.

Record Button : Type := mkButton {
  Label : string;
  Style : ButtonStyle;
  CustomID : string
}.

(** an [ActionsRow] is the list of its components *)
Definition ActionsRow : Type := list Button.

Record User : Type := mkUser {
  ID : string;
  Username : string;
  Discriminator : string
}.

Record MessageCreate : Type := mkMessageCreate {
  m_GuildID : string;
  m_ChannelID : string;
  m_Content : string;
  m_Author : User
}.

Record GuildMemberAdd : Type := mkGuildMemberAdd {
  gma_GuildID : string;
  gma_User : User
}.

(** the value of an option of a slash command *)
Inductive OptionValue : Type :=
| OptChannel (id : string)
| OptRole (id : string)
| OptInteger (n : Z).

Record InteractionCreate : Type := mkInteractionCreate {
  i_Type : InteractionType;
  i_GuildID : string;
  i_ChannelID : string;
  i_MessageID : string;             (* i.Message.ID *)
  i_CustomID : string;              (* i.MessageComponentData().CustomID *)
  i_CommandName : string;           (* i.ApplicationCommandData().Name *)
  i_Options : list OptionValue      (* i.ApplicationCommandData().Options *)
}.

Inductive InteractionResponse : Type :=
| DeferredChannelMessageWithSource (ephemeral : bool)
| ChannelMessageWithSource (content : string).

Inductive effect : Type :=
| Log (line : string)                                   (* package log *)
| Print (line : string)                                 (* fmt.Println, fmt.Printf *)
| ChannelMessageSend (channelID content : string)
| ChannelMessageSendComplex (channelID content : string) (components : list ActionsRow)
| ChannelMessageEditComplex (channelID messageID content : string)
                            (components : list ActionsRow)
| InteractionRespond (resp : InteractionResponse)
| InteractionResponseEdit (content : string)
| UserChannelCreate (userID : string)
| GuildMemberRoleAdd (guildID userID roleID : string)
| GuildMemberRoleRemove (guildID userID roleID : string)
| GuildMemberDelete (guildID userID : string)
| MkdirAll (path : string)
| WriteFile (path data : string).

Record Session : Type := mkSession {
  State_User_ID : string;                      (* s.State.User.ID *)
  State_Guilds : list string;                  (* the IDs of s.State.Guilds, in order *)
  Channel : string → result ChannelType;       (* the Type of s.Channel(id) *)
  GuildMember : string → string → bool;        (* err == nil && member != nil *)
  UserChannelCreate_res : string → result string;   (* the ID of the DM channel *)
  ChannelMessageSend_res : string → string → result unit;
  ChannelMessageSendComplex_res : string → string → result unit;
  ChannelMessageEditComplex_res : string → string → result unit;
  InteractionRespond_res : InteractionResponse → result unit;
  InteractionResponseEdit_res : string → result unit;
  GuildMemberRoleAdd_res : string → string → string → result unit;
  GuildMemberRoleRemove_res : string → string → string → result unit;
  GuildMemberDelete_res : string → string → result unit
}.

(** what [os.ReadFile] finds at a path *)
Inductive file : Type :=
| Readable (data : string)
| Unreadable (e : string).      (* exists, but the read fails with error [e] *)

(** ** Handlers as state transformers

    A handler runs on the state of the process: the global [config], the
    global [rateLimitMap], the files, and the trace of its calls.  The locks
    of the program make every block between [Lock] and [Unlock] atomic; a
    handler is embedded as if it ran alone.  A command either yields a value,
    or returns from the enclosing function ([return]), or panics. *)

Record State (C : Type) : Type := mkState {
  config : C;
  rateLimitMap : gmap string time.Time;
  disk : gmap string file;
  trace : list effect
}.
Arguments mkState {C}.
Arguments config {C}.
Arguments rateLimitMap {C}.
Arguments disk {C}.
Arguments trace {C}.

Inductive outcome (R A : Type) : Type :=
| Val (a : A)
| Return (r : R)
| Panic (msg : string).
Arguments Val {R A} a.
Arguments Return {R A} r.
Arguments Panic {R A} msg.

Definition M (C R A : Type) : Type := State C → State C * outcome R A.

Definition ret {C R A} (a : A) : M C R A := λ st, (st, Val a).

Definition bind {C R A B} (m : M C R A) (k : A → M C R B) : M C R B :=
  λ st, match m st with
        | (st', Val a) => k a st'
        | (st', Return r) => (st', Return r)
        | (st', Panic msg) => (st', Panic msg)
        end.

#[global] Instance M_ret {C R} : MRet (M C R) := λ A, ret.
#[global] Instance M_bind {C R} : MBind (M C R) := λ A B k m, bind m k.

(** [return r] *)
Definition return_ {C R A} (r : R) : M C R A := λ st, (st, Return r).

Definition panic {C R A} (msg : string) : M C R A := λ st, (st, Panic msg).

(** a call of a function: its [return] ends the call, not the caller *)
Definition call {C R R'} (body : M C R R) : M C R' R :=
  λ st, match body st with
        | (st', Val r) => (st', Val r)
        | (st', Return r) => (st', Val r)
        | (st', Panic msg) => (st', Panic msg)
        end.

Definition getConfig {C R} : M C R C := λ st, (st, Val (config st)).

Definition setConfig {C R} (c : C) : M C R unit :=
  λ st, (mkState c (rateLimitMap st) (disk st) (trace st), Val tt).

Definition getRateLimitMap {C R} : M C R (gmap string time.Time) :=
  λ st, (st, Val (rateLimitMap st)).

Definition setRateLimitMap {C R} (rl : gmap string time.Time) : M C R unit :=
  λ st, (mkState (config st) rl (disk st) (trace st), Val tt).

Definition getDisk {C R} : M C R (gmap string file) := λ st, (st, Val (disk st)).

Definition setDisk {C R} (d : gmap string file) : M C R unit :=
  λ st, (mkState (config st) (rateLimitMap st) d (trace st), Val tt).

Definition emit {C R} (e : effect) : M C R unit :=
  λ st, (mkState (config st) (rateLimitMap st) (disk st) (trace st ++ [e]), Val tt).

(** [v, ok := m[k]] on a map that may be [nil] *)
Definition index2 {V} (zero : V) (m : option (gmap string V)) (k : string) : V * bool :=
  match m ≫= (λ m', m' !! k) with
  | Some v => (v, true)
  | None => (zero, false)
  end.

(** [m[k] = v]; an assignment to an entry of a [nil] map panics *)
Definition assign {C R V} (m : option (gmap string V)) (k : string) (v : V)
  : M C R (option (gmap string V)) :=
  match m with
  | Some m' => ret (Some (<[k := v]> m'))
  | None => panic "assignment to entry in nil map"
  end.

(** the error of a result, [nil] as [None] *)
Definition errorOf {A} (r : result A) : option string :=
  match r with Ok _ => None | Err e => Some e end.

Record OS : Type := mkOS {
  os_MkdirAll : string → result unit;
  os_WriteFile : string → string → result unit
}.

(** ** The rate limiter

    The block of [processEmailVerification] between [rateLimitLock.Lock()]
    and [rateLimitLock.Unlock()], for the minimum interval [limit]: whether
    the attempt of [userID] at [now] is allowed, and the map afterwards.
<<
    lastTime, exists := rateLimitMap[m.Author.ID]
    now := time.Now()
    if exists && now.Sub(lastTime) < limit { ...; return }
    rateLimitMap[m.Author.ID] = now
>> *)
Definition rateLimitCheck (limit : time.Duration) (now : time.Time) (userID : string)
    (rl : gmap string time.Time) : bool * gmap string time.Time :=
  let '(lastTime, exists_) := index2 0 (Some rl) userID in
  if exists_ && (time.Sub now lastTime <? limit) then (false, rl)
  else (true, <[userID := now]> rl).

(** the loop of [processEmailVerification] over [s.State.Guilds]: the first
    guild that has the user as a member, [""] when there is none *)
Fixpoint findGuild (s : Session) (guilds : list string) (userID : string) : string :=
  match guilds with
  | [] => ""
  | guild :: rest =>
      if GuildMember s guild userID then guild else findGuild s rest userID
  end.

(** The specification's wording of the resolution: the first guild, in the
    order of the list, that has the user as a member. *)
Definition firstGuildOf (s : Session) (userID : string) : option string :=
  snd <$> list_find (λ guild, GuildMember s guild userID = true) (State_Guilds s).

(** the two buttons of a verification request *)
Definition approveButton (userID : string) : Button :=
  mkButton "Approve" SuccessButton ("approve_" +:+ userID).

Definition denyButton (userID : string) : Button :=
  mkButton "Deny" DangerButton ("deny_" +:+ userID).

Definition requestContent (m : MessageCreate) : string :=
  "User " +:+ Username (m_Author m) +:+ "#" +:+ Discriminator (m_Author m)
  +:+ " has requested verification with email " +:+ m_Content m.

Definition denialMessage : string :=
  "Oops! You need to verify your identity with a UCLan email address to access the UCLan Computing Society server. This is to ensure only society members have access to the server and ensure we keep a safe and civil community."
  +:+ String "010" (String "010"
  "As you did not verify your email, you were kicked from the server. You can rejoin and retry verification using this link: https://discord.gg/CEgCy5ejag. Thank you 🙂").

(** ** Slash commands (package [discordgo])

    the declaration of a command, as the program hands it to
    [ApplicationCommandBulkOverwrite] *)

Inductive ApplicationCommandOptionType : Type :=
| ApplicationCommandOptionChannel
| ApplicationCommandOptionRole
| ApplicationCommandOptionInteger.

Record ApplicationCommandOption : Type := mkApplicationCommandOption {
  opt_Type : ApplicationCommandOptionType;
  opt_Name : string;
  opt_Description : string;
  opt_Required : bool
}.

Record ApplicationCommand : Type := mkApplicationCommand {
  cmd_Name : string;
  cmd_Description : string;
  cmd_Options : list ApplicationCommandOption
}.

(** the type of the value of an option *)
Definition typeOf (o : OptionValue) : ApplicationCommandOptionType :=
  match o with
  | OptChannel _ => ApplicationCommandOptionChannel
  | OptRole _ => ApplicationCommandOptionRole
  | OptInteger _ => ApplicationCommandOptionInteger
  end.

(** ** The start of the process

    What [main] finds: the result of [godotenv.Load], the environment after
    it, and the answers of the platform to [discordgo.New], to [Open] and to
    [ApplicationCommandBulkOverwrite] (the number of commands registered). *)
Record Startup : Type := mkStartup {
  godotenv_Load : result unit;
  Getenv : string → string;
  discordgo_New : string → result Session;
  Open_res : result unit;
  ApplicationCommandBulkOverwrite_res :
    string → string → list ApplicationCommand → result nat
}.

(** what [main] does, in order *)
Inductive startupEvent : Type :=
| LogLine (line : string)
| Open                                              (* client.Open() *)
| ApplicationCommandBulkOverwrite (appID guildID : string) (cmds : list ApplicationCommand)
| WaitForSignal                                     (* <-sc *)
| Close.                                            (* client.Close() *)

(** how [main] ends: [log.Fatal] exits with status 1, the return with 0 *)
Inductive exit : Type := Fatal | Returned.

(** ** The current revision (with the rate limit in the configuration) *)

Module Part001.

Record ServerConfig : Type := mkServerConfig {
  MemberAuditChannelID : string;
  UnverifiedRoleID : string;
  RateLimitEnabled : bool;
  RateLimitDuration : time.Duration
}.

Definition zeroServerConfig : ServerConfig := mkServerConfig "" "" false 0.

(** [Servers] is [None] for the [nil] map *)
Record Config : Type := mkConfig {
  Servers : option (gmap string ServerConfig)
}.

Definition zeroConfig : Config := mkConfig None.

(** the entry of a guild, if it has one *)
Definition serverOf (c : Config) (guildID : string) : option ServerConfig :=
  Servers c ≫= (λ m, m !! guildID).

Definition configPath : string := "./data/config.json".

(** *** The JSON form of the configuration *)

Definition marshalServerConfig (sc : ServerConfig) : Json.json :=
  Json.JObject
    [ ("member_audit_channel_id", Json.JString (MemberAuditChannelID sc));
      ("unverified_role_id", Json.JString (UnverifiedRoleID sc));
      ("rate_limit_enabled", Json.JBool (RateLimitEnabled sc));
      ("rate_limit_duration", Json.JNumber (FormatInt (RateLimitDuration sc))) ].

Definition marshalConfig (c : Config) : Json.json :=
  Json.JObject
    [ ("servers",
       match Servers c with
       | None => Json.JNull
       | Some m =>
           Json.JObject (map (λ kv : string * ServerConfig, (kv.1, marshalServerConfig kv.2))
                             (Json.sortedEntries m))
       end) ].

(** [json.MarshalIndent(config, "", "  ")]; it has no error for this type *)
Definition MarshalIndent (c : Config) : string := Json.render 0 (marshalConfig c).

Definition decodeServerConfig : Json.decoder ServerConfig :=
  Json.decodeStruct
    [ ("member_audit_channel_id",
       λ v sc, let '(x, e) := Json.decodeString v (MemberAuditChannelID sc) in
               (mkServerConfig x (UnverifiedRoleID sc) (RateLimitEnabled sc)
                               (RateLimitDuration sc), e));
      ("unverified_role_id",
       λ v sc, let '(x, e) := Json.decodeString v (UnverifiedRoleID sc) in
               (mkServerConfig (MemberAuditChannelID sc) x (RateLimitEnabled sc)
                               (RateLimitDuration sc), e));
      ("rate_limit_enabled",
       λ v sc, let '(x, e) := Json.decodeBool v (RateLimitEnabled sc) in
               (mkServerConfig (MemberAuditChannelID sc) (UnverifiedRoleID sc) x
                               (RateLimitDuration sc), e));
      ("rate_limit_duration",
       λ v sc, let '(x, e) := Json.decodeInt64 v (RateLimitDuration sc) in
               (mkServerConfig (MemberAuditChannelID sc) (UnverifiedRoleID sc)
                               (RateLimitEnabled sc) x, e)) ].

Definition decodeConfig : Json.decoder Config :=
  Json.decodeStruct
    [ ("servers",
       λ v c, let '(m, e) := Json.decodeMap zeroServerConfig decodeServerConfig v (Servers c) in
              (mkConfig m, e)) ].

(** *** [loadConfig] and [saveConfig]; the error returned is [None] for [nil] *)

Definition loadConfig : M Config (option string) (option string) :=
  d ← getDisk;
  match d !! configPath with
  | None =>
      (* os.IsNotExist(err) *)
      setConfig (mkConfig (Some ∅));;
      return_ None
  | Some (Unreadable e) => return_ (Some e)
  | Some (Readable data) =>
      c ← getConfig;
      let '(c', err) := Json.Unmarshal decodeConfig data c in
      setConfig c';;
      return_ err
  end.

Definition saveConfig (os : OS) : M Config (option string) (option string) :=
  c ← getConfig;
  let data := MarshalIndent c in
  emit (MkdirAll "./data");;
  match os_MkdirAll os "./data" with
  | Err e => return_ (Some e)
  | Ok _ =>
      emit (WriteFile configPath data);;
      match os_WriteFile os configPath data with
      | Err e => return_ (Some e)
      | Ok _ =>
          d ← getDisk;
          setDisk (<[configPath := Readable data]> d);;
          return_ None
      end
  end.

(** *** The handlers of the administrative commands *)

(** [options[0]] *)
Definition option0 {R} (i : InteractionCreate) : M Config R OptionValue :=
  match i_Options i with
  | o :: _ => ret o
  | [] => panic "index out of range [0] with length 0"
  end.

(** [o.ChannelValue(s).ID], [o.RoleValue(s, guildID).ID], [o.IntValue()] *)
Definition ChannelValue_ID {R} (o : OptionValue) : M Config R string :=
  match o with
  | OptChannel id => ret id
  | _ => panic "ChannelValue called on data option of another type"
  end.

Definition RoleValue_ID {R} (o : OptionValue) : M Config R string :=
  match o with
  | OptRole id => ret id
  | _ => panic "RoleValue called on data option of another type"
  end.

Definition IntValue {R} (o : OptionValue) : M Config R Z :=
  match o with
  | OptInteger n => ret n
  | _ => panic "IntValue called on data option of another type"
  end.

(** the write every command makes under [configMutex]: create the entry of
    the guild when there is none, change it, store it *)
Definition updateServer {R} (guildID : string) (change : ServerConfig → ServerConfig)
  : M Config R unit :=
  c ← getConfig;
  servers ← (if negb (index2 zeroServerConfig (Servers c) guildID).2
             then assign (Servers c) guildID zeroServerConfig
             else ret (Servers c));
  let serverConfig := (index2 zeroServerConfig servers guildID).1 in
  servers' ← assign servers guildID (change serverConfig);
  setConfig (mkConfig servers').

(** the end of every command: save, and answer with the error or with the
    confirmation *)
Definition saveAndRespond (os : OS) (confirmation : string) : M Config unit unit :=
  err ← call (saveConfig os);
  match err with
  | Some e =>
      emit (InteractionRespond (ChannelMessageWithSource ("Error saving config: " +:+ e)));;
      return_ tt
  | None =>
      emit (InteractionRespond (ChannelMessageWithSource confirmation))
  end.

Definition setMemberAuditChannel (os : OS) (s : Session) (i : InteractionCreate)
  : M Config unit unit :=
  o ← option0 i;
  channelID ← ChannelValue_ID o;
  let guildID := i_GuildID i in
  updateServer guildID
    (λ sc, mkServerConfig channelID (UnverifiedRoleID sc) (RateLimitEnabled sc)
                          (RateLimitDuration sc));;
  saveAndRespond os
    ("Member audit channel set successfully! :white_check_mark: <#" +:+ channelID +:+ ">").

Definition setUnverifiedRole (os : OS) (s : Session) (i : InteractionCreate)
  : M Config unit unit :=
  o ← option0 i;
  roleID ← RoleValue_ID o;
  let guildID := i_GuildID i in
  updateServer guildID
    (λ sc, mkServerConfig (MemberAuditChannelID sc) roleID (RateLimitEnabled sc)
                          (RateLimitDuration sc));;
  saveAndRespond os
    ("Verified role set successfully! :white_check_mark: <@&" +:+ roleID +:+ ">").

Definition enableRateLimit (os : OS) (s : Session) (i : InteractionCreate)
  : M Config unit unit :=
  let guildID := i_GuildID i in
  updateServer guildID
    (λ sc, mkServerConfig (MemberAuditChannelID sc) (UnverifiedRoleID sc) true
             (if RateLimitDuration sc =? 0 then 5 * time.Minute (* Default to 5 minutes *)
              else RateLimitDuration sc));;
  saveAndRespond os "Rate limiting enabled successfully! :white_check_mark:".

Definition disableRateLimit (os : OS) (s : Session) (i : InteractionCreate)
  : M Config unit unit :=
  let guildID := i_GuildID i in
  updateServer guildID
    (λ sc, mkServerConfig (MemberAuditChannelID sc) (UnverifiedRoleID sc) false
                          (RateLimitDuration sc));;
  saveAndRespond os "Rate limiting disabled successfully! :white_check_mark:".

Definition setRateLimit (os : OS) (s : Session) (i : InteractionCreate)
  : M Config unit unit :=
  o ← option0 i;
  minutes ← IntValue o;
  let guildID := i_GuildID i in
  updateServer guildID
    (λ sc, mkServerConfig (MemberAuditChannelID sc) (UnverifiedRoleID sc)
                          (RateLimitEnabled sc) (wrap64 (minutes * time.Minute)));;
  saveAndRespond os
    ("Rate limit set to " +:+ FormatInt minutes +:+ " minutes successfully! :white_check_mark:").

Definition checkRateLimit (os : OS) (s : Session) (i : InteractionCreate)
  : M Config unit unit :=
  let guildID := i_GuildID i in
  c ← getConfig;
  let '(serverConfig, exists_) := index2 zeroServerConfig (Servers c) guildID in
  if negb exists_ then
    emit (InteractionRespond (ChannelMessageWithSource "No rate limit configured for this server"));;
    return_ tt
  else
    let content :=
      if RateLimitEnabled serverConfig then
        "Rate limit is enabled with a duration of "
        +:+ FormatInt (Z.quot (RateLimitDuration serverConfig) time.Minute) +:+ " minutes"
      else "Rate limit is disabled" in
    emit (InteractionRespond (ChannelMessageWithSource content)).

(** *** The verification flow *)

Definition guildMemberAdd (s : Session) (m : GuildMemberAdd) : M Config unit unit :=
  c ← getConfig;
  let '(serverConfig, exists_) := index2 zeroServerConfig (Servers c) (gma_GuildID m) in
  if negb exists_ then
    emit (Log ("No config found for guild " +:+ gma_GuildID m));;
    return_ tt
  else
    (if negb (String.eqb (UnverifiedRoleID serverConfig) "") then
       emit (GuildMemberRoleAdd (gma_GuildID m) (ID (gma_User m)) (UnverifiedRoleID serverConfig));;
       match GuildMemberRoleAdd_res s (gma_GuildID m) (ID (gma_User m))
                                    (UnverifiedRoleID serverConfig) with
       | Err e => emit (Log ("Error adding role to user " +:+ ID (gma_User m) +:+ ": " +:+ e))
       | Ok _ => ret tt
       end
     else emit (Log ("No unverified role configured for guild " +:+ gma_GuildID m)));;
    emit (UserChannelCreate (ID (gma_User m)));;
    match UserChannelCreate_res s (ID (gma_User m)) with
    | Err e =>
        emit (Print ("Error creating DM channel: " +:+ e));;
        return_ tt
    | Ok channel =>
        let welcome :=
          "Welcome! Please provide your university email for verification. For example:```example@uclan.ac.uk```" in
        emit (ChannelMessageSend channel welcome);;
        match ChannelMessageSend_res s channel welcome with
        | Err e => emit (Print ("Error sending DM: " +:+ e))
        | Ok _ => ret tt
        end
    end.

Definition processEmailVerification (s : Session) (now : time.Time) (m : MessageCreate)
  : M Config unit unit :=
  c ← getConfig;
  let '(serverConfig, exists_) := index2 zeroServerConfig (Servers c) (m_GuildID m) in
  if negb exists_ then
    emit (Log ("No config found for guild " +:+ m_GuildID m));;
    return_ tt
  else
    (if RateLimitEnabled serverConfig then
       rl ← getRateLimitMap;
       let '(allowed, rl') :=
         rateLimitCheck (RateLimitDuration serverConfig) now (ID (m_Author m)) rl in
       if negb allowed then
         emit (ChannelMessageSend (m_ChannelID m)
                 ("Please wait "
                  +:+ FormatInt (Z.quot (RateLimitDuration serverConfig) time.Minute)
                  +:+ " minutes before sending another verification request."));;
         return_ tt
       else setRateLimitMap rl'
     else ret tt);;
    (* Validate email *)
    if negb (Regexp.MatchString emailRegex (m_Content m)) then
      emit (ChannelMessageSend (m_ChannelID m)
              "Invalid email. Please provide a valid UCLan email.");;
      return_ tt
    else
      let guildID := findGuild s (State_Guilds s) (ID (m_Author m)) in
      if String.eqb guildID "" then
        emit (Log "User is not in any guild");;
        return_ tt
      else
        c ← getConfig;
        let serverConfig := (index2 zeroServerConfig (Servers c) guildID).1 in
        let actionRow := [approveButton (ID (m_Author m)); denyButton (ID (m_Author m))] in
        emit (ChannelMessageSendComplex (MemberAuditChannelID serverConfig)
                (requestContent m) [actionRow]);;
        match ChannelMessageSendComplex_res s (MemberAuditChannelID serverConfig)
                                            (requestContent m) with
        | Err e => emit (Log ("Error sending message to audit channel: " +:+ e))
        | Ok _ => ret tt
        end.

Definition memberDM (s : Session) (now : time.Time) (m : MessageCreate) : M Config unit unit :=
  if String.eqb (ID (m_Author m)) (State_User_ID s) then return_ tt
  else
    match Channel s (m_ChannelID m) with
    | Err e =>
        emit (Print ("Error getting channel: " +:+ e));;
        return_ tt
    | Ok ChannelTypeDM =>
        call (processEmailVerification s now m);;
        return_ tt
    | Ok _ => ret tt
    end.

Definition handleButton (s : Session) (i : InteractionCreate) : M Config unit unit :=
  emit (InteractionRespond (DeferredChannelMessageWithSource true));;
  match InteractionRespond_res s (DeferredChannelMessageWithSource true) with
  | Err e =>
      emit (Log ("Error acknowledging interaction: " +:+ e));;
      return_ tt
  | Ok _ =>
  match i_Type i with
  | InteractionMessageComponent =>
  let customID := i_CustomID i in
  emit (Log ("Received button interaction: " +:+ customID));;
  (* Split by underscore to properly separate action and userID *)
  match Strings.Split customID "_" with
  | [action; userID] =>
      emit (Log ("Processing " +:+ action +:+ " action for user " +:+ userID));;
      responseContent ←
        (if String.eqb action "approve" then
           emit (UserChannelCreate userID);;
           match UserChannelCreate_res s userID with
           | Err e =>
               emit (Log ("Error creating DM channel: " +:+ e));;
               return_ tt
           | Ok dmChannel =>
               let approvalMessage :=
                 "You have been approved to join the UCLan Computing Society server. Welcome! 🎉" in
               emit (ChannelMessageSend dmChannel approvalMessage);;
               match ChannelMessageSend_res s dmChannel approvalMessage with
               | Err e => emit (Log ("Error sending DM: " +:+ e))
               | Ok _ => ret tt
               end
           end;;
           (* Remove unverified role *)
           c ← getConfig;
           let '(serverConfig, exists_) :=
             index2 zeroServerConfig (Servers c) (i_GuildID i) in
           (if exists_ && negb (String.eqb (UnverifiedRoleID serverConfig) "") then
              emit (GuildMemberRoleRemove (i_GuildID i) userID (UnverifiedRoleID serverConfig));;
              match GuildMemberRoleRemove_res s (i_GuildID i) userID
                                              (UnverifiedRoleID serverConfig) with
              | Err e => emit (Log ("Error removing unverified role: " +:+ e))
              | Ok _ => ret tt
              end
            else ret tt);;
           ret ("<@" +:+ userID +:+ "> has been approved! Welcome to the server! 🎉")
         else if String.eqb action "deny" then
           (* Send DM to the denied user before removing them *)
           emit (UserChannelCreate userID);;
           match UserChannelCreate_res s userID with
           | Err e =>
               emit (Log ("Error creating DM channel: " +:+ e));;
               return_ tt
           | Ok dmChannel =>
               emit (ChannelMessageSend dmChannel denialMessage);;
               match ChannelMessageSend_res s dmChannel denialMessage with
               | Err e => emit (Log ("Error sending DM: " +:+ e))
               | Ok _ => ret tt
               end
           end;;
           (* Kick the member *)
           emit (GuildMemberDelete (i_GuildID i) userID);;
           match GuildMemberDelete_res s (i_GuildID i) userID with
           | Err e =>
               emit (Log ("Error kicking user " +:+ userID +:+ ": " +:+ e));;
               emit (InteractionResponseEdit "Error processing denial");;
               return_ tt
           | Ok _ =>
               ret ("<@" +:+ userID +:+ "> has been denied and removed from the server.")
           end
         else
           emit (Log ("Unknown action: " +:+ action));;
           emit (InteractionResponseEdit "Unknown action");;
           return_ tt);
      (* Update the original message to remove buttons and show the result *)
      emit (ChannelMessageEditComplex (i_ChannelID i) (i_MessageID i) responseContent []);;
      match ChannelMessageEditComplex_res s (i_ChannelID i) (i_MessageID i) with
      | Err e => emit (Log ("Error editing original message: " +:+ e))
      | Ok _ => ret tt
      end;;
      (* Edit the deferred response *)
      emit (InteractionResponseEdit "Action completed successfully");;
      match InteractionResponseEdit_res s "Action completed successfully" with
      | Err e => emit (Log ("Error editing interaction response: " +:+ e))
      | Ok _ => ret tt
      end
  | _ =>
      emit (Log ("Invalid button customID format: " +:+ customID));;
      return_ tt
  end
  | t =>
      emit (Log ("Received non-component interaction: " +:+ InteractionType_String t));;
      return_ tt
  end
  end.

(** [commandHandlers] *)
Definition commandHandlers (name : string)
  : option (OS → Session → InteractionCreate → M Config unit unit) :=
  if String.eqb name "set_member_audit_channel" then Some setMemberAuditChannel
  else if String.eqb name "set_unverified_role" then Some setUnverifiedRole
  else if String.eqb name "enable_rate_limit" then Some enableRateLimit
  else if String.eqb name "disable_rate_limit" then Some disableRateLimit
  else if String.eqb name "set_rate_limit" then Some setRateLimit
  else if String.eqb name "check_rate_limit" then Some checkRateLimit
  else None.

(** the handler [main] registers for [InteractionCreate] *)
Definition interactionCreate (os : OS) (s : Session) (i : InteractionCreate)
  : M Config unit unit :=
  match i_Type i with
  | InteractionApplicationCommand =>
      match commandHandlers (i_CommandName i) with
      | Some h => call (h os s i)
      | None => ret tt
      end
  | InteractionMessageComponent => call (handleButton s i)
  | _ => ret tt
  end.

(** [commands] *)
Definition commands : list ApplicationCommand :=
  [ mkApplicationCommand "set_member_audit_channel" "Set the member audit channel"
      [ mkApplicationCommandOption ApplicationCommandOptionChannel "channel"
          "The channel to use for member audits" true ];
    mkApplicationCommand "set_unverified_role" "Set the unverified role"
      [ mkApplicationCommandOption ApplicationCommandOptionRole "role"
          "The role to set as the unverified role" true ];
    mkApplicationCommand "enable_rate_limit" "Enable rate limiting for email verification" [];
    mkApplicationCommand "disable_rate_limit" "Disable rate limiting for email verification" [];
    mkApplicationCommand "set_rate_limit" "Set the rate limit for email verification"
      [ mkApplicationCommandOption ApplicationCommandOptionInteger "minutes"
          "The number of minutes to set the rate limit to" true ];
    mkApplicationCommand "check_rate_limit" "Check the current rate limit status" [] ].

(** *** [main]

    up to the registration of the commands, and, when the signal comes, to
    the end.  The handlers it registers are [interactionCreate],
    [guildMemberAdd] and [memberDM]; nothing in [main] itself panics, so that
    its deferred [recover] stays idle. *)
Definition main (env : Startup) (st0 : State Config)
  : State Config * list startupEvent * exit :=
  (* Load config *)
  let '(st, err) := call (R' := exit) loadConfig st0 in
  match err with
  | Panic msg => (st, [LogLine ("Bot crashed: " +:+ msg)], Fatal)
  | Return status => (st, [], status)
  | Val (Some e) => (st, [LogLine ("Error loading config: " +:+ e)], Fatal)
  | Val None =>
  (* Load .env file *)
  match godotenv_Load env with
  | Err _ => (st, [LogLine "Error loading .env file"], Fatal)
  | Ok _ =>
  let log1 := [LogLine "Successfully loaded .env file"] in
  (* Get the token from the .env file *)
  let token := Getenv env "DISCORD_TOKEN" in
  if String.eqb token "" then
    (st, log1 ++ [LogLine "No token provided. Please set DISCORD_BOT_TOKEN in .env"], Fatal)
  else
  let log2 := log1 ++ [LogLine "Successfully retrieved bot token"] in
  (* Create a new Discord session using the provided bot token. *)
  match discordgo_New env ("Bot " +:+ token) with
  | Err e => (st, log2 ++ [LogLine ("Error creating Discord session:" +:+ e)], Fatal)
  | Ok client =>
  let log3 := log2 ++ [LogLine "Successfully created Discord session"] in
  (* Retrieve the guild ID from the .env file *)
  let guildId := Getenv env "GUILD_ID" in
  let log4 :=
    log3 ++ [LogLine (if String.eqb guildId ""
                      then "Deploying commands globally as no guild ID is provided."
                      else "Deploying commands to guild ID: " +:+ guildId)] in
  (* Open a websocket connection to Discord and begin listening. *)
  match Open_res env with
  | Err e => (st, log4 ++ [Open; LogLine ("Error opening connection: " +:+ e)], Fatal)
  | Ok _ =>
  (* Register slash commands *)
  let register := ApplicationCommandBulkOverwrite (State_User_ID client) guildId commands in
  match ApplicationCommandBulkOverwrite_res env (State_User_ID client) guildId commands with
  | Err e =>
      (st, log4 ++ [Open; register; LogLine ("Error registering slash commands: " +:+ e)],
       Fatal)
  | Ok registeredCommands =>
      (st,
       log4 ++ [Open; register;
                LogLine ("Registered " +:+ FormatInt (Z.of_nat registeredCommands)
                         +:+ " commands");
                LogLine "Bot is now running. Press CTRL-C to exit.";
                WaitForSignal;
                LogLine "Shutting down...";
                Close],
       Returned)
  end end end end end.

End Part001.

(** ** The revision before it (fixed rate limit of five minutes) *)

Module Part000.

Record ServerConfig : Type := mkServerConfig {
  VerificationChannelID : string;
  MemberAuditChannelID : string;
  UnverifiedRoleID : string
}.

Definition zeroServerConfig : ServerConfig := mkServerConfig "" "" "".

Record Config : Type := mkConfig {
  Servers : option (gmap string ServerConfig)
}.

Definition zeroConfig : Config := mkConfig None.

(** the entry of a guild, if it has one *)
Definition serverOf (c : Config) (guildID : string) : option ServerConfig :=
  Servers c ≫= (λ m, m !! guildID).

Definition configPath : string := "config.json".

Definition marshalServerConfig (sc : ServerConfig) : Json.json :=
  Json.JObject
    [ ("verification_channel_id", Json.JString (VerificationChannelID sc));
      ("member_audit_channel_id", Json.JString (MemberAuditChannelID sc));
      ("unverified_role_id", Json.JString (UnverifiedRoleID sc)) ].

Definition marshalConfig (c : Config) : Json.json :=
  Json.JObject
    [ ("servers",
       match Servers c with
       | None => Json.JNull
       | Some m =>
           Json.JObject (map (λ kv : string * ServerConfig, (kv.1, marshalServerConfig kv.2))
                             (Json.sortedEntries m))
       end) ].

Definition MarshalIndent (c : Config) : string := Json.render 0 (marshalConfig c).

Definition decodeServerConfig : Json.decoder ServerConfig :=
  Json.decodeStruct
    [ ("verification_channel_id",
       λ v sc, let '(x, e) := Json.decodeString v (VerificationChannelID sc) in
               (mkServerConfig x (MemberAuditChannelID sc) (UnverifiedRoleID sc), e));
      ("member_audit_channel_id",
       λ v sc, let '(x, e) := Json.decodeString v (MemberAuditChannelID sc) in
               (mkServerConfig (VerificationChannelID sc) x (UnverifiedRoleID sc), e));
      ("unverified_role_id",
       λ v sc, let '(x, e) := Json.decodeString v (UnverifiedRoleID sc) in
               (mkServerConfig (VerificationChannelID sc) (MemberAuditChannelID sc) x, e)) ].

Definition decodeConfig : Json.decoder Config :=
  Json.decodeStruct
    [ ("servers",
       λ v c, let '(m, e) := Json.decodeMap zeroServerConfig decodeServerConfig v (Servers c) in
              (mkConfig m, e)) ].

Definition loadConfig : M Config (option string) (option string) :=
  d ← getDisk;
  match d !! configPath with
  | None =>
      setConfig (mkConfig (Some ∅));;
      return_ None
  | Some (Unreadable e) => return_ (Some e)
  | Some (Readable data) =>
      c ← getConfig;
      let '(c', err) := Json.Unmarshal decodeConfig data c in
      setConfig c';;
      return_ err
  end.

Definition saveConfig (os : OS) : M Config (option string) (option string) :=
  c ← getConfig;
  let data := MarshalIndent c in
  emit (WriteFile configPath data);;
  match os_WriteFile os configPath data with
  | Err e => return_ (Some e)
  | Ok _ =>
      d ← getDisk;
      setDisk (<[configPath := Readable data]> d);;
      return_ None
  end.

Definition processEmailVerification (s : Session) (now : time.Time) (m : MessageCreate)
  : M Config unit unit :=
  (* Check rate limit *)
  rl ← getRateLimitMap;
  let '(allowed, rl') := rateLimitCheck (5 * time.Minute) now (ID (m_Author m)) rl in
  (if negb allowed then
     emit (ChannelMessageSend (m_ChannelID m)
             "Please wait 5 minutes before sending another verification request.");;
     return_ tt
   else setRateLimitMap rl');;
  (* Validate email *)
  if negb (Regexp.MatchString emailRegex (m_Content m)) then
    emit (ChannelMessageSend (m_ChannelID m)
            "Invalid email. Please provide a valid UCLan email.");;
    return_ tt
  else
    let guildID := findGuild s (State_Guilds s) (ID (m_Author m)) in
    if String.eqb guildID "" then
      emit (Log "User is not in any guild");;
      return_ tt
    else
      c ← getConfig;
      let '(serverConfig, exists_) := index2 zeroServerConfig (Servers c) guildID in
      if negb exists_ || String.eqb (VerificationChannelID serverConfig) "" then
        emit (Log ("No member audit channel configured for guild " +:+ guildID));;
        return_ tt
      else
        let actionRow := [approveButton (ID (m_Author m)); denyButton (ID (m_Author m))] in
        emit (ChannelMessageSendComplex (MemberAuditChannelID serverConfig)
                (requestContent m) [actionRow]);;
        match ChannelMessageSendComplex_res s (MemberAuditChannelID serverConfig)
                                            (requestContent m) with
        | Err e => emit (Log ("Error sending message to audit channel: " +:+ e))
        | Ok _ => ret tt
        end.

Definition handleButton (s : Session) (i : InteractionCreate) : M Config unit unit :=
  emit (InteractionRespond (DeferredChannelMessageWithSource true));;
  match InteractionRespond_res s (DeferredChannelMessageWithSource true) with
  | Err e =>
      emit (Log ("Error acknowledging interaction: " +:+ e));;
      return_ tt
  | Ok _ =>
  match i_Type i with
  | InteractionMessageComponent =>
  let customID := i_CustomID i in
  emit (Log ("Received button interaction: " +:+ customID));;
  match Strings.Split customID "_" with
  | [action; userID] =>
      emit (Log ("Processing " +:+ action +:+ " action for user " +:+ userID));;
      responseContent ←
        (if String.eqb action "approve" then
           (* Remove unverified role *)
           c ← getConfig;
           let '(serverConfig, exists_) :=
             index2 zeroServerConfig (Servers c) (i_GuildID i) in
           (if exists_ && negb (String.eqb (UnverifiedRoleID serverConfig) "") then
              emit (GuildMemberRoleRemove (i_GuildID i) userID (UnverifiedRoleID serverConfig));;
              match GuildMemberRoleRemove_res s (i_GuildID i) userID
                                              (UnverifiedRoleID serverConfig) with
              | Err e => emit (Log ("Error removing unverified role: " +:+ e))
              | Ok _ => ret tt
              end
            else ret tt);;
           ret ("<@" +:+ userID +:+ "> has been approved! Welcome to the server! 🎉")
         else if String.eqb action "deny" then
           emit (UserChannelCreate userID);;
           match UserChannelCreate_res s userID with
           | Err e =>
               emit (Log ("Error creating DM channel: " +:+ e));;
               return_ tt
           | Ok dmChannel =>
               emit (ChannelMessageSend dmChannel denialMessage);;
               match ChannelMessageSend_res s dmChannel denialMessage with
               | Err e => emit (Log ("Error sending DM: " +:+ e))
               | Ok _ => ret tt
               end
           end;;
           emit (GuildMemberDelete (i_GuildID i) userID);;
           match GuildMemberDelete_res s (i_GuildID i) userID with
           | Err e =>
               emit (Log ("Error kicking user " +:+ userID +:+ ": " +:+ e));;
               emit (InteractionResponseEdit "Error processing denial");;
               return_ tt
           | Ok _ =>
               ret ("<@" +:+ userID +:+ "> has been denied and removed from the server.")
           end
         else
           emit (Log ("Unknown action: " +:+ action));;
           emit (InteractionResponseEdit "Unknown action");;
           return_ tt);
      emit (ChannelMessageEditComplex (i_ChannelID i) (i_MessageID i) responseContent []);;
      match ChannelMessageEditComplex_res s (i_ChannelID i) (i_MessageID i) with
      | Err e => emit (Log ("Error editing original message: " +:+ e))
      | Ok _ => ret tt
      end;;
      emit (InteractionResponseEdit "Action completed successfully");;
      match InteractionResponseEdit_res s "Action completed successfully" with
      | Err e => emit (Log ("Error editing interaction response: " +:+ e))
      | Ok _ => ret tt
      end
  | _ =>
      emit (Log ("Invalid button customID format: " +:+ customID));;
      return_ tt
  end
  | t =>
      emit (Log ("Received non-component interaction: " +:+ InteractionType_String t));;
      return_ tt
  end
  end.

(** *** The handlers of the administrative commands *)

(** [options[0]] *)
Definition option0 {R} (i : InteractionCreate) : M Config R OptionValue :=
  match i_Options i with
  | o :: _ => ret o
  | [] => panic "index out of range [0] with length 0"
  end.

(** [o.ChannelValue(s).ID] and [o.RoleValue(s, guildID).ID] *)
Definition ChannelValue_ID {R} (o : OptionValue) : M Config R string :=
  match o with
  | OptChannel id => ret id
  | _ => panic "ChannelValue called on data option of another type"
  end.

Definition RoleValue_ID {R} (o : OptionValue) : M Config R string :=
  match o with
  | OptRole id => ret id
  | _ => panic "RoleValue called on data option of another type"
  end.

(** the write every command makes under [configMutex] *)
Definition updateServer {R} (guildID : string) (change : ServerConfig → ServerConfig)
  : M Config R unit :=
  c ← getConfig;
  servers ← (if negb (index2 zeroServerConfig (Servers c) guildID).2
             then assign (Servers c) guildID zeroServerConfig
             else ret (Servers c));
  let serverConfig := (index2 zeroServerConfig servers guildID).1 in
  servers' ← assign servers guildID (change serverConfig);
  setConfig (mkConfig servers').

(** the end of every command: save, and answer with the error or with the
    confirmation *)
Definition saveAndRespond (os : OS) (confirmation : string) : M Config unit unit :=
  err ← call (saveConfig os);
  match err with
  | Some e =>
      emit (InteractionRespond (ChannelMessageWithSource ("Error saving config: " +:+ e)));;
      return_ tt
  | None =>
      emit (InteractionRespond (ChannelMessageWithSource confirmation))
  end.

Definition setVerificationChannel (os : OS) (s : Session) (i : InteractionCreate)
  : M Config unit unit :=
  o ← option0 i;
  channelID ← ChannelValue_ID o;
  let guildID := i_GuildID i in
  updateServer guildID
    (λ sc, mkServerConfig channelID (MemberAuditChannelID sc) (UnverifiedRoleID sc));;
  saveAndRespond os
    ("Verification channel set successfully! :white_check_mark: <#" +:+ channelID +:+ ">").

Definition setMemberAuditChannel (os : OS) (s : Session) (i : InteractionCreate)
  : M Config unit unit :=
  o ← option0 i;
  channelID ← ChannelValue_ID o;
  let guildID := i_GuildID i in
  updateServer guildID
    (λ sc, mkServerConfig (VerificationChannelID sc) channelID (UnverifiedRoleID sc));;
  saveAndRespond os
    ("Member audit channel set successfully! :white_check_mark: <#" +:+ channelID +:+ ">").

Definition setUnverifiedRole (os : OS) (s : Session) (i : InteractionCreate)
  : M Config unit unit :=
  o ← option0 i;
  roleID ← RoleValue_ID o;
  let guildID := i_GuildID i in
  updateServer guildID
    (λ sc, mkServerConfig (VerificationChannelID sc) (MemberAuditChannelID sc) roleID);;
  saveAndRespond os
    ("Verified role set successfully! :white_check_mark: <@&" +:+ roleID +:+ ">").

Definition guildMemberAdd (s : Session) (m : GuildMemberAdd) : M Config unit unit :=
  c ← getConfig;
  let '(serverConfig, exists_) := index2 zeroServerConfig (Servers c) (gma_GuildID m) in
  if negb exists_ then
    emit (Log ("No config found for guild " +:+ gma_GuildID m));;
    return_ tt
  else
    (if negb (String.eqb (UnverifiedRoleID serverConfig) "") then
       emit (GuildMemberRoleAdd (gma_GuildID m) (ID (gma_User m)) (UnverifiedRoleID serverConfig));;
       match GuildMemberRoleAdd_res s (gma_GuildID m) (ID (gma_User m))
                                    (UnverifiedRoleID serverConfig) with
       | Err e => emit (Log ("Error adding role to user " +:+ ID (gma_User m) +:+ ": " +:+ e))
       | Ok _ => ret tt
       end
     else emit (Log ("No unverified role configured for guild " +:+ gma_GuildID m)));;
    emit (UserChannelCreate (ID (gma_User m)));;
    match UserChannelCreate_res s (ID (gma_User m)) with
    | Err e =>
        emit (Print ("Error creating DM channel: " +:+ e));;
        return_ tt
    | Ok channel =>
        let welcome := "Welcome! Please provide your university email for verification." in
        emit (ChannelMessageSend channel welcome);;
        match ChannelMessageSend_res s channel welcome with
        | Err e => emit (Print ("Error sending DM: " +:+ e))
        | Ok _ => ret tt
        end
    end.

Definition memberDM (s : Session) (now : time.Time) (m : MessageCreate) : M Config unit unit :=
  if String.eqb (ID (m_Author m)) (State_User_ID s) then return_ tt
  else
    match Channel s (m_ChannelID m) with
    | Err e =>
        emit (Print ("Error getting channel: " +:+ e));;
        return_ tt
    | Ok ChannelTypeDM =>
        call (processEmailVerification s now m);;
        return_ tt
    | Ok _ => ret tt
    end.

(** [commandHandlers] *)
Definition commandHandlers (name : string)
  : option (OS → Session → InteractionCreate → M Config unit unit) :=
  if String.eqb name "set_verification_channel" then Some setVerificationChannel
  else if String.eqb name "set_member_audit_channel" then Some setMemberAuditChannel
  else if String.eqb name "set_unverified_role" then Some setUnverifiedRole
  else None.

(** the handler [main] registers for [InteractionCreate] *)
Definition interactionCreate (os : OS) (s : Session) (i : InteractionCreate)
  : M Config unit unit :=
  match i_Type i with
  | InteractionApplicationCommand =>
      match commandHandlers (i_CommandName i) with
      | Some h => call (h os s i)
      | None => ret tt
      end
  | InteractionMessageComponent => call (handleButton s i)
  | _ => ret tt
  end.

(** [commands] *)
Definition commands : list ApplicationCommand :=
  [ mkApplicationCommand "set_verification_channel" "Set the verification channel"
      [ mkApplicationCommandOption ApplicationCommandOptionChannel "channel"
          "The channel to set as the verification channel" true ];
    mkApplicationCommand "set_member_audit_channel" "Set the member audit channel"
      [ mkApplicationCommandOption ApplicationCommandOptionChannel "channel"
          "The channel to use for member audits" true ];
    mkApplicationCommand "set_unverified_role" "Set the unverified role"
      [ mkApplicationCommandOption ApplicationCommandOptionRole "role"
          "The role to set as the unverified role" true ] ].

End Part000.

(** ** The first revision with a configuration ([main.go])

    Its declarations of [ServerConfig] and [Config], its [loadConfig] and its
    [saveConfig] are those of the revision above, word for word; its
    [processEmailVerification] has no rate limit, no validation and no
    buttons. *)

Module MainGo.

Definition loadConfig : M Part000.Config (option string) (option string) :=
  Part000.loadConfig.

Definition processEmailVerification (s : Session) (m : MessageCreate)
  : M Part000.Config unit unit :=
  (* Find the guild ID for this user *)
  let guildID := findGuild s (State_Guilds s) (ID (m_Author m)) in
  if String.eqb guildID "" then
    emit (Log "User is not in any guild");;
    return_ tt
  else
    c ← getConfig;
    let '(serverConfig, exists_) :=
      index2 Part000.zeroServerConfig (Part000.Servers c) guildID in
    if negb exists_ || String.eqb (Part000.VerificationChannelID serverConfig) "" then
      emit (Log ("No member audit channel configured for guild " +:+ guildID));;
      return_ tt
    else
      let content :=
        "User " +:+ ID (m_Author m) +:+ " has requested verification with email "
        +:+ m_Content m in
      emit (ChannelMessageSend (Part000.MemberAuditChannelID serverConfig) content);;
      match ChannelMessageSend_res s (Part000.MemberAuditChannelID serverConfig) content with
      | Err e => emit (Log ("Error sending message to audit channel: " +:+ e))
      | Ok _ => ret tt
      end.


(** [saveConfig], the three commands and [guildMemberAdd] are those of the
    revision above, word for word *)
Definition saveConfig (os : OS) : M Part000.Config (option string) (option string) :=
  Part000.saveConfig os.

Definition setVerificationChannel := Part000.setVerificationChannel.
Definition setMemberAuditChannel := Part000.setMemberAuditChannel.
Definition setUnverifiedRole := Part000.setUnverifiedRole.
Definition guildMemberAdd := Part000.guildMemberAdd.

Definition memberDM (s : Session) (m : MessageCreate) : M Part000.Config unit unit :=
  if String.eqb (ID (m_Author m)) (State_User_ID s) then return_ tt
  else
    match Channel s (m_ChannelID m) with
    | Err e =>
        emit (Print ("Error getting channel: " +:+ e));;
        return_ tt
    | Ok ChannelTypeDM =>
        call (processEmailVerification s m);;
        return_ tt
    | Ok _ => ret tt
    end.

End MainGo.

(** ** The first program of the repository: ping and pong ([part_002])

    It has no configuration: a handler runs on a state with the unit
    configuration. *)

Module Part002.

Definition messageCreate (s : Session) (m : MessageCreate) : M unit unit unit :=
  (* Ignore all messages created by the bot itself *)
  if String.eqb (ID (m_Author m)) (State_User_ID s) then return_ tt
  else
    (* If the message is "ping" reply with "Pong!" *)
    (if String.eqb (m_Content m) "ping" then
       emit (ChannelMessageSend (m_ChannelID m) "Pong!")
     else ret tt);;
    (if String.eqb (m_Content m) "pong" then
       emit (ChannelMessageSend (m_ChannelID m) "Ping!")
     else ret tt).

End Part002.

(** ** Running a handler *)

(** the state of a process that has just started: nothing loaded, nothing
    recorded, the files as they are *)
Definition freshState {C} (zero : C) (d : gmap string file) : State C :=
  mkState zero ∅ d [].

(** the state a handler leaves *)
Definition run {C R A} (h : M C R A) (st : State C) : State C := (h st).1.

(** the calls a handler adds to the trace *)
Definition effectsOf {C R A} (h : M C R A) (st : State C) : list effect :=
  drop (length (trace st)) (trace (run h st)).

(** the calls that change the platform: roles, membership, and the message
    of the audit channel *)
Definition isRoleRemoval (e : effect) : bool :=
  match e with GuildMemberRoleRemove _ _ _ => true | _ => false end.

Definition isMemberRemoval (e : effect) : bool :=
  match e with GuildMemberDelete _ _ => true | _ => false end.

Definition isMessageEdit (e : effect) : bool :=
  match e with ChannelMessageEditComplex _ _ _ _ => true | _ => false end.

Definition isResponseEdit (e : effect) : bool :=
  match e with InteractionResponseEdit _ => true | _ => false end.

Definition isMutation (e : effect) : bool :=
  isRoleRemoval e || isMemberRemoval e || isMessageEdit e.

Definition isPost (e : effect) : bool :=
  match e with
  | ChannelMessageSend _ _ | ChannelMessageSendComplex _ _ _ => true
  | _ => false
  end.

(** ** The calls of a verification request

    the reply of the current revision to a message that comes too early, and
    the post of a request to a channel with what follows when it fails *)
Definition waitReply (sc : Part001.ServerConfig) : string :=
  "Please wait " +:+ FormatInt (Z.quot (Part001.RateLimitDuration sc) time.Minute)
  +:+ " minutes before sending another verification request.".

Definition postOf (s : Session) (channel : string) (m : MessageCreate) : list effect :=
  ChannelMessageSendComplex channel (requestContent m)
    [[approveButton (ID (m_Author m)); denyButton (ID (m_Author m))]]
  :: match ChannelMessageSendComplex_res s channel (requestContent m) with
     | Err e => [Log ("Error sending message to audit channel: " +:+ e)]
     | Ok _ => []
     end.

(** ** Example data *)

(** a platform on which every call succeeds; the bot is in the guilds
    ["g1"] and ["g2"], and the user ["42"] is a member of both *)
Definition exampleSession : Session :=
  mkSession "bot" ["g1"; "g2"]
    (λ _, Ok ChannelTypeDM)
    (λ guild user, String.eqb user "42")
    (λ user, Ok ("dm-" +:+ user))
    (λ _ _, Ok tt) (λ _ _, Ok tt) (λ _ _, Ok tt)
    (λ _, Ok tt) (λ _, Ok tt)
    (λ _ _ _, Ok tt) (λ _ _ _, Ok tt) (λ _ _, Ok tt).


Definition exampleOS : OS := mkOS (λ _, Ok tt) (λ _ _, Ok tt).

Definition alice : User := mkUser "42" "alice" "0001".

(** a direct message: it has no guild *)
Definition directMessage (content : string) : MessageCreate :=
  mkMessageCreate "" "dm-42" content alice.

Definition buttonClick (customID : string) : InteractionCreate :=
  mkInteractionCreate InteractionMessageComponent "g1" "audit" "msg-1" customID "" [].

Definition command (name : string) (opts : list OptionValue) : InteractionCreate :=
  mkInteractionCreate InteractionApplicationCommand "g1" "general" "" "" name opts.

(** ** Trees that [render] writes and [parse] reads back *)

(** the digits of a decimal literal *)
Fixpoint allDigits (s : string) : bool :=
  match s with
  | EmptyString => true
  | String c s' => isDigit c && allDigits s'
  end.

(** the text behind a value in a document of [render]: nothing, a comma, or
    a line feed *)
Definition delimited (T : string) : bool :=
  match T with
  | EmptyString => true
  | String c _ => Ascii.eqb c "," || Ascii.eqb c "010"
  end.

(** the members of an object and the elements of an array behind the first
    one, as [render] writes them *)
Definition objectMore (depth : nat) (l : list (string * Json.json)) : string :=
  (fix more (l : list (string * Json.json)) : string :=
     match l with
     | [] => ""
     | (k', y) :: l' =>
         "," +:+ Json.newline (S depth) +:+ Json.appendString k' +:+ ": "
         +:+ Json.render (S depth) y +:+ more l'
     end) l.

Definition arrayMore (depth : nat) (l : list Json.json) : string :=
  (fix more (l : list Json.json) : string :=
     match l with
     | [] => ""
     | y :: l' => "," +:+ Json.newline (S depth) +:+ Json.render (S depth) y +:+ more l'
     end) l.

(** A tree is well formed when its strings and keys are valid UTF-8 and its
    numbers are integers in the form of [FormatInt]. *)
Fixpoint wellFormed (v : Json.json) : Prop :=
  match v with
  | Json.JNull | Json.JBool _ => True
  | Json.JNumber lit => ∃ z : Z, lit = FormatInt z
  | Json.JString s => utf8.ValidString s = true
  | Json.JArray l =>
      (fix all (l : list Json.json) : Prop :=
         match l with
         | [] => True
         | x :: l' => wellFormed x ∧ all l'
         end) l
  | Json.JObject l =>
      (fix all (l : list (string * Json.json)) : Prop :=
         match l with
         | [] => True
         | (k, x) :: l' => utf8.ValidString k = true ∧ wellFormed x ∧ all l'
         end) l
  end.

(** the first byte of a rendered value *)
Definition headByte (c : ascii) : Prop :=
  c = "{"%char ∨ c = "["%char ∨ c = dquote ∨ c = "t"%char ∨ c = "f"%char
  ∨ c = "n"%char ∨ c = "-"%char ∨ isDigit c = true.

(** the parser reads a rendered value back, whatever delimited text follows *)
Definition renders (v : Json.json) : Prop :=
  wellFormed v →
  ∀ (d : nat) (T : string) (fuel : nat),
    delimited T = true → (String.length (Json.render d v) ≤ fuel)%nat →
    Json.value fuel (Json.render d v +:+ T) = Some (v, T).

(** ** Configurations that can be written to the file

    The strings of a configuration are valid UTF-8 and its durations are
    [int64] values. *)
Definition validServerConfig (sc : Part001.ServerConfig) : Prop :=
  utf8.ValidString (Part001.MemberAuditChannelID sc) = true
  ∧ utf8.ValidString (Part001.UnverifiedRoleID sc) = true
  ∧ minInt64 ≤ Part001.RateLimitDuration sc ≤ maxInt64.

Definition validConfig (c : Part001.Config) : Prop :=
  ∀ m, Part001.Servers c = Some m →
       map_Forall (λ k sc, utf8.ValidString k = true ∧ validServerConfig sc) m.

(** ** Example configurations and files *)







(** ** Identifiers of buttons *)

(** how often a byte occurs in a string *)
Fixpoint countByte (c : ascii) (s : string) : nat :=
  match s with
  | EmptyString => 0
  | String b s' => (if Ascii.eqb b c then 1 else 0) + countByte c s'
  end.

(** the click of a button of the request of a user *)
Definition clickOf (b : Button) (guildID channelID messageID : string) : InteractionCreate :=
  mkInteractionCreate InteractionMessageComponent guildID channelID messageID (CustomID b) "" [].

(** ** The store of a handler

    a handler that only makes calls leaves the configuration, the rate-limit
    map and the files as they are *)
Definition sameStore {C} (st st' : State C) : Prop :=
  config st' = config st ∧ rateLimitMap st' = rateLimitMap st ∧ disk st' = disk st.

(** the messages of an approval *)
Definition approvalMessage : string :=
  "You have been approved to join the UCLan Computing Society server. Welcome! 🎉".

Definition approvedContent (userID : string) : string :=
  "<@" +:+ userID +:+ "> has been approved! Welcome to the server! 🎉".

(** ** More example data *)

(** the guild ["g1"] with an audit channel, an unverified role and a rate
    limit of five minutes, in the current revision and in the one before *)
Definition configuredState : State Part001.Config :=
  mkState
    (Part001.mkConfig
       (Some {[ "g1" := Part001.mkServerConfig "audit" "unverified" true (5 * time.Minute) ]}))
    ∅ ∅ [].

Definition configuredState000 : State Part000.Config :=
  mkState
    (Part000.mkConfig (Some {[ "g1" := Part000.mkServerConfig "verify" "audit" "unverified" ]}))
    ∅ ∅ [].

(** the welcome of a new member, in the current revision and before *)
Definition welcomeMessage : string :=
  "Welcome! Please provide your university email for verification. For example:```example@uclan.ac.uk```".

Definition welcomeMessage000 : string :=
  "Welcome! Please provide your university email for verification.".

(** a member who joins the guild ["g1"] *)
Definition aliceJoins : GuildMemberAdd := mkGuildMemberAdd "g1" alice.

(** a platform on which no role can be added *)
Definition failingRoleSession : Session :=
  mkSession "bot" ["g1"; "g2"]
    (λ _, Ok ChannelTypeDM)
    (λ guild user, String.eqb user "42")
    (λ user, Ok ("dm-" +:+ user))
    (λ _ _, Ok tt) (λ _ _, Ok tt) (λ _ _, Ok tt)
    (λ _, Ok tt) (λ _, Ok tt)
    (λ _ _ _, Err "HTTP 403 Forbidden") (λ _ _ _, Ok tt) (λ _ _, Ok tt).

(** a message in a text channel of a guild, on a platform that knows the
    channel as one *)
Definition guildMessage (content : string) : MessageCreate :=
  mkMessageCreate "g1" "general" content alice.

Definition guildChannelSession : Session :=
  mkSession "bot" ["g1"; "g2"]
    (λ _, Ok ChannelTypeGuildText)
    (λ guild user, String.eqb user "42")
    (λ user, Ok ("dm-" +:+ user))
    (λ _ _, Ok tt) (λ _ _, Ok tt) (λ _ _, Ok tt)
    (λ _, Ok tt) (λ _, Ok tt)
    (λ _ _ _, Ok tt) (λ _ _ _, Ok tt) (λ _ _, Ok tt).

(** ** The administrative commands that write *)

Definition writingCommands : list string :=
  ["set_member_audit_channel"; "set_unverified_role"; "enable_rate_limit";
   "disable_rate_limit"; "set_rate_limit"].

(** a command as the platform delivers it: the options are those of the
    declaration [cmd], in number, order and type *)
Definition delivers (cmd : ApplicationCommand) (i : InteractionCreate) : Prop :=
  i_Type i = InteractionApplicationCommand
  ∧ i_CommandName i = cmd_Name cmd
  ∧ map typeOf (i_Options i) = map opt_Type (cmd_Options cmd).

(** the error of [saveConfig] for the configuration [c], [None] for none *)
Definition saveError (os : OS) (c : Part001.Config) : option string :=
  match os_MkdirAll os "./data" with
  | Err e => Some e
  | Ok _ => errorOf (os_WriteFile os Part001.configPath (Part001.MarshalIndent c))
  end.

(** the responses among the calls *)
Definition responses (l : list effect) : list InteractionResponse :=
  omap (λ e, match e with InteractionRespond r => Some r | _ => None end) l.

(** a process that has loaded a file with the document of an empty object *)
Definition emptyObjectState : State Part001.Config :=
  run Part001.loadConfig
      (freshState Part001.zeroConfig {[ Part001.configPath := Readable "{}" ]}).

(** a system on which no file can be written *)
Definition readOnlyOS : OS := mkOS (λ _, Ok tt) (λ _ _, Err "read-only file system").

(** a command delivered in the guild [g] *)
Definition commandIn (g name : string) (opts : list OptionValue) : InteractionCreate :=
  mkInteractionCreate InteractionApplicationCommand g "general" "" "" name opts.

(** what [check_rate_limit] answers for an enabled limit of [n] minutes *)
Definition enabledAnswer (n : Z) : InteractionResponse :=
  ChannelMessageWithSource
    ("Rate limit is enabled with a duration of " +:+ FormatInt n +:+ " minutes").

(** ** Configurations of the revision before that can be written to the file *)

Definition validServerConfig000 (sc : Part000.ServerConfig) : Prop :=
  utf8.ValidString (Part000.VerificationChannelID sc) = true
  ∧ utf8.ValidString (Part000.MemberAuditChannelID sc) = true
  ∧ utf8.ValidString (Part000.UnverifiedRoleID sc) = true.

Definition validConfig000 (c : Part000.Config) : Prop :=
  ∀ m, Part000.Servers c = Some m →
       map_Forall (λ k sc, utf8.ValidString k = true ∧ validServerConfig000 sc) m.

(** what the current revision reads from an entry written by the revision
    before: the fields both have, and no rate limit *)
Definition upgrade (sc : Part000.ServerConfig) : Part001.ServerConfig :=
  Part001.mkServerConfig (Part000.MemberAuditChannelID sc) (Part000.UnverifiedRoleID sc)
    false 0.

Definition upgradeConfig (c : Part000.Config) : Part001.Config :=
  Part001.mkConfig
    (match Part000.Servers c with
     | Some m => Some (upgrade <$> m)
     | None => None
     end).

Definition exampleConfig000 : Part000.Config :=
  Part000.mkConfig (Some {[ "g1" := Part000.mkServerConfig "verify" "audit" "unverified" ]}).

(** ** Example starts *)



(** a state in which the guild ["g1"] has an enabled limit of zero and the
    user ["42"] has made an attempt at the time 1000 *)
Definition zeroLimitState : State Part001.Config :=
  mkState
    (Part001.mkConfig (Some {[ "g1" := Part001.mkServerConfig "audit" "unverified" true 0 ]}))
    {[ "42" := 1000 ]} ∅ [].

(** * Theorems *)

(** ** Strings *)

Lemma append_nil_l (s : string) : "" +:+ s = s.
Proof. reflexivity. Qed.

Lemma append_cons (c : ascii) (s t : string) : String c s +:+ t = String c (s +:+ t).
Proof. reflexivity. Qed.

Lemma append_nil_r (s : string) : s +:+ "" = s.
Proof. induction s as [|c s IH]; [reflexivity|]. rewrite append_cons, IH. reflexivity. Qed.

Lemma append_assoc (s t u : string) : (s +:+ t) +:+ u = s +:+ (t +:+ u).
Proof.
  induction s as [|c s IH]; [reflexivity|].
  rewrite !append_cons, IH. reflexivity.
Qed.

Lemma append_eq_nil (s t : string) : s +:+ t = "" → s = "" ∧ t = "".
Proof. destruct s; [rewrite append_nil_l; auto | rewrite append_cons; discriminate]. Qed.

Lemma append_length (s t : string) :
  String.length (s +:+ t) = (String.length s + String.length t)%nat.
Proof. induction s as [|c s IH]; [reflexivity|]. rewrite append_cons. simpl. lia. Qed.

(** ** The matcher decides the language of the expression *)

Module RegexpFacts.
Import Regexp.

Lemma Matches_Never_inv (s : string) : ¬ Matches Never s.
Proof. inversion 1. Qed.

Lemma Matches_Eps_inv (s : string) : Matches Eps s → s = "".
Proof. by inversion 1. Qed.

Lemma Matches_Class_inv (p : ascii → bool) (s : string) :
  Matches (Class p) s → ∃ c, s = String c "" ∧ p c = true.
Proof. inversion 1; subst; eauto. Qed.

Lemma Matches_Cat_inv (r1 r2 : regex) (s : string) :
  Matches (Cat r1 r2) s → ∃ s1 s2, s = s1 +:+ s2 ∧ Matches r1 s1 ∧ Matches r2 s2.
Proof. inversion 1; subst; eauto. Qed.

Lemma Matches_Alt_inv (r1 r2 : regex) (s : string) :
  Matches (Alt r1 r2) s → Matches r1 s ∨ Matches r2 s.
Proof. inversion 1; subst; auto. Qed.

Lemma nullable_spec (r : regex) : nullable r = true ↔ Matches r "".
Proof.
  induction r as [| |p|r1 IH1 r2 IH2|r1 IH1 r2 IH2|r IH]; simpl.
  - split; [discriminate|]. intros H. by apply Matches_Never_inv in H.
  - split; [constructor|reflexivity].
  - split; [discriminate|]. intros H.
    apply Matches_Class_inv in H as (c & Hc & _). discriminate.
  - rewrite andb_true_iff, IH1, IH2. split.
    + intros [H1 H2]. change "" with ("" +:+ ""). by constructor.
    + intros H. apply Matches_Cat_inv in H as (s1 & s2 & Heq & H1 & H2).
      symmetry in Heq. apply append_eq_nil in Heq as [-> ->]. auto.
  - rewrite orb_true_iff, IH1, IH2. split.
    + intros [H|H]; [by apply MAltL | by apply MAltR].
    + apply Matches_Alt_inv.
  - split; [constructor|reflexivity].
Qed.

Lemma star_cons (r : regex) (c : ascii) (s : string) :
  Matches (Star r) (String c s) →
  ∃ s1 s2, s = s1 +:+ s2 ∧ Matches r (String c s1) ∧ Matches (Star r) s2.
Proof.
  intros H. remember (Star r) as r' eqn:Hr. remember (String c s) as w eqn:Hw.
  revert s Hw.
  induction H as [| | | | | |r0 s1 s2 H1 _ H2 IH2]; intros t Hw; try discriminate.
  injection Hr as ->.
  destruct s1 as [|c1 s1].
  - rewrite append_nil_l in Hw. by apply IH2.
  - rewrite append_cons in Hw. injection Hw as Hc Hs. subst. eauto.
Qed.

Lemma deriv_spec (r : regex) (c : ascii) (s : string) :
  Matches (deriv c r) s ↔ Matches r (String c s).
Proof.
  revert s.
  induction r as [| |p|r1 IH1 r2 IH2|r1 IH1 r2 IH2|r IH]; intros s; simpl.
  - split; intros H; by apply Matches_Never_inv in H.
  - split; intros H; [by apply Matches_Never_inv in H|].
    apply Matches_Eps_inv in H. discriminate.
  - destruct (p c) eqn:Hp; split; intros H.
    + apply Matches_Eps_inv in H as ->. by constructor.
    + apply Matches_Class_inv in H as (c' & Heq & _). injection Heq as -> ->. constructor.
    + by apply Matches_Never_inv in H.
    + apply Matches_Class_inv in H as (c' & Heq & Hc'). injection Heq as -> ->. congruence.
  - assert (Hcat : ∀ t, Matches (Cat (deriv c r1) r2) t → Matches (Cat r1 r2) (String c t)).
    { intros t H. apply Matches_Cat_inv in H as (s1 & s2 & -> & H1 & H2).
      rewrite <- append_cons. constructor; [by apply IH1 | done]. }
    assert (Hinv : Matches (Cat r1 r2) (String c s) →
                   (Matches r1 "" ∧ Matches r2 (String c s))
                   ∨ Matches (Cat (deriv c r1) r2) s).
    { intros H. apply Matches_Cat_inv in H as (s1 & s2 & Heq & H1 & H2).
      destruct s1 as [|c1 s1].
      - rewrite append_nil_l in Heq. subst. auto.
      - rewrite append_cons in Heq. injection Heq as -> ->.
        right. constructor; [by apply IH1 | done]. }
    destruct (nullable r1) eqn:Hn; split; intros H.
    + apply Matches_Alt_inv in H as [H|H]; [by apply Hcat|].
      rewrite <- (append_nil_l (String c s)).
      constructor; [by apply nullable_spec | by apply IH2].
    + apply Hinv in H as [[_ H]|H]; [apply MAltR; by apply IH2 | by apply MAltL].
    + by apply Hcat.
    + apply Hinv in H as [[H _]|H]; [|done].
      apply nullable_spec in H. congruence.
  - split; intros H.
    + apply Matches_Alt_inv in H as [H|H];
        [apply MAltL; by apply IH1 | apply MAltR; by apply IH2].
    + apply Matches_Alt_inv in H as [H|H];
        [apply MAltL; by apply IH1 | apply MAltR; by apply IH2].
  - split; intros H.
    + apply Matches_Cat_inv in H as (s1 & s2 & -> & H1 & H2).
      rewrite <- append_cons. constructor; [by apply IH | done].
    + apply star_cons in H as (s1 & s2 & -> & H1 & H2).
      constructor; [by apply IH | done].
Qed.

Lemma fullMatch_spec (r : regex) (s : string) : fullMatch r s = true ↔ Matches r s.
Proof.
  revert r. induction s as [|c s IH]; intros r; simpl.
  - apply nullable_spec.
  - rewrite IH. apply deriv_spec.
Qed.

Lemma Matches_Lit (c : ascii) (s : string) : Matches (Lit c) s ↔ s = String c "".
Proof.
  unfold Lit. split.
  - intros H. apply Matches_Class_inv in H as (c' & -> & Heq).
    apply Ascii.eqb_eq in Heq. by subst.
  - intros ->. constructor. apply Ascii.eqb_refl.
Qed.

Lemma Matches_Lits (d s : string) : Matches (Lits d) s ↔ s = d.
Proof.
  revert s. induction d as [|c d IH]; intros s; simpl.
  - split; [apply Matches_Eps_inv | intros ->; constructor].
  - split.
    + intros H. apply Matches_Cat_inv in H as (s1 & s2 & -> & H1 & H2).
      apply Matches_Lit in H1 as ->. apply IH in H2 as ->. reflexivity.
    + intros ->. change (String c d) with (String c "" +:+ d).
      constructor; [by apply Matches_Lit | by apply IH].
Qed.

End RegexpFacts.

Lemma allLocal_app (s t : string) :
  allLocal (s +:+ t) = allLocal s && allLocal t.
Proof.
  induction s as [|c s IH]; [reflexivity|].
  rewrite append_cons. simpl. rewrite IH. by rewrite andb_assoc.
Qed.

Lemma Matches_Star_localClass (s : string) :
  Regexp.Matches (Regexp.Star (Regexp.Class localClass)) s ↔ allLocal s = true.
Proof.
  split.
  - intros H. remember (Regexp.Star (Regexp.Class localClass)) as r eqn:Hr.
    induction H as [| | | | | |r0 s1 s2 H1 _ H2 IH2]; try discriminate; [reflexivity|].
    injection Hr as ->. rewrite allLocal_app, IH2 by reflexivity.
    apply RegexpFacts.Matches_Class_inv in H1 as (c & -> & Hc). simpl. by rewrite Hc.
  - induction s as [|c s IH]; simpl; [constructor|].
    rewrite andb_true_iff. intros [Hc Hs].
    change (String c s) with (String c "" +:+ s).
    constructor; [by constructor | by apply IH].
Qed.

(** The pattern accepts exactly the addresses of the specification. *)
Lemma emailRegex_spec (s : string) :
  Regexp.MatchString emailRegex s = true ↔ isInstitutionalEmail s.
Proof.
  unfold Regexp.MatchString, emailRegex. cbn [Regexp.body].
  rewrite RegexpFacts.fullMatch_spec. unfold isInstitutionalEmail, Regexp.Plus. split.
  - intros H. apply RegexpFacts.Matches_Cat_inv in H as (loc & dom & -> & Hloc & Hdom).
    apply RegexpFacts.Matches_Lits in Hdom as ->.
    apply RegexpFacts.Matches_Cat_inv in Hloc as (s1 & s2 & -> & H1 & H2).
    apply RegexpFacts.Matches_Class_inv in H1 as (c & -> & Hc).
    apply Matches_Star_localClass in H2.
    exists (String c "" +:+ s2). split; [done|]. split; [|done].
    rewrite append_cons, append_nil_l. simpl. by rewrite Hc, H2.
  - intros (loc & Hne & Hall & ->).
    constructor; [|by apply RegexpFacts.Matches_Lits].
    destruct loc as [|c loc]; [done|]. simpl in Hall.
    apply andb_true_iff in Hall as [Hc Hrest].
    change (String c loc) with (String c "" +:+ loc).
    constructor; [by constructor | by apply Matches_Star_localClass].
Qed.

(** C2, as stated, fails: the first of its four strings has no [@] and holds
    a space and two brackets, and the pattern rejects it. *)
Lemma email_example_rejected :
  Regexp.MatchString emailRegex "a.b-c%[email protected]" = false.
Proof. reflexivity. Qed.

(** C2, amended: a message content is accepted if and only if it is one or
    more bytes of the class [[a-zA-Z0-9._%+-]], then [@], then exactly the
    domain suffix, in this case of letters; ["a.b-c%d+e_f@uclan.ac.uk"] is
    accepted, and ["a.b-c%[email protected]"], ["[email protected]"],
    ["user@other.ac.uk"], ["not-an-email"] and the address with the domain in
    capitals are rejected. *)
Theorem email_pattern_exact :
  (∀ s : string, Regexp.MatchString emailRegex s = true ↔ isInstitutionalEmail s)
  ∧ Regexp.MatchString emailRegex "a.b-c%d+e_f@uclan.ac.uk" = true
  ∧ Regexp.MatchString emailRegex "a.b-c%[email protected]" = false
  ∧ Regexp.MatchString emailRegex "[email protected]" = false
  ∧ Regexp.MatchString emailRegex "user@other.ac.uk" = false
  ∧ Regexp.MatchString emailRegex "not-an-email" = false
  ∧ Regexp.MatchString emailRegex "user@UCLAN.AC.UK" = false.
Proof. split; [apply emailRegex_spec | repeat split; reflexivity]. Qed.

(** ** The rate limiter *)

Lemma Sub_exact (t u : time.Time) :
  minInt64 ≤ t - u ≤ maxInt64 → time.Sub t u = t - u.
Proof.
  intros H. unfold time.Sub. cbn zeta.
  destruct (Z.ltb_spec maxInt64 (t - u)); [lia|].
  destruct (Z.ltb_spec (t - u) minInt64); [lia|]. reflexivity.
Qed.

Lemma Sub_saturated (t u : time.Time) :
  maxInt64 < t - u → time.Sub t u = maxInt64.
Proof.
  intros H. unfold time.Sub. cbn zeta.
  destruct (Z.ltb_spec maxInt64 (t - u)); [reflexivity|lia].
Qed.

Lemma rateLimitCheck_fresh limit now u (rl : gmap string time.Time) :
  rl !! u = None → rateLimitCheck limit now u rl = (true, <[u := now]> rl).
Proof. intros H. unfold rateLimitCheck, index2. simpl. by rewrite H. Qed.

Lemma rateLimitCheck_within limit now u last (rl : gmap string time.Time) :
  limit ≤ maxInt64 →
  rl !! u = Some last → 0 ≤ now - last < limit →
  rateLimitCheck limit now u rl = (false, rl).
Proof.
  intros Hlim H Hd. unfold rateLimitCheck, index2. simpl. rewrite H. simpl.
  rewrite Sub_exact by (unfold minInt64, maxInt64 in *; lia).
  destruct (Z.ltb_spec (now - last) limit); [reflexivity|lia].
Qed.

Lemma rateLimitCheck_elapsed limit now u last (rl : gmap string time.Time) :
  limit ≤ maxInt64 →
  rl !! u = Some last → 0 ≤ now - last → limit ≤ now - last →
  rateLimitCheck limit now u rl = (true, <[u := now]> rl).
Proof.
  intros Hlim H H0 Hd. unfold rateLimitCheck, index2. simpl. rewrite H. simpl.
  destruct (Z.le_gt_cases (now - last) maxInt64).
  - rewrite Sub_exact by (unfold minInt64, maxInt64 in *; lia).
    destruct (Z.ltb_spec (now - last) limit); [lia|reflexivity].
  - rewrite Sub_saturated by done.
    destruct (Z.ltb_spec maxInt64 limit); [lia|reflexivity].
Qed.

(** C1: the first check of a user records the time and allows; a second
    check within the configured duration refuses and leaves the recorded
    time as it is; a check after the duration has elapsed records the new
    time and allows.  The duration is an [int64], and the clock does not run
    backwards. *)
Theorem rate_limit_check_cycle (limit : time.Duration) (u : string)
    (rl : gmap string time.Time) (t1 t2 t3 : time.Time) :
  limit ≤ maxInt64 →
  rl !! u = None →
  0 ≤ t2 - t1 < limit →
  t1 ≤ t3 → limit ≤ t3 - t1 →
  let first := rateLimitCheck limit t1 u rl in
  let second := rateLimitCheck limit t2 u first.2 in
  let later := rateLimitCheck limit t3 u second.2 in
  first = (true, <[u := t1]> rl)
  ∧ second.1 = false ∧ second.2 !! u = Some t1 ∧ second.2 = first.2
  ∧ later.1 = true ∧ later.2 !! u = Some t3.
Proof.
  intros Hlim Hfresh H2 H3 H3'. cbn zeta.
  rewrite (rateLimitCheck_fresh _ _ _ _ Hfresh). cbn [fst snd].
  rewrite (rateLimitCheck_within limit t2 u t1) by (done || apply lookup_insert_eq).
  cbn [fst snd].
  rewrite (rateLimitCheck_elapsed limit t3 u t1) by (done || lia || apply lookup_insert_eq).
  cbn [fst snd]. rewrite !lookup_insert_eq. done.
Qed.

Lemma rate_limit_check_cycle_witness :
  let first := rateLimitCheck (5 * time.Minute) 1000 "42" ∅ in
  let second := rateLimitCheck (5 * time.Minute) (1000 + time.Minute) "42" first.2 in
  let later := rateLimitCheck (5 * time.Minute) (1000 + 5 * time.Minute) "42" second.2 in
  first = (true, <["42" := 1000]> ∅)
  ∧ second.1 = false ∧ second.2 !! "42" = Some 1000 ∧ second.2 = first.2
  ∧ later.1 = true ∧ later.2 !! "42" = Some (1000 + 5 * time.Minute).
Proof.
  apply (rate_limit_check_cycle (5 * time.Minute) "42" ∅ 1000
           (1000 + time.Minute) (1000 + 5 * time.Minute)).
  - vm_compute. discriminate.
  - reflexivity.
  - vm_compute. split; [discriminate | reflexivity].
  - vm_compute. discriminate.
  - vm_compute. discriminate.
Defined.

(** ** The handlers, case by case *)

Ltac unfold_M :=
  unfold mbind, M_bind, mret, M_ret, bind, ret, return_, call, emit, panic,
    getConfig, setConfig, getRateLimitMap, setRateLimitMap, getDisk, setDisk, run in *;
  cbn [fst snd config rateLimitMap disk trace] in *.

Lemma findGuild_firstGuildOf (s : Session) (u : string) :
  findGuild s (State_Guilds s) u = default "" (firstGuildOf s u).
Proof.
  unfold firstGuildOf. generalize (State_Guilds s) as gs.
  induction gs as [|g gs IH]; [reflexivity|].
  cbn. destruct (GuildMember s g u) eqn:Hg.
  - rewrite decide_True by done. reflexivity.
  - rewrite decide_False by congruence.
    rewrite IH. by destruct (list_find _ gs) as [[]|].
Qed.

Lemma Part001_index2 (c : Part001.Config) (g : string) :
  index2 Part001.zeroServerConfig (Part001.Servers c) g =
  match Part001.serverOf c g with
  | Some sc => (sc, true)
  | None => (Part001.zeroServerConfig, false)
  end.
Proof. reflexivity. Qed.

Lemma rateLimitCheck_refused limit now u (rl rl' : gmap string Z) :
  rateLimitCheck limit now u rl = (false, rl') → rl' = rl.
Proof.
  unfold rateLimitCheck. destruct (index2 _ _ _) as [l e].
  destruct (e && _); intros [= <-]; done.
Qed.

Lemma Part001_processEmailVerification_cases (s : Session) (now : Z) (m : MessageCreate)
    (st : State Part001.Config) :
  let st' := run (Part001.processEmailVerification s now m) st in
  let u := ID (m_Author m) in
  config st' = config st ∧
  match Part001.serverOf (config st) (m_GuildID m) with
  | None =>
      trace st' = trace st ++ [Log ("No config found for guild " +:+ m_GuildID m)]
      ∧ rateLimitMap st' = rateLimitMap st
  | Some sc =>
      let check :=
        if Part001.RateLimitEnabled sc
        then rateLimitCheck (Part001.RateLimitDuration sc) now u (rateLimitMap st)
        else (true, rateLimitMap st) in
      if negb check.1 then
        trace st' = trace st ++ [ChannelMessageSend (m_ChannelID m) (waitReply sc)]
        ∧ rateLimitMap st' = rateLimitMap st
      else
        rateLimitMap st' = check.2 ∧
        if negb (Regexp.MatchString emailRegex (m_Content m)) then
          trace st' = trace st ++ [ChannelMessageSend (m_ChannelID m) "Invalid email. Please provide a valid UCLan email."]
        else
          match firstGuildOf s u with
          | None => trace st' = trace st ++ [Log "User is not in any guild"]
          | Some guild =>
              if String.eqb guild "" then
                trace st' = trace st ++ [Log "User is not in any guild"]
              else
                trace st' = trace st ++
                  postOf s (Part001.MemberAuditChannelID
                              (default Part001.zeroServerConfig
                                       (Part001.serverOf (config st) guild))) m
          end
  end.
Proof.
  cbn zeta. unfold Part001.processEmailVerification. unfold_M.
  rewrite findGuild_firstGuildOf, !Part001_index2.
  destruct (Part001.serverOf (config st) (m_GuildID m)) as [sc|] eqn:Hsc; [|by cbn].
  cbn [negb fst snd].
  destruct st as [c rl d tr]. cbn [config rateLimitMap disk trace] in *.
  destruct (Part001.RateLimitEnabled sc);
    [destruct (rateLimitCheck _ now _ _) as [[] rl'] eqn:Hc|];
    cbn [negb fst snd config rateLimitMap trace];
    [ | by cbn | ];
    (destruct (negb (Regexp.MatchString emailRegex (m_Content m))); [by cbn|]);
    (destruct (firstGuildOf s (ID (m_Author m))) as [g|]; [|by cbn]);
    cbn [from_option id]; (destruct (String.eqb g ""); [by cbn|]);
    cbn [config]; rewrite Part001_index2; unfold postOf;
    destruct (Part001.serverOf c g) as [sc'|]; cbn [fst from_option id];
    destruct (ChannelMessageSendComplex_res s _ _);
    cbn [fst snd config rateLimitMap trace]; rewrite <- ?app_assoc; done.
Qed.

Lemma Part000_index2 (c : Part000.Config) (g : string) :
  index2 Part000.zeroServerConfig (Part000.Servers c) g =
  match Part000.serverOf c g with
  | Some sc => (sc, true)
  | None => (Part000.zeroServerConfig, false)
  end.
Proof. reflexivity. Qed.

Lemma Part000_processEmailVerification_cases (s : Session) (now : Z) (m : MessageCreate)
    (st : State Part000.Config) :
  let st' := run (Part000.processEmailVerification s now m) st in
  let u := ID (m_Author m) in
  let check := rateLimitCheck (5 * time.Minute) now u (rateLimitMap st) in
  config st' = config st ∧
  if negb check.1 then
    trace st' = trace st ++
      [ChannelMessageSend (m_ChannelID m)
         "Please wait 5 minutes before sending another verification request."]
    ∧ rateLimitMap st' = rateLimitMap st
  else
    rateLimitMap st' = check.2 ∧
    if negb (Regexp.MatchString emailRegex (m_Content m)) then
      trace st' = trace st ++
        [ChannelMessageSend (m_ChannelID m) "Invalid email. Please provide a valid UCLan email."]
    else
      match firstGuildOf s u with
      | None => trace st' = trace st ++ [Log "User is not in any guild"]
      | Some guild =>
          if String.eqb guild "" then
            trace st' = trace st ++ [Log "User is not in any guild"]
          else
            match Part000.serverOf (config st) guild with
            | None =>
                trace st' = trace st ++
                  [Log ("No member audit channel configured for guild " +:+ guild)]
            | Some sc =>
                if String.eqb (Part000.VerificationChannelID sc) "" then
                  trace st' = trace st ++
                    [Log ("No member audit channel configured for guild " +:+ guild)]
                else
                  trace st' = trace st ++ postOf s (Part000.MemberAuditChannelID sc) m
            end
      end.
Proof.
  cbn zeta. unfold Part000.processEmailVerification. unfold_M.
  rewrite findGuild_firstGuildOf.
  destruct st as [c rl d tr]. cbn [config rateLimitMap disk trace] in *.
  destruct (rateLimitCheck _ now _ _) as [[] rl'] eqn:Hc;
    cbn [negb fst snd config rateLimitMap trace]; [|by cbn].
  destruct (negb (Regexp.MatchString emailRegex (m_Content m))); [by cbn|].
  destruct (firstGuildOf s (ID (m_Author m))) as [g|]; [|by cbn].
  cbn [from_option id]. destruct (String.eqb g ""); [by cbn|].
  cbn [config]. rewrite Part000_index2. unfold postOf.
  destruct (Part000.serverOf c g) as [sc'|]; cbn [fst snd negb orb]; [|by cbn].
  destruct (String.eqb (Part000.VerificationChannelID sc') ""); [by cbn|].
  destruct (ChannelMessageSendComplex_res s _ _);
    cbn [fst snd config rateLimitMap trace]; rewrite <- ?app_assoc; done.
Qed.

Lemma rateLimitCheck_allowed limit now u (rl rl' : gmap string Z) :
  rateLimitCheck limit now u rl = (true, rl') → rl' = <[u := now]> rl.
Proof.
  unfold rateLimitCheck. destruct (index2 _ _ _) as [l e].
  destruct (e && _); intros [= <-]; done.
Qed.



(** C10: a message that passes the rate-limit check has the time of the
    attempt recorded before its content is tested; when the content is then
    refused with the invalid-email reply, a further message of the same user
    within the configured duration is refused as rate-limited, and no request
    is posted by either.  The configured duration is an [int64], and the clock
    does not run backwards. *)
Theorem invalid_email_consumes_attempt (s1 s2 : Session) (t1 t2 : time.Time)
    (m1 m2 : MessageCreate) :
  ID (m_Author m2) = ID (m_Author m1) →
  Regexp.MatchString emailRegex (m_Content m1) = false →
  (∀ (st : State Part001.Config) (sc : Part001.ServerConfig),
     Part001.serverOf (config st) (m_GuildID m1) = Some sc →
     m_GuildID m2 = m_GuildID m1 →
     Part001.RateLimitEnabled sc = true →
     Part001.RateLimitDuration sc ≤ maxInt64 →
     (rateLimitCheck (Part001.RateLimitDuration sc) t1 (ID (m_Author m1)) (rateLimitMap st)).1
       = true →
     0 ≤ t2 - t1 < Part001.RateLimitDuration sc →
     let st1 := run (Part001.processEmailVerification s1 t1 m1) st in
     let st2 := run (Part001.processEmailVerification s2 t2 m2) st1 in
     trace st1 = trace st ++
       [ChannelMessageSend (m_ChannelID m1) "Invalid email. Please provide a valid UCLan email."]
     ∧ rateLimitMap st1 = <[ID (m_Author m1) := t1]> (rateLimitMap st)
     ∧ trace st2 = trace st1 ++ [ChannelMessageSend (m_ChannelID m2) (waitReply sc)]
     ∧ rateLimitMap st2 = rateLimitMap st1)
  ∧ (∀ st : State Part000.Config,
     (rateLimitCheck (5 * time.Minute) t1 (ID (m_Author m1)) (rateLimitMap st)).1 = true →
     0 ≤ t2 - t1 < 5 * time.Minute →
     let st1 := run (Part000.processEmailVerification s1 t1 m1) st in
     let st2 := run (Part000.processEmailVerification s2 t2 m2) st1 in
     trace st1 = trace st ++
       [ChannelMessageSend (m_ChannelID m1) "Invalid email. Please provide a valid UCLan email."]
     ∧ rateLimitMap st1 = <[ID (m_Author m1) := t1]> (rateLimitMap st)
     ∧ trace st2 = trace st1 ++
         [ChannelMessageSend (m_ChannelID m2)
            "Please wait 5 minutes before sending another verification request."]
     ∧ rateLimitMap st2 = rateLimitMap st1).
Proof.
  intros Hu Hbad. split.
  - intros st sc Hsc Hg Hen Hmax Hpass Hin. cbn zeta.
    pose proof (Part001_processEmailVerification_cases s1 t1 m1 st) as H1.
    cbn zeta in H1. rewrite Hsc, Hen in H1.
    destruct (rateLimitCheck _ t1 _ (rateLimitMap st)) as [b rl1] eqn:Hc1.
    cbn [fst snd] in *. subst b. apply rateLimitCheck_allowed in Hc1 as ->.
    rewrite Hbad in H1. cbn [negb] in H1. destruct H1 as (Hcfg & Hrl1 & Htr1).
    pose proof (Part001_processEmailVerification_cases s2 t2 m2
                  (run (Part001.processEmailVerification s1 t1 m1) st)) as H2.
    cbn zeta in H2. rewrite Hcfg, Hg, Hsc, Hen, Hu, Hrl1 in H2.
    rewrite (rateLimitCheck_within _ t2 _ t1) in H2
      by (done || apply lookup_insert_eq).
    cbn [negb fst snd] in H2. destruct H2 as (_ & Htr2 & Hrl2).
    rewrite Hrl2, Hrl1. done.
  - intros st Hpass Hin. cbn zeta.
    pose proof (Part000_processEmailVerification_cases s1 t1 m1 st) as H1.
    cbn zeta in H1.
    destruct (rateLimitCheck _ t1 _ (rateLimitMap st)) as [b rl1] eqn:Hc1.
    cbn [fst snd] in *. subst b. apply rateLimitCheck_allowed in Hc1 as ->.
    rewrite Hbad in H1. cbn [negb] in H1. destruct H1 as (Hcfg & Hrl1 & Htr1).
    pose proof (Part000_processEmailVerification_cases s2 t2 m2
                  (run (Part000.processEmailVerification s1 t1 m1) st)) as H2.
    cbn zeta in H2. rewrite Hu, Hrl1 in H2.
    rewrite (rateLimitCheck_within _ t2 _ t1) in H2
      by (done || apply lookup_insert_eq).
    cbn [negb fst snd] in H2. destruct H2 as (_ & Htr2 & Hrl2).
    rewrite Hrl2, Hrl1. done.
Qed.

Lemma invalid_email_consumes_attempt_witness :
  (let st := mkState (Part001.mkConfig
                        (Some {[ "" := Part001.mkServerConfig "audit" "" true (5 * time.Minute) ]}))
                     ∅ ∅ [] in
   let st1 := run (Part001.processEmailVerification exampleSession 1000
                     (directMessage "not-an-email")) st in
   let st2 := run (Part001.processEmailVerification exampleSession (1000 + time.Minute)
                     (directMessage "alice@uclan.ac.uk")) st1 in
   trace st2 =
     [ChannelMessageSend "dm-42" "Invalid email. Please provide a valid UCLan email.";
      ChannelMessageSend "dm-42"
        "Please wait 5 minutes before sending another verification request."])
  ∧ (let st := mkState (Part000.mkConfig (Some ∅)) ∅ ∅ [] in
     let st1 := run (Part000.processEmailVerification exampleSession 1000
                       (directMessage "not-an-email")) st in
     let st2 := run (Part000.processEmailVerification exampleSession (1000 + time.Minute)
                       (directMessage "alice@uclan.ac.uk")) st1 in
     trace st2 =
       [ChannelMessageSend "dm-42" "Invalid email. Please provide a valid UCLan email.";
        ChannelMessageSend "dm-42"
          "Please wait 5 minutes before sending another verification request."]).
Proof.
  destruct (invalid_email_consumes_attempt exampleSession exampleSession 1000
              (1000 + time.Minute) (directMessage "not-an-email")
              (directMessage "alice@uclan.ac.uk") eq_refl eq_refl) as [H1 H0].
  assert (Hmax : 5 * time.Minute ≤ maxInt64) by (vm_compute; discriminate).
  assert (Hin : 0 ≤ 1000 + time.Minute - 1000 < 5 * time.Minute)
    by (vm_compute; split; [discriminate | reflexivity]).
  split; cbn zeta.
  - pose proof (H1 (mkState (Part001.mkConfig
                     (Some {[ "" := Part001.mkServerConfig "audit" "" true (5 * time.Minute) ]}))
                     ∅ ∅ [])
                   (Part001.mkServerConfig "audit" "" true (5 * time.Minute))
                   eq_refl eq_refl eq_refl Hmax eq_refl Hin) as (Ha & _ & Hb & _).
    rewrite Hb, Ha. reflexivity.
  - pose proof (H0 (mkState (Part000.mkConfig (Some ∅)) ∅ ∅ []) eq_refl Hin)
      as (Ha & _ & Hb & _).
    rewrite Hb, Ha. reflexivity.
Defined.

(** ** Buttons *)

Lemma Split_nonempty (s : string) (sep : ascii) : Strings.Split s sep ≠ [].
Proof.
  destruct s as [|c s]; simpl; [done|].
  destruct (Ascii.eqb c sep); [done|]. by destruct (Strings.Split s sep).
Qed.

Lemma Split_singleton (s x : string) (sep : ascii) :
  Strings.Split s sep = [x] → x = s.
Proof.
  revert x. induction s as [|c s IH]; intros x; simpl.
  - by intros [= <-].
  - pose proof (Split_nonempty s sep) as Hne.
    destruct (Ascii.eqb c sep).
    + intros [= <- H]. done.
    + destruct (Strings.Split s sep) as [|p l]; [done|].
      intros [= <- ->]. by rewrite (IH p).
Qed.


Ltac split_cases :=
  repeat (match goal with
          | |- context [match ?x with Ok _ => _ | Err _ => _ end] =>
              destruct x as [?|?] eqn:?
          | |- context [match i_Type ?i with InteractionPing => _ | _ => _ end] =>
              destruct (i_Type i) eqn:?
          end; cbn [fst snd config rateLimitMap disk trace]).

Ltac normalize_trace :=
  cbn [fst snd config rateLimitMap disk trace app];
  rewrite <- ?app_assoc; cbn [app];
  rewrite ?drop_app_length.

Ltac not_in H :=
  repeat (apply elem_of_cons in H as [H|H]; [discriminate H|]);
  by apply elem_of_nil in H.





(** C5, as stated, fails: for an identifier of three parts the handler logs
    and returns, and the acknowledgement is never edited. *)
Lemma malformed_identifier_not_acknowledged :
  let new := effectsOf (Part001.handleButton exampleSession (buttonClick "foo_bar_baz"))
                       (mkState (Part001.mkConfig (Some ∅)) ∅ ∅ []) in
  new = [InteractionRespond (DeferredChannelMessageWithSource true);
         Log "Received button interaction: foo_bar_baz";
         Log "Invalid button customID format: foo_bar_baz"]
  ∧ existsb isResponseEdit new = false.
Proof. split; reflexivity. Qed.

(** C5, amended: for an acknowledged button interaction whose identifier does
    not split on the underscore into exactly two parts, the handler only logs
    (the acknowledgement is left as it is); for one of two parts whose first
    part is neither [approve] nor [deny], it logs and edits the
    acknowledgement to the unknown-action message; in both cases no role is
    removed, no member is removed and no message is edited. *)
Theorem malformed_button_has_no_effect (s : Session) (i : InteractionCreate)
    (st : State Part001.Config) :
  i_Type i = InteractionMessageComponent →
  InteractionRespond_res s (DeferredChannelMessageWithSource true) = Ok tt →
  let new := effectsOf (Part001.handleButton s i) st in
  match Strings.Split (i_CustomID i) "_" with
  | [action; userID] =>
      if String.eqb action "approve" || String.eqb action "deny" then True
      else
        new = [InteractionRespond (DeferredChannelMessageWithSource true);
               Log ("Received button interaction: " +:+ i_CustomID i);
               Log ("Processing " +:+ action +:+ " action for user " +:+ userID);
               Log ("Unknown action: " +:+ action);
               InteractionResponseEdit "Unknown action"]
        ∧ existsb isMutation new = false
  | _ =>
      new = [InteractionRespond (DeferredChannelMessageWithSource true);
             Log ("Received button interaction: " +:+ i_CustomID i);
             Log ("Invalid button customID format: " +:+ i_CustomID i)]
      ∧ existsb isMutation new = false ∧ existsb isResponseEdit new = false
  end.
Proof.
  intros Hty Hack. cbn zeta. unfold effectsOf, Part001.handleButton.
  rewrite Hty, Hack. unfold_M.
  destruct (Strings.Split (i_CustomID i) "_") as [|action [|userID [|? ?]]];
    try (normalize_trace; by repeat split).
  destruct (String.eqb action "approve"); [done|].
  destruct (String.eqb action "deny"); [done|].
  normalize_trace. by repeat split.
Qed.

Lemma malformed_button_has_no_effect_witness :
  let st := mkState (Part001.mkConfig (Some ∅)) ∅ ∅ [] in
  (let new := effectsOf (Part001.handleButton exampleSession (buttonClick "launch_12345")) st in
   new = [InteractionRespond (DeferredChannelMessageWithSource true);
          Log "Received button interaction: launch_12345";
          Log "Processing launch action for user 12345";
          Log "Unknown action: launch";
          InteractionResponseEdit "Unknown action"]
   ∧ existsb isMutation new = false)
  ∧ (let new := effectsOf (Part001.handleButton exampleSession (buttonClick "foo_bar_baz")) st in
     new = [InteractionRespond (DeferredChannelMessageWithSource true);
            Log "Received button interaction: foo_bar_baz";
            Log "Invalid button customID format: foo_bar_baz"]
     ∧ existsb isMutation new = false ∧ existsb isResponseEdit new = false).
Proof.
  cbn zeta. split.
  - apply (malformed_button_has_no_effect exampleSession (buttonClick "launch_12345")
             (mkState (Part001.mkConfig (Some ∅)) ∅ ∅ []) eq_refl eq_refl).
  - apply (malformed_button_has_no_effect exampleSession (buttonClick "foo_bar_baz")
             (mkState (Part001.mkConfig (Some ∅)) ∅ ∅ []) eq_refl eq_refl).
Defined.

(** ** The verification request and the audit channel *)

(** C3, the code at the failing inputs.  Current revision: the guild of the
    sender has an entry with no audit channel, and the request is sent to the
    channel with the empty id.  Revision before, and [main.go]: the guard
    tests the verification channel, so that a guild with a verification
    channel and no audit channel has the request sent to the empty id, and a
    guild with an audit channel and no verification channel has nothing
    sent. *)
Theorem request_sent_without_audit_channel :
  let m := directMessage "alice@uclan.ac.uk" in
  let post channel :=
    ChannelMessageSendComplex channel
      "User alice#0001 has requested verification with email alice@uclan.ac.uk"
      [[mkButton "Approve" SuccessButton "approve_42";
        mkButton "Deny" DangerButton "deny_42"]] in
  effectsOf (Part001.processEmailVerification exampleSession 1000 m)
    (mkState (Part001.mkConfig
                (Some {[ "" := Part001.zeroServerConfig;
                         "g1" := Part001.mkServerConfig "" "unverified" false 0 ]}))
             ∅ ∅ [])
  = [post ""]
  ∧ effectsOf (Part000.processEmailVerification exampleSession 1000 m)
      (mkState (Part000.mkConfig
                  (Some {[ "g1" := Part000.mkServerConfig "verify" "" "unverified" ]}))
               ∅ ∅ [])
    = [post ""]
  ∧ effectsOf (Part000.processEmailVerification exampleSession 1000 m)
      (mkState (Part000.mkConfig
                  (Some {[ "g1" := Part000.mkServerConfig "" "audit" "unverified" ]}))
               ∅ ∅ [])
    = [Log "No member audit channel configured for guild g1"]
  ∧ effectsOf (MainGo.processEmailVerification exampleSession m)
      (mkState (Part000.mkConfig
                  (Some {[ "g1" := Part000.mkServerConfig "verify" "" "unverified" ]}))
               ∅ ∅ [])
    = [ChannelMessageSend ""
         "User 42 has requested verification with email alice@uclan.ac.uk"].
Proof. repeat split; reflexivity. Qed.

(** ** The administrative commands *)

Lemma updateServer_spec {R} (g : string) (change : Part001.ServerConfig → Part001.ServerConfig)
    (st : State Part001.Config) (m : gmap string Part001.ServerConfig) :
  Part001.Servers (config st) = Some m →
  Part001.updateServer (R := R) g change st =
  (mkState (Part001.mkConfig
              (Some (<[g := change (default Part001.zeroServerConfig (m !! g))]> m)))
           (rateLimitMap st) (disk st) (trace st), Val tt).
Proof.
  intros Hm. unfold Part001.updateServer. unfold_M. rewrite Hm.
  unfold index2. cbn [mbind option_bind].
  destruct (m !! g) as [sc|] eqn:Hg; cbn [negb fst snd assign].
  - unfold_M. cbn. by rewrite Hg.
  - unfold_M. cbn. rewrite lookup_insert_eq. cbn. by rewrite insert_insert_eq.
Qed.

Lemma saveAndRespond_config (os : OS) (msg : string) (st : State Part001.Config) :
  config (run (Part001.saveAndRespond os msg) st) = config st.
Proof.
  unfold Part001.saveAndRespond, Part001.saveConfig. unfold_M.
  destruct (os_MkdirAll os _); [destruct (os_WriteFile os _ _)|]; reflexivity.
Qed.

(** C7, as stated, fails: on a guild with no entry [enable_rate_limit]
    leaves an entry that differs from the default one in two fields, the flag
    and the duration; and [check_rate_limit], a command too, creates no
    entry. *)
Lemma enable_rate_limit_sets_two_fields :
  let st := mkState (Part001.mkConfig (Some ∅)) ∅ ∅ [] in
  Part001.serverOf
    (config (run (Part001.enableRateLimit exampleOS exampleSession
                    (command "enable_rate_limit" [])) st)) "g1"
  = Some (Part001.mkServerConfig "" "" true (5 * time.Minute))
  ∧ Part001.serverOf
      (config (run (Part001.checkRateLimit exampleOS exampleSession
                      (command "check_rate_limit" [])) st)) "g1"
    = None.
Proof. split; reflexivity. Qed.

(** C7, amended: on an allocated configuration map, every command that
    writes creates the default entry of the guild when there is none and then
    stores the entry with its own field changed: the audit channel, the
    unverified role, the flag ([disable_rate_limit]), the duration
    ([set_rate_limit], the minutes as nanoseconds in 64 bits);
    [enable_rate_limit] sets the flag and, when the duration is zero, sets the
    duration to five minutes as well; [check_rate_limit] leaves the
    configuration as it is.  The other fields of the entry and the entries of
    all other guilds are unchanged. *)
Theorem admin_command_frame (os : OS) (s : Session) (i : InteractionCreate)
    (st : State Part001.Config) (m : gmap string Part001.ServerConfig) :
  Part001.Servers (config st) = Some m →
  let g := i_GuildID i in
  let old := default Part001.zeroServerConfig (m !! g) in
  let after h := Part001.Servers (config (run (h os s i) st)) in
  (∀ channelID rest, i_Options i = OptChannel channelID :: rest →
     after Part001.setMemberAuditChannel =
     Some (<[g := Part001.mkServerConfig channelID (Part001.UnverifiedRoleID old)
                    (Part001.RateLimitEnabled old) (Part001.RateLimitDuration old)]> m))
  ∧ (∀ roleID rest, i_Options i = OptRole roleID :: rest →
     after Part001.setUnverifiedRole =
     Some (<[g := Part001.mkServerConfig (Part001.MemberAuditChannelID old) roleID
                    (Part001.RateLimitEnabled old) (Part001.RateLimitDuration old)]> m))
  ∧ after Part001.enableRateLimit =
     Some (<[g := Part001.mkServerConfig (Part001.MemberAuditChannelID old)
                    (Part001.UnverifiedRoleID old) true
                    (if Part001.RateLimitDuration old =? 0 then 5 * time.Minute
                     else Part001.RateLimitDuration old)]> m)
  ∧ after Part001.disableRateLimit =
     Some (<[g := Part001.mkServerConfig (Part001.MemberAuditChannelID old)
                    (Part001.UnverifiedRoleID old) false
                    (Part001.RateLimitDuration old)]> m)
  ∧ (∀ minutes rest, i_Options i = OptInteger minutes :: rest →
     after Part001.setRateLimit =
     Some (<[g := Part001.mkServerConfig (Part001.MemberAuditChannelID old)
                    (Part001.UnverifiedRoleID old) (Part001.RateLimitEnabled old)
                    (wrap64 (minutes * time.Minute))]> m))
  ∧ after Part001.checkRateLimit = Some m.
Proof.
  intros Hm. cbn zeta.
  assert (Hrun : ∀ change msg,
    Part001.Servers (config (run (Part001.updateServer (i_GuildID i) change;;
                                  Part001.saveAndRespond os msg) st))
    = Some (<[i_GuildID i := change (default Part001.zeroServerConfig (m !! i_GuildID i))]> m)).
  { intros change msg. unfold run at 1, mbind, M_bind, bind.
    rewrite (updateServer_spec _ _ _ _ Hm).
    fold (run (Part001.saveAndRespond os msg)
            (mkState (Part001.mkConfig
               (Some (<[i_GuildID i := change (default Part001.zeroServerConfig
                                                       (m !! i_GuildID i))]> m)))
               (rateLimitMap st) (disk st) (trace st))).
    by rewrite saveAndRespond_config. }
  repeat split.
  - intros channelID rest Hopt. unfold Part001.setMemberAuditChannel, Part001.option0.
    rewrite Hopt. apply Hrun.
  - intros roleID rest Hopt. unfold Part001.setUnverifiedRole, Part001.option0.
    rewrite Hopt. apply Hrun.
  - apply Hrun.
  - apply Hrun.
  - intros minutes rest Hopt. unfold Part001.setRateLimit, Part001.option0.
    rewrite Hopt. apply Hrun.
  - unfold Part001.checkRateLimit. unfold_M.
    destruct (index2 _ _ _) as [sc []]; cbn; by rewrite Hm.
Qed.

Lemma admin_command_frame_witness :
  let st := mkState (Part001.mkConfig
                       (Some {[ "g2" := Part001.mkServerConfig "a2" "r2" true time.Minute ]}))
                    ∅ ∅ [] in
  Part001.Servers
    (config (run (Part001.setMemberAuditChannel exampleOS exampleSession
                    (command "set_member_audit_channel" [OptChannel "audit"])) st))
  = Some (<["g1" := Part001.mkServerConfig "audit" "" false 0]>
            {[ "g2" := Part001.mkServerConfig "a2" "r2" true time.Minute ]}).
Proof.
  cbn zeta.
  pose proof (admin_command_frame exampleOS exampleSession
                (command "set_member_audit_channel" [OptChannel "audit"])
                (mkState (Part001.mkConfig
                            (Some {[ "g2" := Part001.mkServerConfig "a2" "r2" true time.Minute ]}))
                         ∅ ∅ [])
                {[ "g2" := Part001.mkServerConfig "a2" "r2" true time.Minute ]} eq_refl) as H.
  cbn zeta in H. destruct H as (H & _).
  exact (H "audit" [] eq_refl).
Defined.

(** ** Bytes and UTF-8 *)

Lemma byteZ_range (c : ascii) : 0 ≤ byteZ c < 256.
Proof.
  unfold byteZ. pose proof (N_ascii_bounded c) as H. lia.
Qed.

Lemma byte_byteZ (c : ascii) : byte (byteZ c) = c.
Proof.
  unfold byte. rewrite Z.mod_small by apply byteZ_range.
  unfold byteZ. rewrite N2Z.id. apply ascii_N_embedding.
Qed.

Lemma byteZ_byte (z : Z) : 0 ≤ z < 256 → byteZ (byte z) = z.
Proof.
  intros H. unfold byte, byteZ. rewrite Z.mod_small by done.
  rewrite N_ascii_embedding by lia. lia.
Qed.

Lemma byteZ_inj (c d : ascii) : byteZ c = byteZ d → c = d.
Proof. intros H. rewrite <- (byte_byteZ c), <- (byte_byteZ d). by rewrite H. Qed.

Lemma lor_shiftl_small (a b n : Z) :
  0 ≤ n → 0 ≤ b < 2 ^ n → Z.lor (Z.shiftl a n) b = a * 2 ^ n + b.
Proof.
  intros Hn Hb.
  assert (Hland : Z.land (Z.shiftl a n) b = 0).
  { apply Z.bits_inj'. intros i Hi. rewrite Z.land_spec, Z.bits_0.
    destruct (Z.lt_ge_cases i n).
    - rewrite Z.shiftl_spec_low by done. reflexivity.
    - rewrite andb_comm.
      destruct (Z.eq_dec b 0) as [->|Hb0]; [by rewrite Z.bits_0|].
      assert (2 ^ n ≤ 2 ^ i) by (apply Z.pow_le_mono_r; lia).
      rewrite Z.bits_above_log2; [done|lia|].
      apply Z.log2_lt_pow2; lia. }
  rewrite <- Z.lxor_lor by done. rewrite <- Z.add_nocarry_lxor by done.
  by rewrite Z.shiftl_mul_pow2.
Qed.

Lemma land_mask (a n : Z) : 0 ≤ n → Z.land a (2 ^ n - 1) = a mod 2 ^ n.
Proof.
  intros Hn. rewrite <- Z.land_ones by done. f_equal.
  rewrite Z.ones_equiv. lia.
Qed.

Lemma takeS_dropS (n : nat) (s : string) : takeS n s +:+ dropS n s = s.
Proof.
  revert s. induction n as [|n IH]; intros [|c s]; simpl; try reflexivity.
  rewrite append_cons. by rewrite IH.
Qed.

Lemma dropS_length (n : nat) (s : string) :
  String.length (dropS n s) = (String.length s - n)%nat.
Proof. revert s. induction n as [|n IH]; intros [|c s]; simpl; auto with lia. Qed.

Module Utf8Facts.
Import utf8.

Ltac first_tac :=
  unfold first;
  repeat match goal with
         | |- context [if ?a <? ?b then _ else _] => destruct (Z.ltb_spec a b); try lia
         | |- context [if ?a =? ?b then _ else _] => destruct (Z.eqb_spec a b); try lia
         end.

Lemma first_as (z : Z) : z < 0x80 → first z = as_.
Proof. intros. first_tac. Qed.

Lemma first_xx_low (z : Z) : 0x80 ≤ z < 0xC2 → first z = xx.
Proof. intros. first_tac. Qed.

Lemma first_s1 (z : Z) : 0xC2 ≤ z < 0xE0 → first z = s1.
Proof. intros. first_tac. Qed.

Lemma first_s2 : first 0xE0 = s2.
Proof. reflexivity. Qed.

Lemma first_s3 (z : Z) : 0xE1 ≤ z < 0xED ∨ 0xEE ≤ z < 0xF0 → first z = s3.
Proof. intros. first_tac. Qed.

Lemma first_s4 : first 0xED = s4.
Proof. reflexivity. Qed.

Lemma first_s5 : first 0xF0 = s5.
Proof. reflexivity. Qed.

Lemma first_s6 (z : Z) : 0xF1 ≤ z < 0xF4 → first z = s6.
Proof. intros. first_tac. Qed.

Lemma first_s7 : first 0xF4 = s7.
Proof. reflexivity. Qed.

Lemma first_xx_high (z : Z) : 0xF5 ≤ z → first z = xx.
Proof. intros. first_tac. Qed.

(** the rune of a continuation byte and of a leading byte *)
Lemma land_maskx (b : Z) : 0x80 ≤ b ≤ 0xBF → Z.land b maskx = b - 0x80.
Proof.
  intros H. unfold maskx. change 0x3F with (2 ^ 6 - 1). rewrite land_mask by lia.
  symmetry. apply (Z.mod_unique _ _ 2); lia.
Qed.

Lemma land_mask2 (b : Z) : 0xC0 ≤ b ≤ 0xDF → Z.land b mask2 = b - 0xC0.
Proof.
  intros H. unfold mask2. change 0x1F with (2 ^ 5 - 1). rewrite land_mask by lia.
  symmetry. apply (Z.mod_unique _ _ 6); lia.
Qed.

Lemma land_mask3 (b : Z) : 0xE0 ≤ b ≤ 0xEF → Z.land b mask3 = b - 0xE0.
Proof.
  intros H. unfold mask3. change 0x0F with (2 ^ 4 - 1). rewrite land_mask by lia.
  symmetry. apply (Z.mod_unique _ _ 14); lia.
Qed.

Lemma land_mask4 (b : Z) : 0xF0 ≤ b ≤ 0xF7 → Z.land b mask4 = b - 0xF0.
Proof.
  intros H. unfold mask4. change 0x07 with (2 ^ 3 - 1). rewrite land_mask by lia.
  symmetry. apply (Z.mod_unique _ _ 30); lia.
Qed.

Lemma lor_tx (x : Z) : 0 ≤ x < 64 → Z.lor tx x = 0x80 + x.
Proof.
  intros H. change tx with (Z.shiftl 2 6). rewrite lor_shiftl_small by lia. lia.
Qed.

Lemma lor_t2 (x : Z) : 0 ≤ x < 32 → Z.lor t2 x = 0xC0 + x.
Proof.
  intros H. change t2 with (Z.shiftl 6 5). rewrite lor_shiftl_small by lia. lia.
Qed.

Lemma lor_t3 (x : Z) : 0 ≤ x < 16 → Z.lor t3 x = 0xE0 + x.
Proof.
  intros H. change t3 with (Z.shiftl 14 4). rewrite lor_shiftl_small by lia. lia.
Qed.

Lemma lor_t4 (x : Z) : 0 ≤ x < 8 → Z.lor t4 x = 0xF0 + x.
Proof.
  intros H. change t4 with (Z.shiftl 30 3). rewrite lor_shiftl_small by lia. lia.
Qed.

(** the rune of two, three and four bytes, as a sum *)
Lemma rune2 (x0 x1 : Z) :
  0 ≤ x1 < 64 → Z.lor (Z.shiftl x0 6) x1 = x0 * 64 + x1.
Proof. intros. rewrite lor_shiftl_small by lia. lia. Qed.

Lemma rune3 (x0 x1 x2 : Z) :
  0 ≤ x1 < 64 → 0 ≤ x2 < 64 →
  Z.lor (Z.lor (Z.shiftl x0 12) (Z.shiftl x1 6)) x2 = x0 * 4096 + x1 * 64 + x2.
Proof.
  intros. rewrite (Z.shiftl_mul_pow2 x1) by lia.
  rewrite (lor_shiftl_small x0) by lia.
  replace (x0 * 2 ^ 12 + x1 * 2 ^ 6) with (Z.shiftl (x0 * 64 + x1) 6)
    by (rewrite Z.shiftl_mul_pow2; lia).
  rewrite lor_shiftl_small by lia. lia.
Qed.

Lemma rune4 (x0 x1 x2 x3 : Z) :
  0 ≤ x1 < 64 → 0 ≤ x2 < 64 → 0 ≤ x3 < 64 →
  Z.lor (Z.lor (Z.lor (Z.shiftl x0 18) (Z.shiftl x1 12)) (Z.shiftl x2 6)) x3
  = x0 * 262144 + x1 * 4096 + x2 * 64 + x3.
Proof.
  intros. rewrite (Z.shiftl_mul_pow2 x1), (Z.shiftl_mul_pow2 x2) by lia.
  rewrite (lor_shiftl_small x0) by lia.
  replace (x0 * 2 ^ 18 + x1 * 2 ^ 12) with (Z.shiftl (x0 * 64 + x1) 12)
    by (rewrite Z.shiftl_mul_pow2; lia).
  rewrite lor_shiftl_small by lia.
  replace ((x0 * 64 + x1) * 2 ^ 12 + x2 * 2 ^ 6) with (Z.shiftl ((x0 * 64 + x1) * 64 + x2) 6)
    by (rewrite Z.shiftl_mul_pow2; lia).
  rewrite lor_shiftl_small by lia. lia.
Qed.


Ltac decide_ranges :=
  repeat match goal with
         | |- context [?a <=? ?b] => destruct (Z.leb_spec a b); try lia
         | |- context [?a <? ?b] => destruct (Z.ltb_spec a b); try lia
         end;
  cbn [andb orb negb].

Lemma shiftr_div (r n : Z) : 0 ≤ n → Z.shiftr r n = r / 2 ^ n.
Proof. intros. by rewrite Z.shiftr_div_pow2. Qed.

Lemma EncodeRune2 (x0 x1 : Z) :
  2 ≤ x0 < 32 → 0 ≤ x1 < 64 →
  EncodeRune (x0 * 64 + x1) = String (byte (0xC0 + x0)) (String (byte (0x80 + x1)) "").
Proof.
  intros H0 H1. unfold EncodeRune, MaxRune, surrogateMin, surrogateMax in *. decide_ranges.
  rewrite shiftr_div by lia. unfold maskx. change 0x3F with (2 ^ 6 - 1).
  rewrite land_mask by lia.
  replace ((x0 * 64 + x1) / 2 ^ 6) with x0 by (apply (Z.div_unique _ _ _ x1); lia).
  replace ((x0 * 64 + x1) mod 2 ^ 6) with x1 by (apply (Z.mod_unique _ _ x0); lia).
  rewrite lor_t2, lor_tx by lia. reflexivity.
Qed.

Lemma encode3_sum (x0 x1 x2 : Z) :
  0 ≤ x0 < 16 → 0 ≤ x1 < 64 → 0 ≤ x2 < 64 →
  encode3 (x0 * 4096 + x1 * 64 + x2) =
  String (byte (0xE0 + x0)) (String (byte (0x80 + x1)) (String (byte (0x80 + x2)) "")).
Proof.
  intros H0 H1 H2. unfold encode3.
  rewrite !shiftr_div by lia. unfold maskx. change 0x3F with (2 ^ 6 - 1).
  rewrite !land_mask by lia.
  replace ((x0 * 4096 + x1 * 64 + x2) / 2 ^ 12) with x0
    by (apply (Z.div_unique _ _ _ (x1 * 64 + x2)); lia).
  replace ((x0 * 4096 + x1 * 64 + x2) / 2 ^ 6) with (x0 * 64 + x1)
    by (apply (Z.div_unique _ _ _ x2); lia).
  replace ((x0 * 64 + x1) mod 2 ^ 6) with x1 by (apply (Z.mod_unique _ _ x0); lia).
  replace ((x0 * 4096 + x1 * 64 + x2) mod 2 ^ 6) with x2
    by (apply (Z.mod_unique _ _ (x0 * 64 + x1)); lia).
  rewrite lor_t3, !lor_tx by lia. reflexivity.
Qed.

Lemma EncodeRune3 (x0 x1 x2 : Z) :
  0 ≤ x0 < 16 → 0 ≤ x1 < 64 → 0 ≤ x2 < 64 →
  0x800 ≤ x0 * 4096 + x1 * 64 + x2 →
  ¬ (surrogateMin ≤ x0 * 4096 + x1 * 64 + x2 ≤ surrogateMax) →
  EncodeRune (x0 * 4096 + x1 * 64 + x2) =
  String (byte (0xE0 + x0)) (String (byte (0x80 + x1)) (String (byte (0x80 + x2)) "")).
Proof.
  intros H0 H1 H2 Hlo Hsur. unfold EncodeRune, MaxRune, surrogateMin, surrogateMax in *.
  decide_ranges; by apply encode3_sum.
Qed.

Lemma EncodeRune4 (x0 x1 x2 x3 : Z) :
  0 ≤ x0 < 8 → 0 ≤ x1 < 64 → 0 ≤ x2 < 64 → 0 ≤ x3 < 64 →
  0x10000 ≤ x0 * 262144 + x1 * 4096 + x2 * 64 + x3 ≤ MaxRune →
  EncodeRune (x0 * 262144 + x1 * 4096 + x2 * 64 + x3) =
  String (byte (0xF0 + x0)) (String (byte (0x80 + x1))
    (String (byte (0x80 + x2)) (String (byte (0x80 + x3)) ""))).
Proof.
  intros H0 H1 H2 H3 Hr. unfold EncodeRune, MaxRune, surrogateMin, surrogateMax in *.
  decide_ranges. unfold encode4.
  rewrite !shiftr_div by lia. unfold maskx. change 0x3F with (2 ^ 6 - 1).
  rewrite !land_mask by lia.
  replace ((x0 * 262144 + x1 * 4096 + x2 * 64 + x3) / 2 ^ 18) with x0
    by (apply (Z.div_unique _ _ _ (x1 * 4096 + x2 * 64 + x3)); lia).
  replace ((x0 * 262144 + x1 * 4096 + x2 * 64 + x3) / 2 ^ 12) with (x0 * 64 + x1)
    by (apply (Z.div_unique _ _ _ (x2 * 64 + x3)); lia).
  replace ((x0 * 262144 + x1 * 4096 + x2 * 64 + x3) / 2 ^ 6) with ((x0 * 64 + x1) * 64 + x2)
    by (apply (Z.div_unique _ _ _ x3); lia).
  replace ((x0 * 64 + x1) mod 2 ^ 6) with x1 by (apply (Z.mod_unique _ _ x0); lia).
  replace (((x0 * 64 + x1) * 64 + x2) mod 2 ^ 6) with x2
    by (apply (Z.mod_unique _ _ (x0 * 64 + x1)); lia).
  replace ((x0 * 262144 + x1 * 4096 + x2 * 64 + x3) mod 2 ^ 6) with x3
    by (apply (Z.mod_unique _ _ ((x0 * 64 + x1) * 64 + x2)); lia).
  rewrite lor_t4, !lor_tx by lia. reflexivity.
Qed.


Lemma first_classes (z : Z) :
  0 ≤ z < 256 →
  (first z = as_ ∧ z < 0x80) ∨ (first z = xx ∧ 0x80 ≤ z)
  ∨ (first z = s1 ∧ 0xC2 ≤ z < 0xE0)
  ∨ (first z = s2 ∧ z = 0xE0)
  ∨ (first z = s3 ∧ (0xE1 ≤ z < 0xED ∨ 0xEE ≤ z < 0xF0))
  ∨ (first z = s4 ∧ z = 0xED)
  ∨ (first z = s5 ∧ z = 0xF0)
  ∨ (first z = s6 ∧ 0xF1 ≤ z < 0xF4)
  ∨ (first z = s7 ∧ z = 0xF4).
Proof.
  intros Hz.
  assert (z < 0x80 ∨ 0x80 ≤ z < 0xC2 ∨ 0xC2 ≤ z < 0xE0 ∨ z = 0xE0
          ∨ (0xE1 ≤ z < 0xED ∨ 0xEE ≤ z < 0xF0) ∨ z = 0xED ∨ z = 0xF0
          ∨ 0xF1 ≤ z < 0xF4 ∨ z = 0xF4 ∨ 0xF5 ≤ z) as Hc by lia.
  destruct Hc as [H|[H|[H|[H|[H|[H|[H|[H|[H|H]]]]]]]]].
  - left. split; [by apply first_as|done].
  - right; left. split; [by apply first_xx_low|lia].
  - do 2 right; left. split; [by apply first_s1|done].
  - do 3 right; left. subst. done.
  - do 4 right; left. split; [by apply first_s3|done].
  - do 5 right; left. subst. done.
  - do 6 right; left. subst. done.
  - do 7 right; left. split; [by apply first_s6|done].
  - do 8 right. subst. done.
  - right; left. split; [by apply first_xx_high|lia].
Qed.

Ltac decode_step H :=
  match type of H with
  | match ?r with EmptyString => _ | String _ _ => _ end = _ =>
      let c := fresh "c" in let r' := fresh "r" in
      destruct r as [|c r']; [inversion H; lia|]
  | (if (?a <? ?b) || (?c <? ?d) then _ else _) = _ =>
      destruct (Z.ltb_spec a b); [inversion H; lia|];
      destruct (Z.ltb_spec c d); [inversion H; lia|];
      cbn [orb] in H; cbv iota in H
  | (if ?a <=? ?b then _ else _) = _ =>
      let b' := eval vm_compute in (a <=? b) in
      change (a <=? b) with b' in H; cbv iota in H
  end.

Ltac redecode Hf :=
  let T := fresh "T" in
  intros T; cbn [takeS]; rewrite ?append_cons, ?append_nil_l;
  unfold DecodeRuneInString; rewrite Hf;
  match goal with
  | |- context [as_ <=? ?x] =>
      change (as_ <=? x) with false; cbv iota;
      let sz := eval vm_compute in (Z.land x 7) in
      change (Z.land x 7) with sz;
      let acc := eval vm_compute in (acceptRanges (Z.shiftr x 4)) in
      change (acceptRanges (Z.shiftr x 4)) with acc
  end;
  cbn [fst snd]; unfold locb, hicb;
  repeat match goal with
         | |- (if (?a <? ?b) || (?c <? ?d) then _ else _) = _ =>
             destruct (Z.ltb_spec a b); [lia|];
             destruct (Z.ltb_spec c d); [lia|];
             cbn [orb]; cbv iota
         | |- (if ?a <=? ?b then _ else _) = _ =>
             let b' := eval vm_compute in (a <=? b) in
             change (a <=? b) with b'; cbv iota
         end;
  reflexivity.

Ltac unbyte :=
  repeat match goal with
         | |- context [byte (?k + (byteZ ?c - ?k))] =>
             replace (k + (byteZ c - k)) with (byteZ c) by lia
         end;
  rewrite !byte_byteZ.

Lemma DecodeRune_multibyte (s : string) (c : Z) (size : nat) :
  DecodeRuneInString s = (c, size) → (2 ≤ size)%nat →
  (size ≤ String.length s)%nat
  ∧ EncodeRune c = takeS size s
  ∧ (∀ T, DecodeRuneInString (takeS size s +:+ T) = (c, size)).
Proof.
  intros Hdec Hsize. destruct s as [|c0 r0]; [inversion Hdec; lia|].
  pose proof (byteZ_range c0) as Hz0.
  unfold DecodeRuneInString in Hdec.
  destruct (first_classes _ Hz0) as [[Hf ?]|[[Hf ?]|[[Hf ?]|[[Hf ?]|[[Hf ?]|[[Hf ?]|[[Hf ?]|[[Hf ?]|[Hf ?]]]]]]]]].
  1,2: rewrite Hf in Hdec; cbn in Hdec; inversion Hdec; lia.
  all: rewrite Hf in Hdec;
    match type of Hdec with
    | context [as_ <=? ?x] =>
        change (as_ <=? x) with false in Hdec; cbv iota in Hdec;
        let sz := eval vm_compute in (Z.land x 7) in
        change (Z.land x 7) with sz in Hdec;
        let acc := eval vm_compute in (acceptRanges (Z.shiftr x 4)) in
        change (acceptRanges (Z.shiftr x 4)) with acc in Hdec
    end;
    cbn [fst snd] in Hdec; repeat decode_step Hdec;
    injection Hdec as <- <-; unfold locb, hicb in *;
    (split; [simpl; lia|]); (split; [|redecode Hf]); cbn [takeS].
  - rewrite land_mask2, land_maskx, rune2 by lia.
    rewrite EncodeRune2 by lia. by unbyte.
  - rewrite land_mask3, !land_maskx, rune3 by lia.
    rewrite EncodeRune3 by (unfold surrogateMin, surrogateMax; lia). by unbyte.
  - rewrite land_mask3, !land_maskx, rune3 by lia.
    rewrite EncodeRune3 by (unfold surrogateMin, surrogateMax; lia). by unbyte.
  - rewrite land_mask3, !land_maskx, rune3 by lia.
    rewrite EncodeRune3 by (unfold surrogateMin, surrogateMax; lia). by unbyte.
  - rewrite land_mask4, !land_maskx, rune4 by lia.
    rewrite EncodeRune4 by (unfold MaxRune; lia). by unbyte.
  - rewrite land_mask4, !land_maskx, rune4 by lia.
    rewrite EncodeRune4 by (unfold MaxRune; lia). by unbyte.
  - rewrite land_mask4, !land_maskx, rune4 by lia.
    rewrite EncodeRune4 by (unfold MaxRune; lia). by unbyte.
Qed.

Lemma DecodeRune_size1 (s : string) (c : Z) :
  DecodeRuneInString s = (c, 1%nat) →
  ∃ c0 r, s = String c0 r ∧ (byteZ c0 < 0x80 ∧ c = byteZ c0 ∨ 0x80 ≤ byteZ c0 ∧ c = RuneError).
Proof.
  intros Hdec. destruct s as [|c0 r0]; [inversion Hdec|].
  exists c0, r0. split; [done|].
  pose proof (byteZ_range c0) as Hz0.
  unfold DecodeRuneInString in Hdec.
  destruct (Z.lt_ge_cases (byteZ c0) 0x80) as [Hlt|Hge].
  - left. split; [done|]. rewrite first_as in Hdec by done. cbn in Hdec. by inversion Hdec.
  - right. split; [done|].
    destruct (first_classes _ Hz0) as [[Hf ?]|[[Hf ?]|[[Hf ?]|[[Hf ?]|[[Hf ?]|[[Hf ?]|[[Hf ?]|[[Hf ?]|[Hf ?]]]]]]]]].
    { lia. }
    { rewrite Hf in Hdec. cbn in Hdec. by inversion Hdec. }
    all: rewrite Hf in Hdec;
      match type of Hdec with
      | context [as_ <=? ?x] =>
          change (as_ <=? x) with false in Hdec; cbv iota in Hdec;
          let sz := eval vm_compute in (Z.land x 7) in
          change (Z.land x 7) with sz in Hdec;
          let acc := eval vm_compute in (acceptRanges (Z.shiftr x 4)) in
          change (acceptRanges (Z.shiftr x 4)) with acc in Hdec
      end;
      cbn [fst snd] in Hdec;
      repeat match type of Hdec with
             | match ?r with EmptyString => _ | String _ _ => _ end = _ =>
                 destruct r; [by inversion Hdec|]
             | (if ?b then _ else _) = _ =>
                 destruct b; [by inversion Hdec|]
             end; by inversion Hdec.
Qed.

Lemma DecodeRune_nonzero (b : ascii) (r : string) (c : Z) :
  DecodeRuneInString (String b r) ≠ (c, 0%nat).
Proof.
  intros H. unfold DecodeRuneInString in H.
  repeat (match type of H with
          | context [if ?b then _ else _] => destruct b
          | context [match ?r with EmptyString => _ | String _ _ => _ end] => destruct r
          end; try discriminate H).
Qed.

End Utf8Facts.

(** ** String literals: decoding inverts encoding *)

Module JsonStringFacts.
Import Json.

Lemma stringLit_ascii (b : ascii) (f : nat) (T : string) :
  byteZ b < 0x80 →
  stringLit (S f) ((if htmlSafeSet b then String b "" else escapeByte b) +:+ T)
  = prepend (String b "") (stringLit f T).
Proof.
  intros Hb.
  destruct b as [[] [] [] [] [] [] [] []];
    first [ by compute in Hb | reflexivity ].
Qed.

Lemma escape_nonempty (b : ascii) :
  (1 ≤ String.length (if htmlSafeSet b then String b "" else escapeByte b))%nat.
Proof.
  destruct (htmlSafeSet b); [simpl; lia|]. unfold escapeByte.
  repeat (match goal with |- context [if ?c then _ else _] => destruct c end);
    rewrite ?append_length; simpl; lia.
Qed.

Lemma stringLit_high (b : ascii) (X : string) (f : nat) :
  0x80 ≤ byteZ b →
  stringLit (S f) (String b X) =
  let '(rr, size) := utf8.DecodeRuneInString (String b X) in
  prepend (utf8.EncodeRune rr) (stringLit f (dropS size (String b X))).
Proof.
  intros Hb. cbn [stringLit].
  destruct (Ascii.eqb_spec b dquote) as [->|_]; [by compute in Hb|].
  destruct (Ascii.eqb_spec b "\") as [->|_]; [by compute in Hb|].
  destruct (Z.ltb_spec (byteZ b) 0x20); [lia|].
  unfold utf8.RuneSelf. destruct (Z.ltb_spec (byteZ b) 0x80); [lia|].
  reflexivity.
Qed.

Lemma dropS_takeS_app (n : nat) (s T : string) :
  (n ≤ String.length s)%nat → dropS n (takeS n s +:+ T) = T.
Proof.
  revert s. induction n as [|n IH]; intros [|c s] Hn; simpl in Hn; try lia; try reflexivity.
  cbn [takeS]. rewrite append_cons. cbn [dropS]. apply IH. lia.
Qed.

Lemma takeS_length (n : nat) (s : string) :
  (n ≤ String.length s)%nat → String.length (takeS n s) = n.
Proof.
  revert s. induction n as [|n IH]; intros [|c s] Hn; simpl in *; try lia.
  rewrite IH; lia.
Qed.

Lemma stringLit_appendString (n : nat) (s : string) :
  (String.length s ≤ n)%nat → utf8.validFuel n s = true →
  ∀ f T, (String.length (appendStringFuel n s) ≤ f)%nat →
  stringLit (S f) (appendStringFuel n s +:+ String dquote T) = Some (s, T).
Proof.
  revert s. induction n as [|n IH]; intros s Hlen Hvalid f T Hf.
  { destruct s; simpl in Hlen; [|lia]. reflexivity. }
  destruct s as [|b r]; [reflexivity|].
  cbn [appendStringFuel utf8.validFuel] in *. simpl in Hlen.
  unfold utf8.RuneSelf in *.
  destruct (Z.ltb_spec (byteZ b) 0x80) as [Hb|Hb].
  - rewrite append_length in Hf.
    pose proof (escape_nonempty b) as Hne.
    destruct f as [|f]; [lia|].
    rewrite append_assoc, stringLit_ascii by done.
    rewrite IH by (done || lia). reflexivity.
  - destruct (utf8.DecodeRuneInString (String b r)) as [c size] eqn:Hdec.
    destruct ((c =? utf8.RuneError) && (size =? 1)%nat) eqn:Hbad; [done|].
    assert (2 ≤ size)%nat as Hsize.
    { destruct size as [|[|size]]; [|exfalso|lia].
      - by apply Utf8Facts.DecodeRune_nonzero in Hdec.
      - apply Utf8Facts.DecodeRune_size1 in Hdec as (c0 & r0 & [= <- <-] & [[? _]|[_ ->]]);
          [lia|done]. }
    destruct (Utf8Facts.DecodeRune_multibyte _ _ _ Hdec Hsize) as (Hle & Henc & Hre).
    assert (Hstep : ∀ f' X,
      stringLit (S f') (takeS size (String b r) +:+ X) =
      prepend (takeS size (String b r)) (stringLit f' X)).
    { intros f' X.
      destruct size as [|size']; [lia|]. cbn [takeS]. rewrite append_cons.
      rewrite stringLit_high by done.
      change (String b (takeS size' r +:+ X)) with (takeS (S size') (String b r) +:+ X).
      rewrite Hre, Henc. by rewrite dropS_takeS_app. }
    assert (Hrest : (String.length (dropS size (String b r)) ≤ n)%nat).
    { rewrite dropS_length. simpl. lia. }
    destruct ((c =? 0x2028) || (c =? 0x2029)) eqn:Hsep.
    + rewrite append_length in Hf. change (String.length "\u202") with 5%nat in Hf.
      simpl in Hf. destruct f as [|f]; [lia|].
      assert (Hu : stringLit (S (S f))
                 (("\u202" +:+
                   String (hex (Z.land c 15)) (appendStringFuel n (dropS size (String b r))))
                  +:+ String dquote T)
               = prepend (utf8.EncodeRune c)
                   (stringLit (S f) (appendStringFuel n (dropS size (String b r))
                                     +:+ String dquote T))).
      { apply orb_true_iff in Hsep as [Hc|Hc]; apply Z.eqb_eq in Hc; subst c; reflexivity. }
      rewrite Hu, IH by (done || lia). cbn [prepend]. rewrite Henc.
      by rewrite takeS_dropS.
    + rewrite append_length in Hf. rewrite takeS_length in Hf by done.
      destruct f as [|f]; [lia|].
      rewrite append_assoc, Hstep, IH by (done || lia). cbn [prepend].
      by rewrite takeS_dropS.
Qed.

(** A string of valid UTF-8, encoded and followed by any text, is decoded
    to itself, with that text left over. *)
Lemma stringLit_roundtrip (s T : string) :
  utf8.ValidString s = true →
  stringLit (S (String.length (appendStringFuel (String.length s) s +:+ String dquote T)))
            (appendStringFuel (String.length s) s +:+ String dquote T)
  = Some (s, T).
Proof.
  intros Hv. apply stringLit_appendString; [done|done|].
  rewrite append_length. lia.
Qed.

End JsonStringFacts.

(** ** Decimal numbers *)

Lemma digitChar_byteZ (d : Z) : 0 ≤ d ≤ 9 → byteZ (digitChar d) = 48 + d.
Proof.
  intros H. unfold digitChar, byteZ. rewrite N_ascii_embedding by lia. lia.
Qed.

Lemma digitChar_isDigit (d : Z) : 0 ≤ d ≤ 9 → isDigit (digitChar d) = true.
Proof.
  intros H. unfold isDigit. rewrite digitChar_byteZ by done.
  apply andb_true_iff. split; apply Z.leb_le; lia.
Qed.

Lemma formatDigits_app (fuel : nat) (n : Z) (acc : string) :
  formatDigits fuel n acc = formatDigits fuel n "" +:+ acc.
Proof.
  revert n acc. induction fuel as [|fuel IH]; intros n acc; cbn [formatDigits].
  - reflexivity.
  - destruct (n <? 10); [reflexivity|].
    rewrite IH, (IH _ (String _ "")). by rewrite append_assoc.
Qed.

Lemma allDigits_app (s t : string) : allDigits (s +:+ t) = allDigits s && allDigits t.
Proof.
  induction s as [|c s IH]; [reflexivity|].
  rewrite append_cons. simpl. rewrite IH. by rewrite andb_assoc.
Qed.

Lemma parseDigits_app (s t : string) (a : Z) :
  allDigits s = true →
  parseDigits (s +:+ t) a = mbind (parseDigits t) (parseDigits s a).
Proof.
  revert a. induction s as [|c s IH]; intros a Hs; [reflexivity|].
  rewrite append_cons. simpl in *. apply andb_true_iff in Hs as [Hc Hs].
  rewrite Hc. by apply IH.
Qed.

(** the decimal digits of a natural number: no leading zero, and read back
    to the number *)
Lemma formatDigits_spec (fuel : nat) (n : Z) :
  0 ≤ n < 2 ^ (Z.of_nat fuel + 1) →
  let ds := formatDigits fuel n "" in
  allDigits ds = true
  ∧ (∃ c r, ds = String c r ∧ (c = "0"%char → n = 0 ∧ r = ""))
  ∧ (∀ a, parseDigits ds a = Some (a * 10 ^ Z.of_nat (String.length ds) + n))
  ∧ n < 10 ^ Z.of_nat (String.length ds).
Proof.
  revert n. induction fuel as [|fuel IH]; intros n Hn; cbn [formatDigits].
  - assert (n = 0 ∨ n = 1) as [-> | ->] by (change (2 ^ (Z.of_nat 0 + 1)) with 2 in Hn; lia).
    + split; [done|]. split; [by exists "0"%char, ""|].
      split; [|done]. intros a. simpl.
      change (byteZ (digitChar (0 mod 10))) with 48.
      change (10 ^ Z.of_nat 1) with 10. f_equal. lia.
    + split; [done|]. split; [exists "1"%char, ""; by split|].
      split; [|done]. intros a. simpl.
      change (byteZ (digitChar (1 mod 10))) with 49.
      change (10 ^ Z.of_nat 1) with 10. f_equal. lia.
  - destruct (Z.ltb_spec n 10) as [Hlt|Hge].
    + assert (Hd : byteZ (digitChar (n mod 10)) = 48 + n).
      { rewrite digitChar_byteZ by (rewrite Z.mod_small; lia). rewrite Z.mod_small; lia. }
      cbn zeta. split; [|split; [|split]].
      * simpl. rewrite digitChar_isDigit; [done|]. rewrite Z.mod_small; lia.
      * eexists _, _. split; [done|]. intros Hc. split; [|done].
        apply (f_equal byteZ) in Hc. rewrite Hd in Hc.
        change (byteZ "0") with 48 in Hc. lia.
      * intros a. simpl. rewrite digitChar_isDigit by (rewrite Z.mod_small; lia).
        rewrite Hd. f_equal. lia.
      * simpl. lia.
    + rewrite formatDigits_app.
      assert (Hn' : 0 ≤ n / 10 < 2 ^ (Z.of_nat fuel + 1)).
      { split; [apply Z.div_pos; lia|].
        apply Z.div_lt_upper_bound; [lia|].
        replace (Z.of_nat (S fuel) + 1) with (Z.succ (Z.of_nat fuel + 1)) in Hn by lia.
        rewrite Z.pow_succ_r in Hn by lia. lia. }
      destruct (IH _ Hn') as (Hall & (c & r & Hds & Hzero) & Hparse & Hbound).
      pose proof (Z.mod_pos_bound n 10 ltac:(lia)) as Hmod.
      cbn zeta. split; [|split; [|split]].
      * rewrite allDigits_app, Hall. simpl. by rewrite digitChar_isDigit by lia.
      * rewrite Hds, append_cons. eexists _, _. split; [done|].
        intros ->. destruct (Hzero eq_refl) as [Hz _].
        pose proof (Z.div_le_lower_bound n 10 1 ltac:(lia) ltac:(lia)). lia.
      * intros a. rewrite parseDigits_app, Hparse by done. cbn [mbind option_bind].
        simpl. rewrite digitChar_isDigit, digitChar_byteZ by lia. f_equal.
        rewrite append_length. simpl String.length.
        rewrite Nat2Z.inj_add. change (Z.of_nat 1) with 1.
        rewrite Z.pow_add_r by lia. change (10 ^ 1) with 10.
        pose proof (Z.div_mod n 10 ltac:(lia)). lia.
      * rewrite append_length. simpl String.length.
        rewrite Nat2Z.inj_add. change (Z.of_nat 1) with 1.
        rewrite Z.pow_add_r by lia. change (10 ^ 1) with 10.
        pose proof (Z.div_mod n 10 ltac:(lia)). lia.
Qed.

Lemma log2_fuel (n : Z) : 0 ≤ n → n < 2 ^ (Z.of_nat (Z.to_nat (Z.log2 n)) + 1).
Proof.
  intros Hn. rewrite Z2Nat.id by apply Z.log2_nonneg.
  destruct (Z.eq_dec n 0) as [->|Hz]; [done|].
  replace (Z.log2 n + 1) with (Z.succ (Z.log2 n)) by lia.
  apply Z.log2_spec. lia.
Qed.

Lemma spanDigits_app (ds T : string) :
  allDigits ds = true → delimited T = true → Json.spanDigits (ds +:+ T) = (ds, T).
Proof.
  intros Hds HT. induction ds as [|c ds IH].
  - rewrite append_nil_l. destruct T as [|t T]; [reflexivity|].
    simpl in *. destruct (isDigit t) eqn:Ht; [|reflexivity].
    apply orb_true_iff in HT as [H|H]; apply Ascii.eqb_eq in H; subst; discriminate.
  - rewrite append_cons. simpl in *. apply andb_true_iff in Hds as [Hc Hds].
    rewrite Hc, IH by done. reflexivity.
Qed.

Lemma spanDigits_cons (c : ascii) (r T : string) :
  isDigit c = true → allDigits r = true → delimited T = true →
  Json.spanDigits (String c (r +:+ T)) = (String c r, T).
Proof.
  intros Hc Hr HT. rewrite <- append_cons. apply spanDigits_app; [|done].
  simpl. by rewrite Hc, Hr.
Qed.

Ltac digit_cases c Hc :=
  destruct c as [[] [] [] [] [] [] [] []]; try discriminate Hc.

Ltac delim_cases T HT :=
  let c := fresh "c" in let T' := fresh "T" in let H := fresh "H" in
  destruct T as [|c T'];
  [|cbn [delimited] in HT; apply orb_true_iff in HT as [H|H];
    apply Ascii.eqb_eq in H; subst c].

(** a number in the form of [FormatInt] is one number literal *)
Lemma numberLit_digits (neg : bool) (c : ascii) (r T : string) :
  isDigit c = true → allDigits r = true → (c = "0"%char → r = "") →
  delimited T = true →
  Json.numberLit ((if neg then "-" else "") +:+ String c r +:+ T)
  = Some ((if neg then "-" else "") +:+ String c r, T).
Proof.
  intros Hc Hr Hzero HT.
  assert (Hspan := spanDigits_cons c r T Hc Hr HT).
  assert (Hr0 : c = "0"%char → r = "") by done.
  digit_cases c Hc; destruct neg; unfold Json.numberLit;
    rewrite ?append_nil_l, ?append_cons, ?append_nil_l; cbv beta iota zeta;
    try (rewrite (Hr0 eq_refl), ?append_nil_l);
    try rewrite Hspan;
    delim_cases T HT; cbn; rewrite ?append_nil_r; reflexivity.
Qed.

Lemma digit_not_sign (c : ascii) :
  isDigit c = true → Ascii.eqb c "+" = false ∧ Ascii.eqb c "-" = false.
Proof. intros Hc. digit_cases c Hc; by split. Qed.

Lemma allDigits_head (c : ascii) (r : string) :
  allDigits (String c r) = true → isDigit c = true ∧ allDigits r = true.
Proof. simpl. apply andb_true_iff. Qed.

Lemma FormatInt_shape (z : Z) :
  ∃ (neg : bool) (c : ascii) (r : string),
    FormatInt z = (if neg then "-" else "") +:+ String c r
    ∧ isDigit c = true ∧ allDigits r = true ∧ (c = "0"%char → r = "")
    ∧ parseDigits (String c r) 0 = Some (if neg then - z else z)
    ∧ neg = (z <? 0).
Proof.
  unfold FormatInt. destruct (Z.ltb_spec z 0) as [Hneg|Hpos].
  - destruct (formatDigits_spec _ _ (conj (ltac:(lia) : 0 ≤ - z) (log2_fuel (- z) ltac:(lia))))
      as (Hall & (c & r & Hds & Hzero) & Hparse & _).
    exists true, c, r. rewrite Hds in *.
    apply allDigits_head in Hall as [Hc Hr].
    rewrite Hparse.
    split; [done|]. split; [done|]. split; [done|].
    split; [intros Hc0; by destruct (Hzero Hc0)|].
    split; [f_equal; lia|done].
  - destruct (formatDigits_spec _ _ (conj Hpos (log2_fuel z Hpos)))
      as (Hall & (c & r & Hds & Hzero) & Hparse & _).
    exists false, c, r. rewrite Hds in *.
    apply allDigits_head in Hall as [Hc Hr].
    rewrite Hparse.
    split; [done|]. split; [done|]. split; [done|].
    split; [intros Hc0; by destruct (Hzero Hc0)|].
    split; [f_equal; lia|done].
Qed.

Lemma numberLit_FormatInt (z : Z) (T : string) :
  delimited T = true → Json.numberLit (FormatInt z +:+ T) = Some (FormatInt z, T).
Proof.
  intros HT. destruct (FormatInt_shape z) as (neg & c & r & -> & Hc & Hr & Hz & _).
  rewrite append_assoc. by apply numberLit_digits.
Qed.

Lemma ParseInt_FormatInt (z : Z) :
  minInt64 ≤ z ≤ maxInt64 → ParseInt (FormatInt z) = Some z.
Proof.
  intros Hz. destruct (FormatInt_shape z) as (neg & c & r & -> & Hc & Hr & _ & Hp & Hneg).
  unfold minInt64, maxInt64 in Hz.
  destruct neg; symmetry in Hneg.
  - apply Z.ltb_lt in Hneg. rewrite append_cons, append_nil_l.
    unfold ParseInt. change (Ascii.eqb "-" "+") with false.
    change (Ascii.eqb "-" "-") with true. cbv iota beta.
    unfold ParseUint. rewrite Hp. cbn [negb andb].
    destruct (Z.ltb_spec (2 ^ 63) (- z)); [lia|]. f_equal. lia.
  - apply Z.ltb_ge in Hneg. rewrite append_nil_l.
    unfold ParseInt. destruct (digit_not_sign c Hc) as [-> ->].
    unfold ParseUint. rewrite Hp. cbn [negb andb].
    destruct (Z.leb_spec (2 ^ 63) z); [lia|]. reflexivity.
Qed.

(** ** The parser inverts the renderer *)

Module JsonFacts.
Import Json.

Lemma json_induction (P : json → Prop) :
  P JNull → (∀ b, P (JBool b)) → (∀ lit, P (JNumber lit)) → (∀ s, P (JString s)) →
  (∀ l, Forall P l → P (JArray l)) →
  (∀ l, Forall (λ kv, P kv.2) l → P (JObject l)) →
  ∀ v, P v.
Proof.
  intros Hnull Hbool Hnum Hstr Harr Hobj. fix IH 1. intros [| | | |l|l].
  - exact Hnull.
  - apply Hbool.
  - apply Hnum.
  - apply Hstr.
  - apply Harr. induction l as [|x l IHl]; constructor; [apply IH|exact IHl].
  - apply Hobj. induction l as [|[k x] l IHl]; constructor; [apply IH|exact IHl].
Qed.

Lemma skipSpace_newline (d : nat) (X : string) :
  skipSpace (newline d +:+ X) = skipSpace X.
Proof.
  unfold newline. rewrite append_cons. cbn [skipSpace].
  change (isSpace "010") with true. cbv iota.
  induction d as [|d IH]; [reflexivity|].
  cbn [indentation]. rewrite !append_cons, append_nil_l. cbn [skipSpace].
  change (isSpace " ") with true. cbv iota. exact IH.
Qed.

Lemma newline_length (d : nat) : String.length (newline d) = S (2 * d).
Proof.
  unfold newline. simpl. f_equal. induction d as [|d IH]; [reflexivity|].
  cbn [indentation]. rewrite !append_cons, append_nil_l. simpl. lia.
Qed.

Lemma render_object (d : nat) k x xs :
  render d (JObject ((k, x) :: xs)) =
  "{" +:+ newline (S d) +:+ appendString k +:+ ": " +:+ render (S d) x
  +:+ objectMore d xs +:+ newline d +:+ "}".
Proof. reflexivity. Qed.

Lemma render_array (d : nat) x xs :
  render d (JArray (x :: xs)) =
  "[" +:+ newline (S d) +:+ render (S d) x +:+ arrayMore d xs +:+ newline d +:+ "]".
Proof. reflexivity. Qed.

Lemma objectMore_cons (d : nat) k y l :
  objectMore d ((k, y) :: l) =
  "," +:+ newline (S d) +:+ appendString k +:+ ": " +:+ render (S d) y +:+ objectMore d l.
Proof. reflexivity. Qed.

Lemma arrayMore_cons (d : nat) y l :
  arrayMore d (y :: l) = "," +:+ newline (S d) +:+ render (S d) y +:+ arrayMore d l.
Proof. reflexivity. Qed.

(** the scalars *)
Lemma value_number (f : nat) (z : Z) (T : string) :
  delimited T = true →
  value (S f) (FormatInt z +:+ T) = Some (JNumber (FormatInt z), T).
Proof.
  intros HT.
  pose proof (numberLit_FormatInt z T HT) as Hlit.
  destruct (FormatInt_shape z) as (neg & c & r & Hshape & Hc & _).
  rewrite Hshape in *. clear Hshape.
  assert (Hv : value (S f) ((if neg then "-" else "") +:+ String c r +:+ T) =
               match numberLit ((if neg then "-" else "") +:+ String c r +:+ T) with
               | Some (lit, r') => Some (JNumber lit, r')
               | None => None
               end).
  { destruct neg; [reflexivity|]. digit_cases c Hc; reflexivity. }
  rewrite append_assoc, Hv, <- append_assoc. by rewrite Hlit.
Qed.

Lemma value_string (f : nat) (s T : string) :
  utf8.ValidString s = true →
  value (S f) (appendString s +:+ T) = Some (JString s, T).
Proof.
  intros Hs. unfold appendString. rewrite append_cons, append_assoc, append_cons, append_nil_l.
  change (value (S f) (String dquote ?r)) with
    (match stringLit (S (String.length r)) r with
     | Some (str, r') => Some (JString str, r')
     | None => None
     end).
  by rewrite JsonStringFacts.stringLit_roundtrip.
Qed.

Lemma value_skip (f : nat) (s s' : string) :
  skipSpace s = skipSpace s' → value f s = value f s'.
Proof. intros H. destruct f; [reflexivity|]. cbn [value]. by rewrite H. Qed.

Lemma members_skip (f : nat) (s s' : string) :
  skipSpace s = skipSpace s' → members f s = members f s'.
Proof. intros H. destruct f; [reflexivity|]. cbn [members]. by rewrite H. Qed.

Lemma members_step (f : nat) (k rest : string) :
  utf8.ValidString k = true →
  members (S f) (appendString k +:+ ": " +:+ rest) =
  match value f rest with
  | Some (v, r3) =>
      match skipSpace r3 with
      | String "," r4 =>
          match members f r4 with
          | Some (ms, r5) => Some ((k, v) :: ms, r5)
          | None => None
          end
      | String "}" r4 => Some ([(k, v)], r4)
      | _ => None
      end
  | None => None
  end.
Proof.
  intros Hk. unfold appendString.
  rewrite append_cons, append_assoc, append_cons, append_nil_l.
  change (members (S f) (String dquote ?r)) with
    (match stringLit (S (String.length r)) r with
     | Some (k, r1) =>
         match skipSpace r1 with
         | String ":" r2 =>
             match value f r2 with
             | Some (v, r3) =>
                 match skipSpace r3 with
                 | String "," r4 =>
                     match members f r4 with
                     | Some (ms, r5) => Some ((k, v) :: ms, r5)
                     | None => None
                     end
                 | String "}" r4 => Some ([(k, v)], r4)
                 | _ => None
                 end
             | None => None
             end
         | _ => None
         end
     | None => None
     end).
  rewrite JsonStringFacts.stringLit_roundtrip by done.
  change (skipSpace (": " +:+ rest)) with (String ":" (String " " rest)). cbv iota.
  by rewrite (value_skip f (String " " rest) rest).
Qed.

Lemma appendString_length (s : string) : (2 ≤ String.length (appendString s))%nat.
Proof. unfold appendString. simpl. rewrite append_length. simpl. lia. Qed.

Lemma render_head (d : nat) (v : json) :
  wellFormed v → ∃ c r, render d v = String c r ∧ headByte c.
Proof.
  unfold headByte.
  destruct v as [|[]|lit|s|[|x l]|[|[k x] l]]; intros Hwf;
    try (by eexists _, _; split; [reflexivity|tauto]).
  destruct Hwf as [z ->].
  destruct (FormatInt_shape z) as (neg & c & r & -> & Hc & _).
  destruct neg; [eexists _, _; split; [reflexivity|tauto]|].
  rewrite append_nil_l. exists c, r. split; [done|tauto].
Qed.

Lemma headByte_not_space (c : ascii) : headByte c → isSpace c = false.
Proof.
  intros [->|[->|[->|[->|[->|[->|[->|Hc]]]]]]]; try reflexivity.
  by digit_cases c Hc.
Qed.

Lemma headByte_not_close (c : ascii) (X : string) (b : option (json * string)) :
  headByte c →
  match String c X with
  | String "]" r' => Some (JArray [], r')
  | _ => b
  end = b.
Proof.
  intros [->|[->|[->|[->|[->|[->|[->|Hc]]]]]]]; try reflexivity.
  by digit_cases c Hc.
Qed.

Lemma skipSpace_render (d : nat) (v : json) (T : string) :
  wellFormed v → skipSpace (render d v +:+ T) = render d v +:+ T.
Proof.
  intros Hwf. destruct (render_head d v Hwf) as (c & r & -> & Hc).
  rewrite append_cons. cbn [skipSpace]. by rewrite (headByte_not_space c Hc).
Qed.

Lemma delimited_newline (d : nat) (X : string) : delimited (newline d +:+ X) = true.
Proof. reflexivity. Qed.

Lemma delimited_objectMore (d : nat) xs (X : string) :
  delimited (objectMore d xs +:+ newline d +:+ X) = true.
Proof. by destruct xs as [|[k y] xs]. Qed.

Lemma delimited_arrayMore (d : nat) xs (X : string) :
  delimited (arrayMore d xs +:+ newline d +:+ X) = true.
Proof. by destruct xs as [|y xs]. Qed.

Lemma members_render (d : nat) (xs : list (string * json)) :
  Forall (λ kv, renders kv.2) xs →
  ∀ k x, renders x → wellFormed (JObject ((k, x) :: xs)) →
  ∀ (f : nat) (T : string),
    (String.length (appendString k +:+ ": " +:+ render (S d) x +:+ objectMore d xs
                    +:+ newline d +:+ "}") ≤ f)%nat →
    members f (newline (S d) +:+ appendString k +:+ ": " +:+ render (S d) x
               +:+ objectMore d xs +:+ newline d +:+ "}" +:+ T)
    = Some ((k, x) :: xs, T).
Proof.
  induction 1 as [|[k' y] xs Hy Hxs IH]; intros k x Hx (Hk & Hwx & Hwxs) f T Hf.
  - rewrite (members_skip f _ _ (skipSpace_newline _ _)).
    rewrite !append_length in Hf. pose proof (appendString_length k).
    destruct f as [|f]; [lia|].
    rewrite members_step by done.
    rewrite Hx; [|done|apply delimited_objectMore|lia].
    change (objectMore d []) with "". rewrite append_nil_l, skipSpace_newline.
    reflexivity.
  - rewrite (members_skip f _ _ (skipSpace_newline _ _)).
    rewrite !append_length in Hf. pose proof (appendString_length k).
    destruct f as [|f]; [lia|].
    rewrite members_step by done.
    rewrite Hx; [|done|apply delimited_objectMore|lia].
    rewrite objectMore_cons, !append_assoc.
    change (skipSpace ("," +:+ ?X)) with (String "," X). cbv iota.
    rewrite (IH k' y Hy Hwxs); [done|].
    rewrite objectMore_cons, !append_length in Hf. rewrite !append_length.
    simpl String.length in *. lia.
Qed.

Lemma elements_render (d : nat) (xs : list json) :
  Forall renders xs →
  ∀ x, renders x → wellFormed (JArray (x :: xs)) →
  ∀ (f : nat) (T : string),
    (String.length (render (S d) x +:+ arrayMore d xs +:+ newline d +:+ "]") < f)%nat →
    elements f (newline (S d) +:+ render (S d) x +:+ arrayMore d xs
                +:+ newline d +:+ "]" +:+ T)
    = Some (x :: xs, T).
Proof.
  induction 1 as [|y xs Hy Hxs IH]; intros x Hx (Hwx & Hwxs) f T Hf.
  - rewrite !append_length in Hf.
    destruct f as [|f]; [lia|]. cbn [elements].
    rewrite (value_skip f _ _ (skipSpace_newline _ _)).
    rewrite Hx; [|done|apply delimited_arrayMore|lia].
    change (arrayMore d []) with "". rewrite append_nil_l, skipSpace_newline.
    reflexivity.
  - rewrite !append_length in Hf.
    destruct f as [|f]; [lia|]. cbn [elements].
    rewrite (value_skip f _ _ (skipSpace_newline _ _)).
    rewrite Hx; [|done|apply delimited_arrayMore|lia].
    rewrite arrayMore_cons, !append_assoc.
    change (skipSpace ("," +:+ ?X)) with (String "," X). cbv iota.
    rewrite (IH y Hy Hwxs); [done|].
    rewrite arrayMore_cons, !append_length in Hf. rewrite !append_length.
    simpl String.length in *. lia.
Qed.

Lemma value_render (v : json) : renders v.
Proof.
  induction v as [|b|lit|s|l IH|l IH] using json_induction; intros Hwf d T fuel HT Hfuel.
  - destruct fuel; [simpl in Hfuel; lia|reflexivity].
  - destruct fuel; [destruct b; simpl in Hfuel; lia|]. by destruct b.
  - destruct Hwf as [z ->]. cbn [render] in *.
    destruct fuel; [|by apply value_number].
    destruct (FormatInt_shape z) as (neg & c & r & Hs & _). rewrite Hs in Hfuel.
    destruct neg; simpl in Hfuel; lia.
  - cbn [render wellFormed] in *.
    destruct fuel; [pose proof (appendString_length s); lia|]. by apply value_string.
  - destruct l as [|x xs].
    { destruct fuel; [simpl in Hfuel; lia|reflexivity]. }
    rewrite render_array in *. apply Forall_cons in IH as [Hx Hxs].
    destruct fuel as [|f]; [rewrite append_length in Hfuel; simpl in Hfuel; lia|].
    rewrite !append_assoc. rewrite append_cons, append_nil_l.
    change (value (S f) (String "[" ?r)) with
      (match skipSpace r with
       | String "]" r' => Some (JArray [], r')
       | _ => match elements f r with
              | Some (vs, r') => Some (JArray vs, r')
              | None => None
              end
       end).
    rewrite skipSpace_newline, skipSpace_render by apply Hwf.
    destruct (render_head (S d) x (proj1 Hwf)) as (c & r & Hr & Hc). rewrite Hr at 1.
    rewrite append_cons, headByte_not_close by done.
    rewrite (elements_render d xs Hxs x Hx Hwf); [done|].
    rewrite !append_length in *. simpl String.length in *. lia.
  - destruct l as [|[k x] xs].
    { destruct fuel; [simpl in Hfuel; lia|reflexivity]. }
    rewrite render_object in *. apply Forall_cons in IH as [Hx Hxs].
    destruct fuel as [|f]; [rewrite append_length in Hfuel; simpl in Hfuel; lia|].
    rewrite !append_assoc. rewrite append_cons, append_nil_l.
    change (value (S f) (String "{" ?r)) with
      (match skipSpace r with
       | String "}" r' => Some (JObject [], r')
       | _ => match members f r with
              | Some (ms, r') => Some (JObject ms, r')
              | None => None
              end
       end).
    rewrite skipSpace_newline.
    assert (Hq : ∀ X, skipSpace (appendString k +:+ X) = String dquote
                   (appendStringFuel (String.length k) k +:+ String dquote "" +:+ X)).
    { intros X. unfold appendString. by rewrite append_cons, append_assoc. }
    rewrite Hq. change dquote with "034"%char at 1. cbv iota.
    rewrite (members_render d xs Hxs k x Hx Hwf); [done|].
    rewrite !append_length in *. simpl String.length in *. lia.
Qed.

(** the text of a well-formed tree is a JSON text of that tree *)
Lemma parse_render (v : json) : wellFormed v → parse (render 0 v) = Some v.
Proof.
  intros Hwf. unfold parse.
  rewrite <- (append_nil_r (render 0 v)) at 2.
  rewrite value_render; [reflexivity|done|done|lia].
Qed.

End JsonFacts.

(** ** The configuration is decoded from its own encoding *)

Lemma decodeServerConfig_marshal (sc : Part001.ServerConfig) :
  minInt64 ≤ Part001.RateLimitDuration sc ≤ maxInt64 →
  Part001.decodeServerConfig (Part001.marshalServerConfig sc) Part001.zeroServerConfig
  = (sc, None).
Proof.
  intros Hd. destruct sc as [a r e d]. cbn [Part001.RateLimitDuration] in Hd.
  cbv -[ParseInt FormatInt].
  rewrite ParseInt_FormatInt by done. reflexivity.
Qed.

Lemma decodeMap_entries (l : list (string * Part001.ServerConfig))
    (acc : gmap string Part001.ServerConfig) :
  Forall (λ kv, minInt64 ≤ Part001.RateLimitDuration kv.2 ≤ maxInt64) l →
  fold_left (λ (acc : gmap string Part001.ServerConfig * option string)
               (kv : string * Json.json),
               let '(x, e) := Part001.decodeServerConfig kv.2 Part001.zeroServerConfig in
               (<[kv.1 := x]> acc.1, Json.firstError acc.2 e))
            (map (λ kv : string * Part001.ServerConfig,
                    (kv.1, Part001.marshalServerConfig kv.2)) l)
            (acc, None)
  = (fold_left (λ a (kv : string * Part001.ServerConfig), <[kv.1 := kv.2]> a) l acc, None).
Proof.
  intros Hl. revert acc. induction Hl as [|[k sc] l Hsc _ IH]; intros acc; [reflexivity|].
  cbn [map fold_left fst snd]. rewrite decodeServerConfig_marshal by done.
  cbn [Json.firstError]. apply IH.
Qed.

Lemma fold_left_insert {V} (l : list (string * V)) :
  NoDup (l.*1) →
  fold_left (λ (a : gmap string V) (kv : string * V), <[kv.1 := kv.2]> a) l ∅
  = list_to_map l.
Proof.
  induction l as [|[k v] l IH] using rev_ind; intros Hnd; [reflexivity|].
  rewrite fmap_app in Hnd. apply NoDup_app in Hnd as (Hl & Hk & _).
  rewrite fold_left_app. cbn [fold_left fst snd]. rewrite IH by done.
  rewrite list_to_map_snoc; [done|].
  intros Hin. apply (Hk k Hin). cbn. left.
Qed.

Lemma sortedEntries_to_map {V} (m : gmap string V) :
  fold_left (λ (a : gmap string V) (kv : string * V), <[kv.1 := kv.2]> a)
            (Json.sortedEntries m) ∅ = m.
Proof.
  assert (Hperm : Json.sortedEntries m ≡ₚ map_to_list m)
    by apply merge_sort_Permutation.
  rewrite fold_left_insert.
  - rewrite <- (list_to_map_to_list m) at 2.
    apply list_to_map_proper; [|done].
    rewrite Hperm. apply NoDup_fst_map_to_list.
  - rewrite Hperm. apply NoDup_fst_map_to_list.
Qed.

Lemma decodeConfig_marshal (c : Part001.Config) :
  validConfig c →
  Part001.decodeConfig (Part001.marshalConfig c) Part001.zeroConfig = (c, None).
Proof.
  intros Hc. destruct c as [[m|]]; [|reflexivity].
  specialize (Hc m eq_refl).
  unfold Part001.decodeConfig, Part001.marshalConfig, Json.decodeStruct.
  cbn [fold_left fst snd Part001.Servers].
  change (Json.findField _ "servers") with
    (Some (λ (v : Json.json) (c : Part001.Config),
             let '(m, e) := Json.decodeMap Part001.zeroServerConfig
                              Part001.decodeServerConfig v (Part001.Servers c) in
             (Part001.mkConfig m, e))).
  cbv beta iota. cbn [Json.decodeMap Part001.Servers Part001.zeroConfig from_option].
  rewrite decodeMap_entries.
  - by rewrite sortedEntries_to_map.
  - apply Forall_forall. intros [k sc] Hin.
    unfold Json.sortedEntries in Hin. rewrite merge_sort_Permutation in Hin.
    apply elem_of_map_to_list in Hin. apply (Hc k sc Hin).
Qed.

Lemma wellFormed_object (l : list (string * Json.json)) :
  Forall (λ kv, utf8.ValidString kv.1 = true ∧ wellFormed kv.2) l →
  wellFormed (Json.JObject l).
Proof.
  induction 1 as [|[k v] l [Hk Hv] _ IH]; [exact I|].
  cbn [fst snd] in Hk, Hv. cbn [wellFormed] in IH |- *. auto.
Qed.

Lemma wellFormed_marshalServerConfig (sc : Part001.ServerConfig) :
  validServerConfig sc → wellFormed (Part001.marshalServerConfig sc).
Proof.
  intros (Ha & Hr & _). unfold Part001.marshalServerConfig.
  apply wellFormed_object.
  repeat (constructor; [split; [vm_compute; reflexivity|cbn [snd wellFormed]]|]);
    [exact Ha|exact Hr|exact I|by eexists|constructor].
Qed.

Lemma wellFormed_marshalConfig (c : Part001.Config) :
  validConfig c → wellFormed (Part001.marshalConfig c).
Proof.
  intros Hc. unfold Part001.marshalConfig.
  apply wellFormed_object. constructor; [|constructor].
  split; [vm_compute; reflexivity|]. cbn [snd].
  destruct c as [[m|]]; cbn [Part001.Servers]; [|exact I].
  specialize (Hc m eq_refl).
  apply wellFormed_object, Forall_fmap, Forall_forall. intros [k sc] Hin.
  unfold Json.sortedEntries in Hin. rewrite merge_sort_Permutation in Hin.
  apply elem_of_map_to_list in Hin. destruct (Hc k sc Hin) as [Hk Hsc].
  split; [done|]. by apply wellFormed_marshalServerConfig.
Qed.

(** what [json.Unmarshal] makes of the text of [json.MarshalIndent] *)
Lemma Unmarshal_MarshalIndent (c : Part001.Config) :
  validConfig c →
  Json.Unmarshal Part001.decodeConfig (Part001.MarshalIndent c) Part001.zeroConfig
  = (c, None).
Proof.
  intros Hc. unfold Json.Unmarshal, Part001.MarshalIndent.
  rewrite JsonFacts.parse_render by by apply wellFormed_marshalConfig.
  by apply decodeConfig_marshal.
Qed.




(** *** What [loadConfig] returns *)


Lemma Part001_loadConfig_outcome (st : State Part001.Config) :
  (Part001.loadConfig st).2
  = Return match disk st !! Part001.configPath with
           | None => None
           | Some (Unreadable e) => Some e
           | Some (Readable data) =>
               (Json.Unmarshal Part001.decodeConfig data (config st)).2
           end.
Proof.
  unfold Part001.loadConfig. unfold_M.
  destruct (disk st !! Part001.configPath) as [[data|e]|]; unfold_M; [|done..].
  by destruct (Json.Unmarshal Part001.decodeConfig data (config st)).
Qed.





(** * Further properties of the handlers *)

(** membership in a trace: by cases on the calls, by position, and refuted
    by the first byte of a line *)
Ltac in_trace H :=
  repeat (apply elem_of_cons in H as [->|H]; [try done|]);
  try (by apply elem_of_nil in H).

Ltac in_list :=
  solve [repeat constructor].

Ltac not_logged H :=
  repeat (apply elem_of_cons in H as [H|H];
          [try discriminate H; injection H as H; rewrite ?append_cons in H; discriminate H|]);
  by apply elem_of_nil in H.

(** ** [strings.Split] on one byte *)

Lemma Split_length (s : string) (sep : ascii) :
  length (Strings.Split s sep) = S (countByte sep s).
Proof.
  induction s as [|c s IH]; [done|]. cbn [Strings.Split countByte].
  destruct (Ascii.eqb c sep); cbn [length]; [by rewrite IH|].
  destruct (Strings.Split s sep) as [|p l]; [done|]. exact IH.
Qed.

Lemma Split_no_sep (s : string) (sep : ascii) :
  countByte sep s = 0%nat → Strings.Split s sep = [s].
Proof.
  intros H. pose proof (Split_length s sep) as Hl. rewrite H in Hl.
  destruct (Strings.Split s sep) as [|x [|? ?]] eqn:Hs; try done.
  by apply Split_singleton in Hs as ->.
Qed.

Lemma Split_pair (s a b : string) (sep : ascii) :
  Strings.Split s sep = [a; b] ↔
  s = a +:+ String sep b ∧ countByte sep a = 0%nat ∧ countByte sep b = 0%nat.
Proof.
  split.
  - revert a. induction s as [|c s IH]; intros a; [done|]. cbn [Strings.Split].
    destruct (Ascii.eqb c sep) eqn:Hc.
    + apply Ascii.eqb_eq in Hc as ->. intros [= <- Hs].
      pose proof (Split_length s sep) as Hl. rewrite Hs in Hl.
      apply Split_singleton in Hs as ->. cbn in Hl. split; [done|]. split; [done|lia].
    + destruct (Strings.Split s sep) as [|p l] eqn:Hs; [done|].
      intros [= <- ->]. destruct (IH p eq_refl) as (-> & Hp & Hb).
      split; [by rewrite append_cons|]. split; [|done]. cbn [countByte]. by rewrite Hc.
  - intros (-> & Ha & Hb). induction a as [|c a IH].
    + rewrite append_nil_l. cbn [Strings.Split]. rewrite Ascii.eqb_refl.
      by rewrite Split_no_sep.
    + cbn [countByte] in Ha. destruct (Ascii.eqb c sep) eqn:Hc; [done|].
      rewrite append_cons. cbn [Strings.Split]. rewrite Hc. by rewrite IH.
Qed.

(** ** What a click can do *)

Lemma Part001_button_effects (s : Session) (i : InteractionCreate)
    (st : State Part001.Config) (e : effect) :
  e ∈ effectsOf (Part001.handleButton s i) st →
  match e with
  | GuildMemberDelete g u => g = i_GuildID i ∧ i_CustomID i = "deny_" +:+ u
  | GuildMemberRoleRemove g u r =>
      g = i_GuildID i ∧ i_CustomID i = "approve_" +:+ u ∧ r ≠ ""
      ∧ ∃ sc, Part001.serverOf (config st) g = Some sc ∧ Part001.UnverifiedRoleID sc = r
  | GuildMemberRoleAdd _ _ _ | ChannelMessageSendComplex _ _ _ | MkdirAll _ | WriteFile _ _ =>
      False
  | _ => True
  end.
Proof.
  unfold effectsOf, Part001.handleButton. unfold_M.
  destruct (InteractionRespond_res s _) as [[]|err];
    [|normalize_trace; intros H; in_trace H].
  destruct (i_Type i); try solve [normalize_trace; intros H; in_trace H].
  destruct (Strings.Split (i_CustomID i) "_") as [|action [|userID [|? ?]]] eqn:Hsplit;
    try solve [normalize_trace; intros H; in_trace H].
  apply Split_pair in Hsplit as (Hid & _ & _).
  destruct (String.eqb action "approve") eqn:Ha;
    [apply String.eqb_eq in Ha as ->
    |destruct (String.eqb action "deny") eqn:Hd; [apply String.eqb_eq in Hd as ->|]].
  - destruct (UserChannelCreate_res s userID) as [ch|err];
      [|normalize_trace; intros H; in_trace H].
    destruct (ChannelMessageSend_res s ch _) as [[]|err];
      cbn [fst snd config rateLimitMap disk trace]; rewrite Part001_index2.
    all: destruct (Part001.serverOf (config st) (i_GuildID i)) as [sc|] eqn:Hsc;
      cbn [andb]; [destruct (String.eqb (Part001.UnverifiedRoleID sc) "") eqn:Hr|];
      cbn [negb]; split_cases; normalize_trace; intros H; in_trace H.
    all: split; [done|]; split; [done|]; split; [|by exists sc].
    all: intros Hz; rewrite Hz in Hr; discriminate Hr.
  - split_cases; normalize_trace; intros H; in_trace H.
  - normalize_trace; intros H; in_trace H.
Qed.

Lemma Part000_button_effects (s : Session) (i : InteractionCreate)
    (st : State Part000.Config) (e : effect) :
  e ∈ effectsOf (Part000.handleButton s i) st →
  match e with
  | GuildMemberDelete g u => g = i_GuildID i ∧ i_CustomID i = "deny_" +:+ u
  | GuildMemberRoleRemove g u r =>
      g = i_GuildID i ∧ i_CustomID i = "approve_" +:+ u ∧ r ≠ ""
      ∧ ∃ sc, Part000.serverOf (config st) g = Some sc ∧ Part000.UnverifiedRoleID sc = r
  | GuildMemberRoleAdd _ _ _ | ChannelMessageSendComplex _ _ _ | MkdirAll _ | WriteFile _ _ =>
      False
  | _ => True
  end.
Proof.
  unfold effectsOf, Part000.handleButton. unfold_M.
  destruct (InteractionRespond_res s _) as [[]|err];
    [|normalize_trace; intros H; in_trace H].
  destruct (i_Type i); try solve [normalize_trace; intros H; in_trace H].
  destruct (Strings.Split (i_CustomID i) "_") as [|action [|userID [|? ?]]] eqn:Hsplit;
    try solve [normalize_trace; intros H; in_trace H].
  apply Split_pair in Hsplit as (Hid & _ & _).
  destruct (String.eqb action "approve") eqn:Ha;
    [apply String.eqb_eq in Ha as ->
    |destruct (String.eqb action "deny") eqn:Hd; [apply String.eqb_eq in Hd as ->|]].
  - cbn [fst snd config rateLimitMap disk trace]. rewrite Part000_index2.
    destruct (Part000.serverOf (config st) (i_GuildID i)) as [sc|] eqn:Hsc;
      cbn [andb]; [destruct (String.eqb (Part000.UnverifiedRoleID sc) "") eqn:Hr|];
      cbn [negb]; split_cases; normalize_trace; intros H; in_trace H.
    all: split; [done|]; split; [done|]; split; [|by exists sc].
    all: intros Hz; rewrite Hz in Hr; discriminate Hr.
  - split_cases; normalize_trace; intros H; in_trace H.
  - normalize_trace; intros H; in_trace H.
Qed.

Lemma Part001_button_store (s : Session) (i : InteractionCreate) (st : State Part001.Config) :
  sameStore st (run (Part001.handleButton s i) st).
Proof.
  unfold sameStore, Part001.handleButton. unfold_M.
  destruct (InteractionRespond_res s _) as [[]|err]; [|done].
  destruct (i_Type i); try done.
  destruct (Strings.Split (i_CustomID i) "_") as [|action [|userID [|? ?]]]; try done.
  destruct (String.eqb action "approve"); [|destruct (String.eqb action "deny")].
  - destruct (UserChannelCreate_res s userID) as [ch|err]; [|done].
    destruct (ChannelMessageSend_res s ch _) as [[]|err];
      cbn [fst snd config rateLimitMap disk trace];
      destruct (index2 _ _ _) as [sc []]; cbn [andb];
      try destruct (negb _); split_cases; done.
  - split_cases; done.
  - done.
Qed.

Lemma Part000_button_store (s : Session) (i : InteractionCreate) (st : State Part000.Config) :
  sameStore st (run (Part000.handleButton s i) st).
Proof.
  unfold sameStore, Part000.handleButton. unfold_M.
  destruct (InteractionRespond_res s _) as [[]|err]; [|done].
  destruct (i_Type i); try done.
  destruct (Strings.Split (i_CustomID i) "_") as [|action [|userID [|? ?]]]; try done.
  destruct (String.eqb action "approve"); [|destruct (String.eqb action "deny")].
  - destruct (index2 _ _ _) as [sc []]; cbn [andb];
      try destruct (negb _); split_cases; done.
  - split_cases; done.
  - done.
Qed.

(** X1: in both revisions with buttons, a click removes a member only when
    its identifier is [deny_] followed by the id of that member, and removes a
    role only when its identifier is [approve_] followed by the id of the
    member and the role is the non-empty unverified role of the guild of the
    click; both in the guild of the click.  A click never adds a role, posts
    no request, writes no file, and leaves the configuration, the rate-limit
    map and the files as they are. *)
Theorem click_acts_as_labelled (s : Session) (i : InteractionCreate) :
  (∀ (st : State Part001.Config),
     sameStore st (run (Part001.handleButton s i) st)
     ∧ ∀ e, e ∈ effectsOf (Part001.handleButton s i) st →
       match e with
       | GuildMemberDelete g u => g = i_GuildID i ∧ i_CustomID i = "deny_" +:+ u
       | GuildMemberRoleRemove g u r =>
           g = i_GuildID i ∧ i_CustomID i = "approve_" +:+ u ∧ r ≠ ""
           ∧ ∃ sc, Part001.serverOf (config st) g = Some sc
                   ∧ Part001.UnverifiedRoleID sc = r
       | GuildMemberRoleAdd _ _ _ | ChannelMessageSendComplex _ _ _
       | MkdirAll _ | WriteFile _ _ => False
       | _ => True
       end)
  ∧ (∀ (st : State Part000.Config),
       sameStore st (run (Part000.handleButton s i) st)
       ∧ ∀ e, e ∈ effectsOf (Part000.handleButton s i) st →
         match e with
         | GuildMemberDelete g u => g = i_GuildID i ∧ i_CustomID i = "deny_" +:+ u
         | GuildMemberRoleRemove g u r =>
             g = i_GuildID i ∧ i_CustomID i = "approve_" +:+ u ∧ r ≠ ""
             ∧ ∃ sc, Part000.serverOf (config st) g = Some sc
                     ∧ Part000.UnverifiedRoleID sc = r
         | GuildMemberRoleAdd _ _ _ | ChannelMessageSendComplex _ _ _
         | MkdirAll _ | WriteFile _ _ => False
         | _ => True
         end).
Proof.
  split; intros st; split.
  - apply Part001_button_store.
  - intros e. apply Part001_button_effects.
  - apply Part000_button_store.
  - intros e. apply Part000_button_effects.
Qed.

(** X2: an approval.  In the current revision the member is told first: when
    the direct-message channel cannot be created the handler stops, no role
    is removed and neither the audit message nor the acknowledgement is
    edited; when it can, the message is sent, the unverified role of the guild
    (when one is configured) is removed, and the audit message is edited to
    the approval line, whatever the platform answers to the message and to
    the removal.  In the revision before, nothing is sent to the member and
    the audit message is always edited. *)
Theorem approval_outcome (s : Session) (i : InteractionCreate) (userID : string) :
  i_Type i = InteractionMessageComponent →
  InteractionRespond_res s (DeferredChannelMessageWithSource true) = Ok tt →
  i_CustomID i = "approve_" +:+ userID →
  countByte "_" userID = 0%nat →
  let edit :=
    ChannelMessageEditComplex (i_ChannelID i) (i_MessageID i) (approvedContent userID) [] in
  (∀ st : State Part001.Config,
     let new := effectsOf (Part001.handleButton s i) st in
     match UserChannelCreate_res s userID with
     | Err _ => existsb isMutation new = false ∧ existsb isResponseEdit new = false
     | Ok ch =>
         ChannelMessageSend ch approvalMessage ∈ new
         ∧ edit ∈ new
         ∧ ∀ sc, Part001.serverOf (config st) (i_GuildID i) = Some sc →
                 Part001.UnverifiedRoleID sc ≠ "" →
                 GuildMemberRoleRemove (i_GuildID i) userID (Part001.UnverifiedRoleID sc) ∈ new
     end)
  ∧ (∀ st : State Part000.Config,
       let new := effectsOf (Part000.handleButton s i) st in
       existsb isPost new = false
       ∧ edit ∈ new
       ∧ ∀ sc, Part000.serverOf (config st) (i_GuildID i) = Some sc →
               Part000.UnverifiedRoleID sc ≠ "" →
               GuildMemberRoleRemove (i_GuildID i) userID (Part000.UnverifiedRoleID sc) ∈ new).
Proof.
  intros Hty Hack Hid Hu. cbn zeta.
  assert (Hsplit : Strings.Split (i_CustomID i) "_" = ["approve"; userID]).
  { apply Split_pair. by rewrite Hid. }
  split; intros st.
  - unfold effectsOf, Part001.handleButton. rewrite Hty, Hack, Hsplit. unfold_M.
    cbn [String.eqb Ascii.eqb Bool.eqb].
    destruct (UserChannelCreate_res s userID) as [ch|err]; [|by normalize_trace].
    destruct (ChannelMessageSend_res s ch _) as [[]|err];
      cbn [fst snd config rateLimitMap disk trace]; rewrite Part001_index2.
    all: destruct (Part001.serverOf (config st) (i_GuildID i)) as [sc|] eqn:Hsc;
      cbn [andb]; [destruct (String.eqb (Part001.UnverifiedRoleID sc) "") eqn:Hr|];
      cbn [negb]; split_cases; normalize_trace.
    all: split; [unfold approvalMessage; in_list|].
    all: split; [unfold approvedContent; in_list|].
    all: intros sc' [= <-] Hne; try in_list.
    all: try (apply String.eqb_eq in Hr; done).
  - unfold effectsOf, Part000.handleButton. rewrite Hty, Hack, Hsplit. unfold_M.
    cbn [String.eqb Ascii.eqb Bool.eqb fst snd config rateLimitMap disk trace].
    rewrite Part000_index2.
    destruct (Part000.serverOf (config st) (i_GuildID i)) as [sc|] eqn:Hsc;
      cbn [andb]; [destruct (String.eqb (Part000.UnverifiedRoleID sc) "") eqn:Hr|];
      cbn [negb]; split_cases; normalize_trace.
    all: split; [done|].
    all: split; [unfold approvedContent; in_list|].
    all: intros sc' [= <-] Hne; try in_list.
    all: try (apply String.eqb_eq in Hr; done).
Qed.

(** X3: a denial.  For the deny button of a request (the id of the requester
    has no underscore), in both revisions: when the direct-message channel
    cannot be created the handler stops and nothing is removed or edited; when
    it can, the member is told first and removed from the guild of the click
    afterwards, whatever the platform answers to the message. *)
Theorem denial_tells_before_removing (s : Session) (i : InteractionCreate) (userID : string) :
  i_Type i = InteractionMessageComponent →
  InteractionRespond_res s (DeferredChannelMessageWithSource true) = Ok tt →
  i_CustomID i = CustomID (denyButton userID) →
  countByte "_" userID = 0%nat →
  (∀ st : State Part001.Config,
     let new := effectsOf (Part001.handleButton s i) st in
     match UserChannelCreate_res s userID with
     | Err _ => existsb isMutation new = false ∧ existsb isResponseEdit new = false
     | Ok ch =>
         ∃ before between after,
           new = before ++ ChannelMessageSend ch denialMessage
                 :: between ++ GuildMemberDelete (i_GuildID i) userID :: after
     end)
  ∧ (∀ st : State Part000.Config,
       let new := effectsOf (Part000.handleButton s i) st in
       match UserChannelCreate_res s userID with
       | Err _ => existsb isMutation new = false ∧ existsb isResponseEdit new = false
       | Ok ch =>
           ∃ before between after,
             new = before ++ ChannelMessageSend ch denialMessage
                   :: between ++ GuildMemberDelete (i_GuildID i) userID :: after
       end).
Proof.
  intros Hty Hack Hid Hu. cbn zeta.
  assert (Hsplit : Strings.Split (i_CustomID i) "_" = ["deny"; userID]).
  { apply Split_pair. by rewrite Hid. }
  split; intros st.
  - unfold effectsOf, Part001.handleButton. rewrite Hty, Hack, Hsplit. unfold_M.
    cbn [String.eqb Ascii.eqb Bool.eqb].
    destruct (UserChannelCreate_res s userID) as [ch|err]; [|by normalize_trace].
    destruct (ChannelMessageSend_res s ch _) as [[]|err];
      split_cases; normalize_trace.
    all: exists [InteractionRespond (DeferredChannelMessageWithSource true);
                 Log ("Received button interaction: " +:+ i_CustomID i);
                 Log ("Processing " +:+ "deny" +:+ " action for user " +:+ userID);
                 UserChannelCreate userID].
    all: first [by exists []; eexists | by eexists [_]; eexists].
  - unfold effectsOf, Part000.handleButton. rewrite Hty, Hack, Hsplit. unfold_M.
    cbn [String.eqb Ascii.eqb Bool.eqb].
    destruct (UserChannelCreate_res s userID) as [ch|err]; [|by normalize_trace].
    destruct (ChannelMessageSend_res s ch _) as [[]|err];
      split_cases; normalize_trace.
    all: exists [InteractionRespond (DeferredChannelMessageWithSource true);
                 Log ("Received button interaction: " +:+ i_CustomID i);
                 Log ("Processing " +:+ "deny" +:+ " action for user " +:+ userID);
                 UserChannelCreate userID].
    all: first [by exists []; eexists | by eexists [_]; eexists].
Qed.

Lemma Part001_format_check (s : Session) (i : InteractionCreate) (st : State Part001.Config) :
  i_Type i = InteractionMessageComponent →
  InteractionRespond_res s (DeferredChannelMessageWithSource true) = Ok tt →
  Log ("Invalid button customID format: " +:+ i_CustomID i)
    ∈ effectsOf (Part001.handleButton s i) st
  ↔ countByte "_" (i_CustomID i) ≠ 1%nat.
Proof.
  intros Hty Hack. pose proof (Split_length (i_CustomID i) "_") as Hlen.
  unfold effectsOf, Part001.handleButton. rewrite Hty, Hack. unfold_M.
  destruct (Strings.Split (i_CustomID i) "_") as [|action [|userID [|? ?]]];
    cbn [length] in Hlen.
  1,2,4: split; [lia|intros _; normalize_trace; in_list].
  split; [|lia]. intros H. exfalso. revert H.
  destruct (String.eqb action "approve"); [|destruct (String.eqb action "deny")].
  - destruct (UserChannelCreate_res s userID) as [ch|err];
      [|normalize_trace; intros H; not_logged H].
    destruct (ChannelMessageSend_res s ch _) as [[]|err];
      cbn [fst snd config rateLimitMap disk trace];
      destruct (index2 _ _ _) as [sc []]; cbn [andb];
      try destruct (negb _); split_cases; normalize_trace; intros H; not_logged H.
  - split_cases; normalize_trace; intros H; not_logged H.
  - normalize_trace; intros H; not_logged H.
Qed.

Lemma Part000_format_check (s : Session) (i : InteractionCreate) (st : State Part000.Config) :
  i_Type i = InteractionMessageComponent →
  InteractionRespond_res s (DeferredChannelMessageWithSource true) = Ok tt →
  Log ("Invalid button customID format: " +:+ i_CustomID i)
    ∈ effectsOf (Part000.handleButton s i) st
  ↔ countByte "_" (i_CustomID i) ≠ 1%nat.
Proof.
  intros Hty Hack. pose proof (Split_length (i_CustomID i) "_") as Hlen.
  unfold effectsOf, Part000.handleButton. rewrite Hty, Hack. unfold_M.
  destruct (Strings.Split (i_CustomID i) "_") as [|action [|userID [|? ?]]];
    cbn [length] in Hlen.
  1,2,4: split; [lia|intros _; normalize_trace; in_list].
  split; [|lia]. intros H. exfalso. revert H.
  destruct (String.eqb action "approve"); [|destruct (String.eqb action "deny")].
  - cbn [fst snd config rateLimitMap disk trace];
      destruct (index2 _ _ _) as [sc []]; cbn [andb];
      try destruct (negb _); split_cases; normalize_trace; intros H; not_logged H.
  - split_cases; normalize_trace; intros H; not_logged H.
  - normalize_trace; intros H; not_logged H.
Qed.

(** X4: in both revisions with buttons, an acknowledged click is turned away
    for the format of its identifier exactly when the identifier does not
    hold one underscore, no more and no less. *)
Theorem identifier_needs_one_underscore (s : Session) (i : InteractionCreate) :
  i_Type i = InteractionMessageComponent →
  InteractionRespond_res s (DeferredChannelMessageWithSource true) = Ok tt →
  (∀ st : State Part001.Config,
     Log ("Invalid button customID format: " +:+ i_CustomID i)
       ∈ effectsOf (Part001.handleButton s i) st
     ↔ countByte "_" (i_CustomID i) ≠ 1%nat)
  ∧ (∀ st : State Part000.Config,
       Log ("Invalid button customID format: " +:+ i_CustomID i)
         ∈ effectsOf (Part000.handleButton s i) st
       ↔ countByte "_" (i_CustomID i) ≠ 1%nat).
Proof.
  intros Hty Hack. split; intros st.
  - by apply Part001_format_check.
  - by apply Part000_format_check.
Qed.

Lemma approval_outcome_witness :
  GuildMemberRoleRemove "g1" "42" "unverified"
    ∈ effectsOf (Part001.handleButton exampleSession (buttonClick "approve_42")) configuredState
  ∧ ChannelMessageEditComplex "audit" "msg-1" (approvedContent "42") []
    ∈ effectsOf (Part000.handleButton exampleSession (buttonClick "approve_42"))
        configuredState000.
Proof.
  pose proof (approval_outcome exampleSession (buttonClick "approve_42") "42"
                eq_refl eq_refl eq_refl eq_refl) as [H1 H0].
  split.
  - destruct (H1 configuredState) as (_ & _ & H).
    apply (H (Part001.mkServerConfig "audit" "unverified" true (5 * time.Minute)));
      [reflexivity|discriminate].
  - apply (H0 configuredState000).
Defined.

Lemma denial_tells_before_removing_witness :
  ∃ before between after,
    effectsOf (Part001.handleButton exampleSession (buttonClick "deny_42")) configuredState
    = before ++ ChannelMessageSend "dm-42" denialMessage
      :: between ++ GuildMemberDelete "g1" "42" :: after.
Proof.
  pose proof (denial_tells_before_removing exampleSession (buttonClick "deny_42") "42"
                eq_refl eq_refl eq_refl eq_refl) as [H1 _].
  exact (H1 configuredState).
Defined.

Lemma identifier_needs_one_underscore_witness :
  Log "Invalid button customID format: approve_4_2"
    ∈ effectsOf (Part001.handleButton exampleSession (buttonClick "approve_4_2"))
        configuredState
  ∧ Log "Invalid button customID format: deny42"
    ∈ effectsOf (Part000.handleButton exampleSession (buttonClick "deny42"))
        configuredState000.
Proof.
  split.
  - apply (proj1 (identifier_needs_one_underscore exampleSession (buttonClick "approve_4_2")
                    eq_refl eq_refl) configuredState).
    discriminate.
  - apply (proj2 (identifier_needs_one_underscore exampleSession (buttonClick "deny42")
                    eq_refl eq_refl) configuredState000).
    discriminate.
Defined.

(** ** A new member *)

Lemma Part001_guildMemberAdd_effects (s : Session) (m : GuildMemberAdd)
    (st : State Part001.Config) (e : effect) :
  e ∈ effectsOf (Part001.guildMemberAdd s m) st →
  match e with
  | GuildMemberRoleAdd g u r =>
      g = gma_GuildID m ∧ u = ID (gma_User m) ∧ r ≠ ""
      ∧ ∃ sc, Part001.serverOf (config st) g = Some sc ∧ Part001.UnverifiedRoleID sc = r
  | UserChannelCreate u =>
      u = ID (gma_User m) ∧ is_Some (Part001.serverOf (config st) (gma_GuildID m))
  | ChannelMessageSend ch content =>
      UserChannelCreate_res s (ID (gma_User m)) = Ok ch ∧ content = welcomeMessage
  | Log _ | Print _ => True
  | _ => False
  end.
Proof.
  unfold effectsOf, Part001.guildMemberAdd. unfold_M. rewrite Part001_index2.
  destruct (Part001.serverOf (config st) (gma_GuildID m)) as [sc|] eqn:Hsc; cbn [negb];
    [|normalize_trace; intros H; in_trace H].
  destruct (String.eqb (Part001.UnverifiedRoleID sc) "") eqn:Hr; cbn [negb];
    split_cases; normalize_trace; intros H; in_trace H.
  all: split; [done|]; split; [done|]; split; [|by exists sc].
  all: intros Hz; rewrite Hz in Hr; discriminate Hr.
Qed.

Lemma Part000_guildMemberAdd_effects (s : Session) (m : GuildMemberAdd)
    (st : State Part000.Config) (e : effect) :
  e ∈ effectsOf (Part000.guildMemberAdd s m) st →
  match e with
  | GuildMemberRoleAdd g u r =>
      g = gma_GuildID m ∧ u = ID (gma_User m) ∧ r ≠ ""
      ∧ ∃ sc, Part000.serverOf (config st) g = Some sc ∧ Part000.UnverifiedRoleID sc = r
  | UserChannelCreate u =>
      u = ID (gma_User m) ∧ is_Some (Part000.serverOf (config st) (gma_GuildID m))
  | ChannelMessageSend ch content =>
      UserChannelCreate_res s (ID (gma_User m)) = Ok ch ∧ content = welcomeMessage000
  | Log _ | Print _ => True
  | _ => False
  end.
Proof.
  unfold effectsOf, Part000.guildMemberAdd. unfold_M. rewrite Part000_index2.
  destruct (Part000.serverOf (config st) (gma_GuildID m)) as [sc|] eqn:Hsc; cbn [negb];
    [|normalize_trace; intros H; in_trace H].
  destruct (String.eqb (Part000.UnverifiedRoleID sc) "") eqn:Hr; cbn [negb];
    split_cases; normalize_trace; intros H; in_trace H.
  all: split; [done|]; split; [done|]; split; [|by exists sc].
  all: intros Hz; rewrite Hz in Hr; discriminate Hr.
Qed.

(** X5: what the arrival of a member can cause, in the three revisions
    ([main.go] has the handler of the revision before the current one).  A
    role is added only to the member who joined, in the guild joined, and it
    is the non-empty unverified role of that guild; a direct-message channel
    is created only for that member and only when the guild has an entry; the
    only message sent is the welcome, to that channel.  Nothing is removed,
    edited or written, and the configuration, the rate-limit map and the
    files stay as they are. *)
Theorem arrival_calls (s : Session) (m : GuildMemberAdd) :
  (∀ st : State Part001.Config,
     sameStore st (run (Part001.guildMemberAdd s m) st)
     ∧ ∀ e, e ∈ effectsOf (Part001.guildMemberAdd s m) st →
       match e with
       | GuildMemberRoleAdd g u r =>
           g = gma_GuildID m ∧ u = ID (gma_User m) ∧ r ≠ ""
           ∧ ∃ sc, Part001.serverOf (config st) g = Some sc
                   ∧ Part001.UnverifiedRoleID sc = r
       | UserChannelCreate u =>
           u = ID (gma_User m) ∧ is_Some (Part001.serverOf (config st) (gma_GuildID m))
       | ChannelMessageSend ch content =>
           UserChannelCreate_res s (ID (gma_User m)) = Ok ch ∧ content = welcomeMessage
       | Log _ | Print _ => True
       | _ => False
       end)
  ∧ (∀ st : State Part000.Config,
       sameStore st (run (MainGo.guildMemberAdd s m) st)
       ∧ ∀ e, e ∈ effectsOf (MainGo.guildMemberAdd s m) st →
         match e with
         | GuildMemberRoleAdd g u r =>
             g = gma_GuildID m ∧ u = ID (gma_User m) ∧ r ≠ ""
             ∧ ∃ sc, Part000.serverOf (config st) g = Some sc
                     ∧ Part000.UnverifiedRoleID sc = r
         | UserChannelCreate u =>
             u = ID (gma_User m) ∧ is_Some (Part000.serverOf (config st) (gma_GuildID m))
         | ChannelMessageSend ch content =>
             UserChannelCreate_res s (ID (gma_User m)) = Ok ch ∧ content = welcomeMessage000
         | Log _ | Print _ => True
         | _ => False
         end).
Proof.
  split; intros st; split.
  - unfold sameStore, Part001.guildMemberAdd. unfold_M.
    destruct (index2 _ _ _) as [sc []]; cbn [negb]; [|done].
    destruct (negb _); split_cases; done.
  - intros e. apply Part001_guildMemberAdd_effects.
  - unfold sameStore, MainGo.guildMemberAdd, Part000.guildMemberAdd. unfold_M.
    destruct (index2 _ _ _) as [sc []]; cbn [negb]; [|done].
    destruct (negb _); split_cases; done.
  - intros e. apply Part000_guildMemberAdd_effects.
Qed.

(** X6: in a guild with an entry, the member who joins is welcomed whenever
    the direct-message channel can be created, and the attempt to add the
    configured role comes first; a role that cannot be added does not stop the
    welcome. *)
Theorem arrival_is_welcomed (s : Session) (m : GuildMemberAdd) (ch : string) :
  UserChannelCreate_res s (ID (gma_User m)) = Ok ch →
  (∀ (st : State Part001.Config) sc,
     Part001.serverOf (config st) (gma_GuildID m) = Some sc →
     let new := effectsOf (Part001.guildMemberAdd s m) st in
     ChannelMessageSend ch welcomeMessage ∈ new
     ∧ (Part001.UnverifiedRoleID sc ≠ "" →
        ∃ between after,
          new = GuildMemberRoleAdd (gma_GuildID m) (ID (gma_User m)) (Part001.UnverifiedRoleID sc)
                :: between ++ ChannelMessageSend ch welcomeMessage :: after))
  ∧ (∀ (st : State Part000.Config) sc,
       Part000.serverOf (config st) (gma_GuildID m) = Some sc →
       let new := effectsOf (MainGo.guildMemberAdd s m) st in
       ChannelMessageSend ch welcomeMessage000 ∈ new
       ∧ (Part000.UnverifiedRoleID sc ≠ "" →
          ∃ between after,
            new = GuildMemberRoleAdd (gma_GuildID m) (ID (gma_User m))
                    (Part000.UnverifiedRoleID sc)
                  :: between ++ ChannelMessageSend ch welcomeMessage000 :: after)).
Proof.
  intros Hch. split; intros st sc Hsc; cbn zeta.
  - unfold effectsOf, Part001.guildMemberAdd. unfold_M. rewrite Part001_index2, Hsc.
    cbn [negb]. rewrite Hch.
    destruct (String.eqb (Part001.UnverifiedRoleID sc) "") eqn:Hr; cbn [negb];
      split_cases; normalize_trace.
    all: split; [unfold welcomeMessage; in_list|intros Hne].
    all: try (apply String.eqb_eq in Hr; done).
    all: first [by exists [UserChannelCreate (ID (gma_User m))]; eexists
               |by eexists [_; UserChannelCreate (ID (gma_User m))]; eexists].
  - unfold effectsOf, MainGo.guildMemberAdd, Part000.guildMemberAdd. unfold_M.
    rewrite Part000_index2, Hsc. cbn [negb]. rewrite Hch.
    destruct (String.eqb (Part000.UnverifiedRoleID sc) "") eqn:Hr; cbn [negb];
      split_cases; normalize_trace.
    all: split; [unfold welcomeMessage000; in_list|intros Hne].
    all: try (apply String.eqb_eq in Hr; done).
    all: first [by exists [UserChannelCreate (ID (gma_User m))]; eexists
               |by eexists [_; UserChannelCreate (ID (gma_User m))]; eexists].
Qed.

Lemma arrival_is_welcomed_witness :
  effectsOf (Part001.guildMemberAdd failingRoleSession aliceJoins) configuredState
  = [GuildMemberRoleAdd "g1" "42" "unverified";
     Log "Error adding role to user 42: HTTP 403 Forbidden";
     UserChannelCreate "42";
     ChannelMessageSend "dm-42" welcomeMessage]
  ∧ ChannelMessageSend "dm-42" welcomeMessage
    ∈ effectsOf (Part001.guildMemberAdd failingRoleSession aliceJoins) configuredState.
Proof.
  split; [reflexivity|].
  apply (proj1 (arrival_is_welcomed failingRoleSession aliceJoins "dm-42" eq_refl)
           configuredState
           (Part001.mkServerConfig "audit" "unverified" true (5 * time.Minute)) eq_refl).
Defined.

(** ** Messages *)

(** X7: in the three revisions, a message of the bot itself leaves the state
    untouched, and so does a message in a channel that is not a direct-message
    channel; when the channel cannot be looked up, one line is printed and
    nothing else happens.  Only a direct message of somebody else reaches
    [processEmailVerification], and then [memberDM] does what it does. *)
Theorem only_direct_messages_are_processed (s : Session) (m : MessageCreate) :
  (ID (m_Author m) = State_User_ID s ∨ (∃ t, Channel s (m_ChannelID m) = Ok t ∧ t ≠ ChannelTypeDM) →
     (∀ now (st : State Part001.Config), run (Part001.memberDM s now m) st = st)
     ∧ (∀ now (st : State Part000.Config), run (Part000.memberDM s now m) st = st)
     ∧ (∀ st : State Part000.Config, run (MainGo.memberDM s m) st = st))
  ∧ (∀ err, ID (m_Author m) ≠ State_User_ID s → Channel s (m_ChannelID m) = Err err →
       (∀ now (st : State Part001.Config),
          sameStore st (run (Part001.memberDM s now m) st)
          ∧ effectsOf (Part001.memberDM s now m) st = [Print ("Error getting channel: " +:+ err)])
       ∧ (∀ now (st : State Part000.Config),
            sameStore st (run (Part000.memberDM s now m) st)
            ∧ effectsOf (Part000.memberDM s now m) st
              = [Print ("Error getting channel: " +:+ err)])
       ∧ (∀ st : State Part000.Config,
            sameStore st (run (MainGo.memberDM s m) st)
            ∧ effectsOf (MainGo.memberDM s m) st = [Print ("Error getting channel: " +:+ err)]))
  ∧ (ID (m_Author m) ≠ State_User_ID s → Channel s (m_ChannelID m) = Ok ChannelTypeDM →
       (∀ now (st : State Part001.Config),
          run (Part001.memberDM s now m) st = run (Part001.processEmailVerification s now m) st)
       ∧ (∀ now (st : State Part000.Config),
            run (Part000.memberDM s now m) st
            = run (Part000.processEmailVerification s now m) st)
       ∧ (∀ st : State Part000.Config,
            run (MainGo.memberDM s m) st = run (MainGo.processEmailVerification s m) st)).
Proof.
  split; [|split].
  - intros H. unfold Part001.memberDM, Part000.memberDM, MainGo.memberDM.
    destruct (String.eqb (ID (m_Author m)) (State_User_ID s)) eqn:Hown; [done|].
    destruct H as [H|(t & -> & Ht)]; [apply String.eqb_neq in Hown; done|].
    by destruct t.
  - intros err Hown Herr. apply String.eqb_neq in Hown.
    unfold sameStore, effectsOf, Part001.memberDM, Part000.memberDM, MainGo.memberDM.
    rewrite Hown, Herr. unfold_M.
    repeat split; intros; repeat split; by normalize_trace.
  - intros Hown Hdm. apply String.eqb_neq in Hown.
    unfold Part001.memberDM, Part000.memberDM, MainGo.memberDM. rewrite Hown, Hdm.
    unfold_M. repeat split; intros.
    + by destruct (Part001.processEmailVerification s now m st) as [st' []].
    + by destruct (Part000.processEmailVerification s now m st) as [st' []].
    + by destruct (MainGo.processEmailVerification s m st) as [st' []].
Qed.

Lemma only_direct_messages_are_processed_witness :
  run (Part001.memberDM guildChannelSession 1000 (guildMessage "alice@uclan.ac.uk"))
      configuredState
  = configuredState.
Proof.
  apply (proj1 (only_direct_messages_are_processed guildChannelSession
                  (guildMessage "alice@uclan.ac.uk"))).
  right. exists ChannelTypeGuildText. split; [reflexivity|discriminate].
Defined.

(** ** The record of attempts *)

Lemma rateLimitCheck_map limit now u (rl : gmap string Z) :
  (rateLimitCheck limit now u rl).2 = rl ∨ (rateLimitCheck limit now u rl).2 = <[u := now]> rl.
Proof.
  unfold rateLimitCheck. destruct (index2 _ _ _) as [l e].
  destruct (e && _); [by left|by right].
Qed.

Lemma Part001_attempts (s : Session) (now : Z) (m : MessageCreate) (st : State Part001.Config) :
  rateLimitMap (run (Part001.processEmailVerification s now m) st) = rateLimitMap st
  ∨ rateLimitMap (run (Part001.processEmailVerification s now m) st)
    = <[ID (m_Author m) := now]> (rateLimitMap st).
Proof.
  pose proof (Part001_processEmailVerification_cases s now m st) as [_ H]. cbn zeta in H.
  destruct (Part001.serverOf (config st) (m_GuildID m)) as [sc|]; [|left; apply H].
  destruct (Part001.RateLimitEnabled sc).
  - destruct (negb _); [left; apply H|]. destruct H as [-> _]. apply rateLimitCheck_map.
  - cbn [negb fst snd] in H. left. apply H.
Qed.

Lemma Part000_attempts (s : Session) (now : Z) (m : MessageCreate) (st : State Part000.Config) :
  rateLimitMap (run (Part000.processEmailVerification s now m) st) = rateLimitMap st
  ∨ rateLimitMap (run (Part000.processEmailVerification s now m) st)
    = <[ID (m_Author m) := now]> (rateLimitMap st).
Proof.
  pose proof (Part000_processEmailVerification_cases s now m st) as [_ H]. cbn zeta in H.
  destruct (negb _); [left; apply H|]. destruct H as [-> _]. apply rateLimitCheck_map.
Qed.

Lemma Part001_request_disk (s : Session) (now : Z) (m : MessageCreate)
    (st : State Part001.Config) :
  disk (run (Part001.processEmailVerification s now m) st) = disk st.
Proof.
  unfold Part001.processEmailVerification. unfold_M.
  destruct (index2 _ _ _) as [sc []]; cbn [negb]; [|done].
  destruct (Part001.RateLimitEnabled sc);
    [destruct (rateLimitCheck _ now _ _) as [[] rl']|];
    cbn [negb fst snd config rateLimitMap disk trace]; try done.
  all: destruct (negb (Regexp.MatchString emailRegex (m_Content m))); [done|].
  all: destruct (String.eqb _ ""); [done|].
  all: cbn [fst snd config rateLimitMap disk trace].
  all: by destruct (ChannelMessageSendComplex_res s _ _).
Qed.

Lemma Part000_request_disk (s : Session) (now : Z) (m : MessageCreate)
    (st : State Part000.Config) :
  disk (run (Part000.processEmailVerification s now m) st) = disk st.
Proof.
  unfold Part000.processEmailVerification. unfold_M.
  destruct (rateLimitCheck _ now _ _) as [[] rl'];
    cbn [negb fst snd config rateLimitMap disk trace]; try done.
  destruct (negb (Regexp.MatchString emailRegex (m_Content m))); [done|].
  destruct (String.eqb _ ""); [done|].
  cbn [fst snd config rateLimitMap disk trace].
  destruct (index2 _ _ _) as [sc []]; cbn [negb orb]; [|done].
  destruct (String.eqb _ ""); [done|].
  cbn [fst snd config rateLimitMap disk trace].
  by destruct (ChannelMessageSendComplex_res s _ _).
Qed.

(** X8: a verification message touches the record of its author only.  In
    the two revisions with a rate limit, the recorded time of every other user
    is the same before and after, the record of the author is left as it was
    or set to the time of the message, and no record is ever removed; the
    configuration and the files are left as they are.  The handler of
    [main.go] keeps no record at all. *)
Theorem attempts_are_recorded_per_user (s : Session) (now : time.Time) (m : MessageCreate) :
  (∀ st : State Part001.Config,
     let st' := run (Part001.processEmailVerification s now m) st in
     (∀ u, u ≠ ID (m_Author m) → rateLimitMap st' !! u = rateLimitMap st !! u)
     ∧ (rateLimitMap st' !! ID (m_Author m) = rateLimitMap st !! ID (m_Author m)
        ∨ rateLimitMap st' !! ID (m_Author m) = Some now)
     ∧ dom (rateLimitMap st) ⊆ dom (rateLimitMap st')
     ∧ config st' = config st ∧ disk st' = disk st)
  ∧ (∀ st : State Part000.Config,
       let st' := run (Part000.processEmailVerification s now m) st in
       (∀ u, u ≠ ID (m_Author m) → rateLimitMap st' !! u = rateLimitMap st !! u)
       ∧ (rateLimitMap st' !! ID (m_Author m) = rateLimitMap st !! ID (m_Author m)
          ∨ rateLimitMap st' !! ID (m_Author m) = Some now)
       ∧ dom (rateLimitMap st) ⊆ dom (rateLimitMap st')
       ∧ config st' = config st ∧ disk st' = disk st)
  ∧ (∀ st : State Part000.Config,
       sameStore st (run (MainGo.processEmailVerification s m) st)).
Proof.
  split; [|split]; intros st; cbn zeta.
  - pose proof (Part001_processEmailVerification_cases s now m st) as [Hc _].
    cbn zeta in Hc. pose proof (Part001_request_disk s now m st) as Hd.
    destruct (Part001_attempts s now m st) as [-> | ->].
    + repeat split; auto.
    + repeat split; auto.
      * intros u Hu. by rewrite lookup_insert_ne.
      * right. apply lookup_insert_eq.
      * rewrite dom_insert. set_solver.
  - pose proof (Part000_processEmailVerification_cases s now m st) as [Hc _].
    cbn zeta in Hc. pose proof (Part000_request_disk s now m st) as Hd.
    destruct (Part000_attempts s now m st) as [-> | ->].
    + repeat split; auto.
    + repeat split; auto.
      * intros u Hu. by rewrite lookup_insert_ne.
      * right. apply lookup_insert_eq.
      * rewrite dom_insert. set_solver.
  - unfold sameStore, MainGo.processEmailVerification. unfold_M.
    destruct (String.eqb _ ""); [done|].
    cbn [fst snd config rateLimitMap disk trace].
    destruct (index2 _ _ _) as [sc []]; cbn [negb orb]; [|done].
    destruct (String.eqb _ ""); [done|].
    cbn [fst snd config rateLimitMap disk trace].
    by destruct (ChannelMessageSend_res s _ _).
Qed.

(** X9: a rate limit that is enabled with a duration of zero or less refuses
    nobody.  In the current revision, when the guild of the message has such
    an entry and the clock has not gone back since the last recorded attempt
    of the author, the message is not answered with the request to wait, and
    its time is recorded. *)
Theorem nonpositive_limit_refuses_nobody (s : Session) (now : time.Time) (m : MessageCreate)
    (st : State Part001.Config) (sc : Part001.ServerConfig) :
  Part001.serverOf (config st) (m_GuildID m) = Some sc →
  Part001.RateLimitEnabled sc = true →
  Part001.RateLimitDuration sc ≤ 0 →
  (∀ last, rateLimitMap st !! ID (m_Author m) = Some last → last ≤ now) →
  let st' := run (Part001.processEmailVerification s now m) st in
  rateLimitMap st' !! ID (m_Author m) = Some now
  ∧ ChannelMessageSend (m_ChannelID m) (waitReply sc)
    ∉ effectsOf (Part001.processEmailVerification s now m) st.
Proof.
  intros Hsc Hon Hd Hclock. cbn zeta.
  pose proof (Part001_processEmailVerification_cases s now m st) as [_ H]. cbn zeta in H.
  rewrite Hsc, Hon in H.
  assert (Hcheck : rateLimitCheck (Part001.RateLimitDuration sc) now (ID (m_Author m))
                     (rateLimitMap st)
                   = (true, <[ID (m_Author m) := now]> (rateLimitMap st))).
  { unfold rateLimitCheck, index2. cbn [mbind option_bind].
    destruct (rateLimitMap st !! ID (m_Author m)) as [last|] eqn:Hl; [|done].
    specialize (Hclock last eq_refl). cbn [andb].
    replace (time.Sub now last <? Part001.RateLimitDuration sc) with false; [done|].
    symmetry. apply Z.ltb_ge. unfold time.Sub.
    repeat match goal with |- context [if ?b then _ else _] => destruct b eqn:? end;
      unfold maxInt64, minInt64 in *; lia. }
  rewrite Hcheck in H. cbn [negb fst snd] in H. destruct H as [Hrl H].
  split; [rewrite Hrl; apply lookup_insert_eq|].
  unfold effectsOf.
  assert (Hne : ∀ l, ChannelMessageSend (m_ChannelID m) (waitReply sc) ∉ l →
                     trace (run (Part001.processEmailVerification s now m) st) = trace st ++ l →
                     ChannelMessageSend (m_ChannelID m) (waitReply sc)
                     ∉ drop (length (trace st))
                         (trace (run (Part001.processEmailVerification s now m) st))).
  { intros l Hl ->. by rewrite drop_app_length. }
  destruct (negb (Regexp.MatchString emailRegex (m_Content m))).
  - eapply Hne; [|exact H]. unfold waitReply. intros Hin. not_logged Hin.
  - destruct (firstGuildOf s (ID (m_Author m))) as [g|];
      [destruct (String.eqb g "")|].
    1,3: eapply Hne; [|exact H]; intros Hin; not_logged Hin.
    eapply Hne; [|exact H]. unfold postOf.
    destruct (ChannelMessageSendComplex_res s _ _); intros Hin; not_logged Hin.
Qed.

Lemma nonpositive_limit_refuses_nobody_witness :
  rateLimitMap (run (Part001.processEmailVerification exampleSession 1001
                       (guildMessage "alice@uclan.ac.uk")) zeroLimitState) !! "42"
  = Some 1001.
Proof.
  apply (nonpositive_limit_refuses_nobody exampleSession 1001
           (guildMessage "alice@uclan.ac.uk") zeroLimitState
           (Part001.mkServerConfig "audit" "unverified" true 0) eq_refl eq_refl).
  - reflexivity.
  - intros last H. vm_compute in H. injection H as <-. lia.
Defined.

(** ** What reaches the audit channel *)

Lemma in_postOf (s : Session) (channel : string) (m : MessageCreate)
    (ch c : string) (rows : list ActionsRow) :
  ChannelMessageSendComplex ch c rows ∈ postOf s channel m →
  ch = channel ∧ c = requestContent m
  ∧ rows = [[approveButton (ID (m_Author m)); denyButton (ID (m_Author m))]].
Proof.
  unfold postOf. intros H. apply elem_of_cons in H as [H|H]; [by injection H as -> -> ->|].
  destruct (ChannelMessageSendComplex_res s channel (requestContent m)); not_in H.
Qed.

(** X10: only institutional addresses reach the audit channel.  In the two
    revisions that validate, a request with buttons is posted only when the
    content of the message is an institutional address, letter for letter;
    the request is the line of the author and the address with the two
    buttons of the author, and it goes to the audit channel of the first
    guild of the bot that has the author as a member (in the revision before
    the current one, only when that guild has a verification channel). *)
Theorem only_institutional_addresses_are_forwarded (s : Session) (now : time.Time)
    (m : MessageCreate) (ch c : string) (rows : list ActionsRow) :
  (∀ st : State Part001.Config,
     ChannelMessageSendComplex ch c rows
       ∈ effectsOf (Part001.processEmailVerification s now m) st →
     isInstitutionalEmail (m_Content m)
     ∧ c = requestContent m
     ∧ rows = [[approveButton (ID (m_Author m)); denyButton (ID (m_Author m))]]
     ∧ ∃ guild, firstGuildOf s (ID (m_Author m)) = Some guild
                ∧ ch = Part001.MemberAuditChannelID
                         (default Part001.zeroServerConfig
                                  (Part001.serverOf (config st) guild)))
  ∧ (∀ st : State Part000.Config,
       ChannelMessageSendComplex ch c rows
         ∈ effectsOf (Part000.processEmailVerification s now m) st →
       isInstitutionalEmail (m_Content m)
       ∧ c = requestContent m
       ∧ rows = [[approveButton (ID (m_Author m)); denyButton (ID (m_Author m))]]
       ∧ ∃ guild sc, firstGuildOf s (ID (m_Author m)) = Some guild
                     ∧ Part000.serverOf (config st) guild = Some sc
                     ∧ Part000.VerificationChannelID sc ≠ ""
                     ∧ ch = Part000.MemberAuditChannelID sc).
Proof.
  split; intros st; unfold effectsOf.
  - pose proof (Part001_processEmailVerification_cases s now m st) as [_ H]. cbn zeta in H.
    destruct (Part001.serverOf (config st) (m_GuildID m)) as [sc|];
      [|destruct H as [-> _]; rewrite drop_app_length; intros Hin; not_in Hin].
    destruct (negb _); [destruct H as [-> _]; rewrite drop_app_length; intros Hin; not_in Hin|].
    destruct H as [_ H].
    destruct (Regexp.MatchString emailRegex (m_Content m)) eqn:Hre; cbn [negb] in H;
      [|rewrite H, drop_app_length; intros Hin; not_in Hin].
    apply emailRegex_spec in Hre.
    destruct (firstGuildOf s (ID (m_Author m))) as [guild|];
      [destruct (String.eqb guild "")|];
      rewrite H, drop_app_length; intros Hin; try not_in Hin.
    apply in_postOf in Hin as (-> & -> & ->).
    split; [done|]. split; [done|]. split; [done|]. by exists guild.
  - pose proof (Part000_processEmailVerification_cases s now m st) as [_ H]. cbn zeta in H.
    destruct (negb _); [destruct H as [-> _]; rewrite drop_app_length; intros Hin; not_in Hin|].
    destruct H as [_ H].
    destruct (Regexp.MatchString emailRegex (m_Content m)) eqn:Hre; cbn [negb] in H;
      [|rewrite H, drop_app_length; intros Hin; not_in Hin].
    apply emailRegex_spec in Hre.
    destruct (firstGuildOf s (ID (m_Author m))) as [guild|];
      [destruct (String.eqb guild "")|]; try (rewrite H, drop_app_length; intros Hin; not_in Hin).
    destruct (Part000.serverOf (config st) guild) as [sc|] eqn:Hsc;
      [destruct (String.eqb_spec (Part000.VerificationChannelID sc) "")|];
      rewrite H, drop_app_length; intros Hin; try not_in Hin.
    apply in_postOf in Hin as (-> & -> & ->).
    split; [done|]. split; [done|]. split; [done|]. by exists guild, sc.
Qed.

(** ** The administrative commands, from the platform to the file *)

Lemma updateServer_nil {R} (g : string) (change : Part001.ServerConfig → Part001.ServerConfig)
    (st : State Part001.Config) :
  Part001.Servers (config st) = None →
  Part001.updateServer (R := R) g change st = (st, Panic "assignment to entry in nil map").
Proof.
  intros Hm. unfold Part001.updateServer. unfold_M. rewrite Hm. reflexivity.
Qed.

(** the state and the calls a command leaves after its change [c'] of the
    configuration *)
Lemma saveAndRespond_spec (os : OS) (msg : string) (st : State Part001.Config) :
  let data := Part001.MarshalIndent (config st) in
  Part001.saveAndRespond os msg st =
  match os_MkdirAll os "./data" with
  | Err e =>
      (mkState (config st) (rateLimitMap st) (disk st)
         (trace st ++ [MkdirAll "./data";
                       InteractionRespond (ChannelMessageWithSource
                                             ("Error saving config: " +:+ e))]),
       Return tt)
  | Ok _ =>
      match os_WriteFile os Part001.configPath data with
      | Err e =>
          (mkState (config st) (rateLimitMap st) (disk st)
             (trace st ++ [MkdirAll "./data"; WriteFile Part001.configPath data;
                           InteractionRespond (ChannelMessageWithSource
                                                 ("Error saving config: " +:+ e))]),
           Return tt)
      | Ok _ =>
          (mkState (config st) (rateLimitMap st)
             (<[Part001.configPath := Readable data]> (disk st))
             (trace st ++ [MkdirAll "./data"; WriteFile Part001.configPath data;
                           InteractionRespond (ChannelMessageWithSource msg)]),
           Val tt)
      end
  end.
Proof.
  cbn zeta. unfold Part001.saveAndRespond, Part001.saveConfig. unfold_M.
  destruct (os_MkdirAll os "./data"); [destruct (os_WriteFile os _ _)|];
    cbn [fst snd config rateLimitMap disk trace]; rewrite <- ?app_assoc; reflexivity.
Qed.

Lemma wrap64_range (z : Z) : minInt64 ≤ wrap64 z ≤ maxInt64.
Proof.
  unfold wrap64, minInt64, maxInt64.
  pose proof (Z.mod_pos_bound (z + 2 ^ 63) (2 ^ 64) ltac:(lia)). lia.
Qed.

(** every command that writes is a change of the entry of the guild followed
    by the save and the response; the change keeps an entry fit for the file
    when the identifiers delivered are valid UTF-8 *)
Lemma writing_command_shape (cmd : ApplicationCommand) (i : InteractionCreate) :
  cmd ∈ Part001.commands → cmd_Name cmd ∈ writingCommands → delivers cmd i →
  ∃ change msg,
    (∀ os s st,
       Part001.interactionCreate os s i st
       = call (Part001.updateServer (i_GuildID i) change;; Part001.saveAndRespond os msg) st)
    ∧ ((∀ id, OptChannel id ∈ i_Options i ∨ OptRole id ∈ i_Options i →
              utf8.ValidString id = true) →
       ∀ sc, validServerConfig sc → validServerConfig (change sc)).
Proof.
  intros Hcmd Hw (Hty & Hname & Hopts). unfold Part001.interactionCreate.
  rewrite Hty, Hname. unfold Part001.commands in Hcmd.
  repeat (apply elem_of_cons in Hcmd as [->|Hcmd]); [..|by apply elem_of_nil in Hcmd];
    cbn [cmd_Name cmd_Options map opt_Type] in *.
  - destruct (i_Options i) as [|[c| |] [|? ?]] eqn:Ho; try discriminate Hopts.
    eexists _, _. split.
    + intros os s st. cbn [Part001.commandHandlers String.eqb Ascii.eqb Bool.eqb].
      unfold Part001.setMemberAuditChannel, Part001.option0. rewrite Ho. reflexivity.
    + intros Hid sc (Ha & Hr & Hd1 & Hd2). repeat split; try done.
      apply Hid. left. in_list.
  - destruct (i_Options i) as [|[|r|] [|? ?]] eqn:Ho; try discriminate Hopts.
    eexists _, _. split.
    + intros os s st. cbn [Part001.commandHandlers String.eqb Ascii.eqb Bool.eqb].
      unfold Part001.setUnverifiedRole, Part001.option0. rewrite Ho. reflexivity.
    + intros Hid sc (Ha & Hr & Hd1 & Hd2). repeat split; try done.
      apply Hid. right. in_list.
  - eexists _, _. split; [intros os s st; reflexivity|].
    intros _ sc (Ha & Hr & Hd1 & Hd2). repeat split; try done;
      cbn [Part001.RateLimitDuration]; destruct (_ =? 0);
      unfold time.Minute, time.Second, minInt64, maxInt64 in *; lia.
  - eexists _, _. split; [intros os s st; reflexivity|].
    intros _ sc (Ha & Hr & Hd1 & Hd2). by repeat split.
  - destruct (i_Options i) as [|[| |n] [|? ?]] eqn:Ho; try discriminate Hopts.
    eexists _, _. split.
    + intros os s st. cbn [Part001.commandHandlers String.eqb Ascii.eqb Bool.eqb].
      unfold Part001.setRateLimit, Part001.option0. rewrite Ho. reflexivity.
    + intros _ sc (Ha & Hr & Hd1 & Hd2). repeat split; try done; apply wrap64_range.
  - exfalso. unfold writingCommands in Hw. not_in Hw.
Qed.

(** what a command that writes leaves, by the outcome of the save *)
Lemma writing_command_run (os : OS) (change : Part001.ServerConfig → Part001.ServerConfig)
    (msg g : string) (st : State Part001.Config) (m : gmap string Part001.ServerConfig) :
  Part001.Servers (config st) = Some m →
  let c' := Part001.mkConfig
              (Some (<[g := change (default Part001.zeroServerConfig (m !! g))]> m)) in
  let data := Part001.MarshalIndent c' in
  ∃ calls,
    call (R' := unit) (Part001.updateServer g change;; Part001.saveAndRespond os msg) st
    = (mkState c' (rateLimitMap st)
         (match saveError os c' with
          | Some _ => disk st
          | None => <[Part001.configPath := Readable data]> (disk st)
          end)
         (trace st ++ calls), Val tt)
    ∧ responses calls
      = [ChannelMessageWithSource
           (match saveError os c' with
            | Some e => "Error saving config: " +:+ e
            | None => msg
            end)].
Proof.
  intros Hm. cbn zeta. unfold call, mbind, M_bind, bind.
  rewrite (updateServer_spec _ _ _ _ Hm), saveAndRespond_spec.
  cbn [config rateLimitMap disk trace]. unfold saveError.
  destruct (os_MkdirAll os "./data") as [[]|e]; [destruct (os_WriteFile os _ _) as [[]|e]|];
    eexists; (split; [reflexivity|reflexivity]).
Qed.

(** the handler of a name, for the names of [commandHandlers] *)
Lemma commandHandlers_names (name : string) :
  is_Some (Part001.commandHandlers name) ↔ name ∈ map cmd_Name Part001.commands.
Proof.
  unfold Part001.commandHandlers. cbn [map Part001.commands cmd_Name].
  destruct (String.eqb_spec name "set_member_audit_channel") as [->|H1];
    [split; [intros _; in_list|by eexists]|].
  destruct (String.eqb_spec name "set_unverified_role") as [->|H2];
    [split; [intros _; in_list|by eexists]|].
  destruct (String.eqb_spec name "enable_rate_limit") as [->|H3];
    [split; [intros _; in_list|by eexists]|].
  destruct (String.eqb_spec name "disable_rate_limit") as [->|H4];
    [split; [intros _; in_list|by eexists]|].
  destruct (String.eqb_spec name "set_rate_limit") as [->|H5];
    [split; [intros _; in_list|by eexists]|].
  destruct (String.eqb_spec name "check_rate_limit") as [->|H6];
    [split; [intros _; in_list|by eexists]|].
  split; [by intros [? [=]]|]. intros H.
  repeat (apply elem_of_cons in H as [H|H]; [done|]).
  by apply elem_of_nil in H.
Qed.

(** X11: without an allocated map of guilds (the state a process is in after
    it has loaded a file that names no guilds at all), every command that
    writes panics at its assignment, before anything is saved or answered, and
    the state is left as it was. *)
Theorem writing_to_nil_map_panics (cmd : ApplicationCommand) (i : InteractionCreate)
    (os : OS) (s : Session) (st : State Part001.Config) :
  Part001.Servers (config st) = None →
  cmd ∈ Part001.commands → cmd_Name cmd ∈ writingCommands → delivers cmd i →
  Part001.interactionCreate os s i st = (st, Panic "assignment to entry in nil map").
Proof.
  intros Hnil Hcmd Hw Hi.
  destruct (writing_command_shape cmd i Hcmd Hw Hi) as (change & msg & -> & _).
  unfold call, mbind, M_bind, bind. by rewrite updateServer_nil.
Qed.

Lemma writing_to_nil_map_panics_witness :
  Part001.Servers (config emptyObjectState) = None
  ∧ Part001.interactionCreate exampleOS exampleSession
      (command "set_member_audit_channel" [OptChannel "audit"]) emptyObjectState
    = (emptyObjectState, Panic "assignment to entry in nil map").
Proof.
  split; [reflexivity|].
  apply (writing_to_nil_map_panics
           (mkApplicationCommand "set_member_audit_channel" "Set the member audit channel"
              [ mkApplicationCommandOption ApplicationCommandOptionChannel "channel"
                  "The channel to use for member audits" true ])).
  - reflexivity.
  - unfold Part001.commands. in_list.
  - unfold writingCommands. in_list.
  - repeat split.
Defined.



Lemma validConfig_insert (m : gmap string Part001.ServerConfig) (g : string)
    (sc : Part001.ServerConfig) :
  validConfig (Part001.mkConfig (Some m)) → utf8.ValidString g = true →
  validServerConfig sc →
  validConfig (Part001.mkConfig (Some (<[g := sc]> m))).
Proof.
  intros Hm Hg Hsc m' [= <-]. apply map_Forall_insert_2; [done|]. by apply Hm.
Qed.

Lemma validServerConfig_default (m : gmap string Part001.ServerConfig) (g : string) :
  validConfig (Part001.mkConfig (Some m)) →
  validServerConfig (default Part001.zeroServerConfig (m !! g)).
Proof.
  intros Hm. destruct (m !! g) as [sc|] eqn:Hg; cbn [default from_option id].
  - by destruct (Hm m eq_refl g sc Hg).
  - repeat split; vm_compute; congruence.
Qed.

Lemma load_written_file (c : Part001.Config) (d : gmap string file) :
  validConfig c →
  Part001.loadConfig
    (freshState Part001.zeroConfig
       (<[Part001.configPath := Readable (Part001.MarshalIndent c)]> d))
  = (mkState c ∅ (<[Part001.configPath := Readable (Part001.MarshalIndent c)]> d) [],
     Return None).
Proof.
  intros Hc. unfold Part001.loadConfig, freshState. unfold_M.
  rewrite lookup_insert_eq. unfold_M. by rewrite Unmarshal_MarshalIndent.
Qed.

(** X13: a change made by a command survives a restart.  On an allocated map
    whose strings are valid UTF-8, after a command that writes (delivered with
    a guild id and identifiers that are valid UTF-8) whose save succeeds, a
    process that starts on the files left and loads the configuration has
    exactly the configuration the command left in memory. *)
Theorem command_survives_restart (cmd : ApplicationCommand) (i : InteractionCreate)
    (os : OS) (s : Session) (st : State Part001.Config)
    (m : gmap string Part001.ServerConfig) :
  Part001.Servers (config st) = Some m →
  cmd ∈ Part001.commands → cmd_Name cmd ∈ writingCommands → delivers cmd i →
  validConfig (config st) →
  utf8.ValidString (i_GuildID i) = true →
  (∀ id, OptChannel id ∈ i_Options i ∨ OptRole id ∈ i_Options i →
         utf8.ValidString id = true) →
  let st' := run (Part001.interactionCreate os s i) st in
  saveError os (config st') = None →
  let restarted := Part001.loadConfig (freshState Part001.zeroConfig (disk st')) in
  restarted.2 = Return None ∧ config restarted.1 = config st'.
Proof.
  intros Hm Hcmd Hw Hi Hvalid Hg Hids. cbn zeta.
  destruct (writing_command_shape cmd i Hcmd Hw Hi) as (change & msg & Hshape & Hchange).
  unfold run. rewrite Hshape.
  destruct (writing_command_run os change msg (i_GuildID i) st m Hm) as (calls & -> & _).
  cbn [fst snd config rateLimitMap disk trace]. intros ->.
  destruct st as [[c] rl d tr]. cbn [config Part001.Servers disk] in *. subst c.
  rewrite load_written_file; [done|].
  apply validConfig_insert; [done..|].
  apply Hchange; [done|]. by apply validServerConfig_default.
Qed.

Lemma command_survives_restart_witness :
  let st' := run (Part001.interactionCreate exampleOS exampleSession
                    (command "set_rate_limit" [OptInteger 10])) configuredState in
  Part001.serverOf (config st') "g1"
  = Some (Part001.mkServerConfig "audit" "unverified" true (10 * time.Minute))
  ∧ config (Part001.loadConfig (freshState Part001.zeroConfig (disk st'))).1 = config st'.
Proof.
  cbn zeta. split; [reflexivity|].
  apply (command_survives_restart
           (mkApplicationCommand "set_rate_limit" "Set the rate limit for email verification"
              [ mkApplicationCommandOption ApplicationCommandOptionInteger "minutes"
                  "The number of minutes to set the rate limit to" true ])
           (command "set_rate_limit" [OptInteger 10]) exampleOS exampleSession configuredState
           {[ "g1" := Part001.mkServerConfig "audit" "unverified" true (5 * time.Minute) ]}).
  - reflexivity.
  - unfold Part001.commands. in_list.
  - unfold writingCommands. in_list.
  - repeat split.
  - intros m' [= <-]. apply map_Forall_singleton. repeat split; vm_compute; congruence.
  - reflexivity.
  - intros id [H|H]; not_in H.
  - reflexivity.
Defined.

Lemma wrap64_small (z : Z) : minInt64 ≤ z ≤ maxInt64 → wrap64 z = z.
Proof.
  unfold wrap64, minInt64, maxInt64. intros H. rewrite Z.mod_small; lia.
Qed.

Lemma writing_command_config (os : OS) (change : Part001.ServerConfig → Part001.ServerConfig)
    (msg g : string) (st : State Part001.Config) (m : gmap string Part001.ServerConfig) :
  Part001.Servers (config st) = Some m →
  Part001.Servers
    (config (call (R' := unit)
               (Part001.updateServer g change;; Part001.saveAndRespond os msg) st).1)
  = Some (<[g := change (default Part001.zeroServerConfig (m !! g))]> m).
Proof.
  intros Hm. by destruct (writing_command_run os change msg g st m Hm) as (calls & -> & _).
Qed.

Lemma checkRateLimit_answer (os : OS) (s : Session) (i : InteractionCreate)
    (st : State Part001.Config) (sc : Part001.ServerConfig) :
  Part001.serverOf (config st) (i_GuildID i) = Some sc →
  Part001.RateLimitEnabled sc = true →
  responses (effectsOf (call (R' := unit) (Part001.checkRateLimit os s i)) st)
  = [enabledAnswer (Z.quot (Part001.RateLimitDuration sc) time.Minute)].
Proof.
  intros Hsc Hon. unfold effectsOf, Part001.checkRateLimit. unfold_M.
  rewrite Part001_index2, Hsc. cbn [negb]. rewrite Hon.
  cbn [fst snd config rateLimitMap disk trace]. by rewrite drop_app_length.
Qed.

(** X14: the minutes set are the minutes reported.  On an allocated map, for
    a number of minutes whose nanoseconds fit 64 bits: after
    [enable_rate_limit] and then [set_rate_limit n] in a guild,
    [check_rate_limit] in that guild answers that the limit is enabled with a
    duration of [n] minutes, also for zero and for negative [n]; in the other
    order, [set_rate_limit 0] and then [enable_rate_limit], it answers five
    minutes, the default put in place of zero.  Whether the saves succeed
    makes no difference. *)
Theorem minutes_set_are_minutes_reported (os : OS) (s : Session) (g : string) (n : Z)
    (st : State Part001.Config) (m : gmap string Part001.ServerConfig) :
  Part001.Servers (config st) = Some m →
  - 153722867 ≤ n ≤ 153722867 →
  let handle i := run (Part001.interactionCreate os s i) in
  let enable := commandIn g "enable_rate_limit" [] in
  let set := commandIn g "set_rate_limit" [OptInteger n] in
  let check := commandIn g "check_rate_limit" [] in
  responses (effectsOf (Part001.interactionCreate os s check) (handle set (handle enable st)))
  = [enabledAnswer n]
  ∧ responses (effectsOf (Part001.interactionCreate os s check)
                 (handle enable (handle set st)))
    = [enabledAnswer (if n =? 0 then 5 else n)].
Proof.
  intros Hm Hn. cbn zeta.
  assert (Hwrap : wrap64 (n * time.Minute) = n * time.Minute).
  { apply wrap64_small. unfold time.Minute, time.Second, minInt64, maxInt64. lia. }
  assert (Hquot : ∀ k, Z.quot (k * time.Minute) time.Minute = k).
  { intros k. by apply Z.quot_mul. }
  set (enableChange := λ sc : Part001.ServerConfig,
         Part001.mkServerConfig (Part001.MemberAuditChannelID sc) (Part001.UnverifiedRoleID sc)
           true (if Part001.RateLimitDuration sc =? 0 then 5 * time.Minute
                 else Part001.RateLimitDuration sc)).
  set (setChange := λ sc : Part001.ServerConfig,
         Part001.mkServerConfig (Part001.MemberAuditChannelID sc) (Part001.UnverifiedRoleID sc)
           (Part001.RateLimitEnabled sc) (wrap64 (n * time.Minute))).
  set (old := default Part001.zeroServerConfig (m !! g)).
  split.
  - set (st1 := run (Part001.interactionCreate os s (commandIn g "enable_rate_limit" [])) st).
    assert (H1 : Part001.Servers (config st1) = Some (<[g := enableChange old]> m)).
    { exact (writing_command_config os enableChange _ g st m Hm). }
    set (st2 := run (Part001.interactionCreate os s
                       (commandIn g "set_rate_limit" [OptInteger n])) st1).
    assert (H2 : Part001.serverOf (config st2) g = Some (setChange (enableChange old))).
    { assert (H : Part001.Servers (config st2)
                  = Some (<[g := setChange (default Part001.zeroServerConfig
                                              (<[g := enableChange old]> m !! g))]>
                            (<[g := enableChange old]> m))).
      { exact (writing_command_config os setChange
                 ("Rate limit set to " +:+ FormatInt n
                  +:+ " minutes successfully! :white_check_mark:") g st1 _ H1). }
      unfold Part001.serverOf. rewrite H.
      cbn [mbind option_bind]. by rewrite !lookup_insert_eq. }
    etransitivity;
      [exact (checkRateLimit_answer os s (commandIn g "check_rate_limit" []) st2 _ H2 eq_refl)|].
    cbn [setChange Part001.RateLimitDuration]. by rewrite Hwrap, Hquot.
  - set (st1 := run (Part001.interactionCreate os s
                       (commandIn g "set_rate_limit" [OptInteger n])) st).
    assert (H1 : Part001.Servers (config st1) = Some (<[g := setChange old]> m)).
    { exact (writing_command_config os setChange
               ("Rate limit set to " +:+ FormatInt n +:+ " minutes successfully! :white_check_mark:")
               g st m Hm). }
    set (st2 := run (Part001.interactionCreate os s (commandIn g "enable_rate_limit" [])) st1).
    assert (H2 : Part001.serverOf (config st2) g = Some (enableChange (setChange old))).
    { assert (H : Part001.Servers (config st2)
                  = Some (<[g := enableChange (default Part001.zeroServerConfig
                                                 (<[g := setChange old]> m !! g))]>
                            (<[g := setChange old]> m))).
      { exact (writing_command_config os enableChange
                 "Rate limiting enabled successfully! :white_check_mark:" g st1 _ H1). }
      unfold Part001.serverOf. rewrite H.
      cbn [mbind option_bind]. by rewrite !lookup_insert_eq. }
    etransitivity;
      [exact (checkRateLimit_answer os s (commandIn g "check_rate_limit" []) st2 _ H2 eq_refl)|].
    cbn [enableChange setChange Part001.RateLimitDuration]. rewrite Hwrap.
    destruct (Z.eqb_spec n 0) as [->|Hne].
    + rewrite Z.mul_0_l. change (0 =? 0) with true. cbn iota. by rewrite Hquot.
    + replace (n * time.Minute =? 0) with false; [by rewrite Hquot|].
      symmetry. apply Z.eqb_neq. unfold time.Minute, time.Second. lia.
Qed.

Lemma minutes_set_are_minutes_reported_witness :
  responses
    (effectsOf (Part001.interactionCreate exampleOS exampleSession
                  (commandIn "g1" "check_rate_limit" []))
       (run (Part001.interactionCreate exampleOS exampleSession
               (commandIn "g1" "enable_rate_limit" []))
          (run (Part001.interactionCreate exampleOS exampleSession
                  (commandIn "g1" "set_rate_limit" [OptInteger 0]))
             (mkState (Part001.mkConfig (Some ∅)) ∅ ∅ []))))
  = [enabledAnswer 5].
Proof.
  apply (minutes_set_are_minutes_reported exampleOS exampleSession "g1" 0
           (mkState (Part001.mkConfig (Some ∅)) ∅ ∅ []) ∅ eq_refl).
  lia.
Defined.

(** *** The same for the revision before, and for [main.go] *)

Lemma Part000_updateServer_spec {R} (g : string)
    (change : Part000.ServerConfig → Part000.ServerConfig)
    (st : State Part000.Config) (m : gmap string Part000.ServerConfig) :
  Part000.Servers (config st) = Some m →
  Part000.updateServer (R := R) g change st =
  (mkState (Part000.mkConfig
              (Some (<[g := change (default Part000.zeroServerConfig (m !! g))]> m)))
           (rateLimitMap st) (disk st) (trace st), Val tt).
Proof.
  intros Hm. unfold Part000.updateServer. unfold_M. rewrite Hm.
  unfold index2. cbn [mbind option_bind].
  destruct (m !! g) as [sc|] eqn:Hg; cbn [negb fst snd assign].
  - unfold_M. cbn. by rewrite Hg.
  - unfold_M. cbn. rewrite lookup_insert_eq. cbn. by rewrite insert_insert_eq.
Qed.

Lemma Part000_writing_command_run (os : OS)
    (change : Part000.ServerConfig → Part000.ServerConfig)
    (msg g : string) (st : State Part000.Config) (m : gmap string Part000.ServerConfig) :
  Part000.Servers (config st) = Some m →
  let c' := Part000.mkConfig
              (Some (<[g := change (default Part000.zeroServerConfig (m !! g))]> m)) in
  let data := Part000.MarshalIndent c' in
  ∃ calls,
    call (R' := unit) (Part000.updateServer g change;; Part000.saveAndRespond os msg) st
    = (mkState c' (rateLimitMap st)
         (match os_WriteFile os Part000.configPath data with
          | Err _ => disk st
          | Ok _ => <[Part000.configPath := Readable data]> (disk st)
          end)
         (trace st ++ calls), Val tt)
    ∧ responses calls
      = [ChannelMessageWithSource
           (match os_WriteFile os Part000.configPath data with
            | Err e => "Error saving config: " +:+ e
            | Ok _ => msg
            end)].
Proof.
  intros Hm. cbn zeta. unfold call, mbind, M_bind, bind.
  rewrite (Part000_updateServer_spec _ _ _ _ Hm).
  unfold Part000.saveAndRespond, Part000.saveConfig. unfold_M.
  destruct (os_WriteFile os _ _) as [[]|e];
    cbn [fst snd config rateLimitMap disk trace]; rewrite <- ?app_assoc;
    eexists; (split; [reflexivity|reflexivity]).
Qed.

Lemma Part000_command_shape (cmd : ApplicationCommand) (i : InteractionCreate) :
  cmd ∈ Part000.commands → delivers cmd i →
  ∃ change msg, ∀ os s st,
    Part000.interactionCreate os s i st
    = call (Part000.updateServer (i_GuildID i) change;; Part000.saveAndRespond os msg) st.
Proof.
  intros Hcmd (Hty & Hname & Hopts). unfold Part000.interactionCreate.
  rewrite Hty, Hname. unfold Part000.commands in Hcmd.
  repeat (apply elem_of_cons in Hcmd as [->|Hcmd]); [..|by apply elem_of_nil in Hcmd];
    cbn [cmd_Name cmd_Options map opt_Type] in *.
  - destruct (i_Options i) as [|[c| |] [|? ?]] eqn:Ho; try discriminate Hopts.
    eexists _, _. intros os s st. cbn [Part000.commandHandlers String.eqb Ascii.eqb Bool.eqb].
    unfold Part000.setVerificationChannel, Part000.option0. rewrite Ho. reflexivity.
  - destruct (i_Options i) as [|[c| |] [|? ?]] eqn:Ho; try discriminate Hopts.
    eexists _, _. intros os s st. cbn [Part000.commandHandlers String.eqb Ascii.eqb Bool.eqb].
    unfold Part000.setMemberAuditChannel, Part000.option0. rewrite Ho. reflexivity.
  - destruct (i_Options i) as [|[|r|] [|? ?]] eqn:Ho; try discriminate Hopts.
    eexists _, _. intros os s st. cbn [Part000.commandHandlers String.eqb Ascii.eqb Bool.eqb].
    unfold Part000.setUnverifiedRole, Part000.option0. rewrite Ho. reflexivity.
Qed.

Lemma Part000_commandHandlers_names (name : string) :
  is_Some (Part000.commandHandlers name) ↔ name ∈ map cmd_Name Part000.commands.
Proof.
  unfold Part000.commandHandlers. cbn [map Part000.commands cmd_Name].
  destruct (String.eqb_spec name "set_verification_channel") as [->|H1];
    [split; [intros _; in_list|by eexists]|].
  destruct (String.eqb_spec name "set_member_audit_channel") as [->|H2];
    [split; [intros _; in_list|by eexists]|].
  destruct (String.eqb_spec name "set_unverified_role") as [->|H3];
    [split; [intros _; in_list|by eexists]|].
  split; [by intros [? [=]]|]. intros H.
  repeat (apply elem_of_cons in H as [H|H]; [done|]).
  by apply elem_of_nil in H.
Qed.

Lemma run_call {C R R'} (h : M C R R) (st : State C) :
  run (call (R' := R') h) st = run h st.
Proof. unfold run, call. by destruct (h st) as [st' []]. Qed.

(** X15: the store changes only through the commands that write.  In the
    current revision, an interaction that is not one of the five commands that
    write (a click, [check_rate_limit], an unknown command, any other type of
    interaction) leaves the configuration, the rate-limit map and the files as
    they are; in the revision before, so does every interaction that is not
    one of its three commands. *)
Theorem store_changes_only_by_commands (os : OS) (s : Session) (i : InteractionCreate) :
  (¬ (i_Type i = InteractionApplicationCommand ∧ i_CommandName i ∈ writingCommands) →
   ∀ st : State Part001.Config, sameStore st (run (Part001.interactionCreate os s i) st))
  ∧ (¬ (i_Type i = InteractionApplicationCommand
        ∧ i_CommandName i ∈ map cmd_Name Part000.commands) →
     ∀ st : State Part000.Config, sameStore st (run (Part000.interactionCreate os s i) st)).
Proof.
  split; intros Hno st.
  - unfold Part001.interactionCreate. destruct (i_Type i) eqn:Hty; try done.
    + unfold Part001.commandHandlers.
      destruct (String.eqb_spec (i_CommandName i) "set_member_audit_channel") as [Hn|?];
        [exfalso; apply Hno; split; [done|]; rewrite Hn; unfold writingCommands; in_list|].
      destruct (String.eqb_spec (i_CommandName i) "set_unverified_role") as [Hn|?];
        [exfalso; apply Hno; split; [done|]; rewrite Hn; unfold writingCommands; in_list|].
      destruct (String.eqb_spec (i_CommandName i) "enable_rate_limit") as [Hn|?];
        [exfalso; apply Hno; split; [done|]; rewrite Hn; unfold writingCommands; in_list|].
      destruct (String.eqb_spec (i_CommandName i) "disable_rate_limit") as [Hn|?];
        [exfalso; apply Hno; split; [done|]; rewrite Hn; unfold writingCommands; in_list|].
      destruct (String.eqb_spec (i_CommandName i) "set_rate_limit") as [Hn|?];
        [exfalso; apply Hno; split; [done|]; rewrite Hn; unfold writingCommands; in_list|].
      destruct (String.eqb_spec (i_CommandName i) "check_rate_limit") as [Hn|?]; [|done].
      rewrite run_call. unfold sameStore, Part001.checkRateLimit. unfold_M.
      by destruct (index2 _ _ _) as [sc []].
    + rewrite run_call. apply Part001_button_store.
  - unfold Part000.interactionCreate. destruct (i_Type i) eqn:Hty; try done.
    + destruct (Part000.commandHandlers (i_CommandName i)) as [h|] eqn:Hh; [|done].
      exfalso. apply Hno. split; [done|]. apply Part000_commandHandlers_names.
      by rewrite Hh.
    + rewrite run_call. apply Part000_button_store.
Qed.

Lemma store_changes_only_by_commands_witness :
  sameStore configuredState
    (run (Part001.interactionCreate exampleOS exampleSession
            (commandIn "g1" "check_rate_limit" [])) configuredState).
Proof.
  apply (proj1 (store_changes_only_by_commands exampleOS exampleSession
                  (commandIn "g1" "check_rate_limit" []))).
  intros [_ H]. unfold writingCommands in H. not_in H.
Defined.

(** X16: the commands declared to the platform and the handlers agree.  In
    both revisions a name has a handler exactly when a command of that name is
    declared, every declared option is required, and a declared command that
    is delivered with the options of its declaration, on an allocated map,
    does not panic and is answered exactly once. *)
Theorem declared_commands_are_served :
  (∀ name, is_Some (Part001.commandHandlers name) ↔ name ∈ map cmd_Name Part001.commands)
  ∧ (∀ cmd o, cmd ∈ Part001.commands → o ∈ cmd_Options cmd → opt_Required o = true)
  ∧ (∀ cmd i os s (st : State Part001.Config) m,
       cmd ∈ Part001.commands → delivers cmd i → Part001.Servers (config st) = Some m →
       (Part001.interactionCreate os s i st).2 = Val tt
       ∧ length (responses (effectsOf (Part001.interactionCreate os s i) st)) = 1%nat)
  ∧ (∀ name, is_Some (Part000.commandHandlers name) ↔ name ∈ map cmd_Name Part000.commands)
  ∧ (∀ cmd o, cmd ∈ Part000.commands → o ∈ cmd_Options cmd → opt_Required o = true)
  ∧ (∀ cmd i os s (st : State Part000.Config) m,
       cmd ∈ Part000.commands → delivers cmd i → Part000.Servers (config st) = Some m →
       (Part000.interactionCreate os s i st).2 = Val tt
       ∧ length (responses (effectsOf (Part000.interactionCreate os s i) st)) = 1%nat).
Proof.
  split; [exact commandHandlers_names|]. split; [|split; [|split; [|split]]].
  - intros cmd o Hcmd Ho. unfold Part001.commands in Hcmd.
    repeat (apply elem_of_cons in Hcmd as [->|Hcmd]); [..|by apply elem_of_nil in Hcmd];
      cbn [cmd_Options] in Ho; in_trace Ho.
  - intros cmd i os s st m Hcmd Hi Hm.
    destruct (decide (cmd_Name cmd ∈ writingCommands)) as [Hw|Hw].
    + destruct (writing_command_shape cmd i Hcmd Hw Hi) as (change & msg & Hshape & _).
      unfold effectsOf, run. rewrite Hshape.
      destruct (writing_command_run os change msg (i_GuildID i) st m Hm) as (calls & -> & Hr).
      cbn [fst snd trace]. rewrite drop_app_length, Hr. done.
    + destruct Hi as (Hty & Hname & _). unfold Part001.commands in Hcmd.
      repeat (apply elem_of_cons in Hcmd as [->|Hcmd]); [..|by apply elem_of_nil in Hcmd];
        try (exfalso; apply Hw; unfold writingCommands; cbn [cmd_Name]; in_list).
      cbn [cmd_Name] in Hname. unfold effectsOf, Part001.interactionCreate.
      rewrite Hty, Hname. cbn [Part001.commandHandlers String.eqb Ascii.eqb Bool.eqb].
      unfold Part001.checkRateLimit. unfold_M.
      destruct (index2 _ _ _) as [sc []]; cbn [negb fst snd trace];
        rewrite drop_app_length; done.
  - exact Part000_commandHandlers_names.
  - intros cmd o Hcmd Ho. unfold Part000.commands in Hcmd.
    repeat (apply elem_of_cons in Hcmd as [->|Hcmd]); [..|by apply elem_of_nil in Hcmd];
      cbn [cmd_Options] in Ho; in_trace Ho.
  - intros cmd i os s st m Hcmd Hi Hm.
    destruct (Part000_command_shape cmd i Hcmd Hi) as (change & msg & Hshape).
    unfold effectsOf, run. rewrite Hshape.
    destruct (Part000_writing_command_run os change msg (i_GuildID i) st m Hm)
      as (calls & -> & Hr).
    cbn [fst snd trace]. rewrite drop_app_length, Hr. done.
Qed.

(** ** The file of the revision before *)

Lemma decodeMap_members {A B} (enc : A → Json.json) (dec : Json.decoder B) (zero : B)
    (f : A → B) (P : A → Prop) (l : list (string * A)) (acc : gmap string B) :
  (∀ a, P a → dec (enc a) zero = (f a, None)) →
  Forall (λ kv, P kv.2) l →
  fold_left (λ (acc : gmap string B * option string) (kv : string * Json.json),
               let '(x, e) := dec kv.2 zero in
               (<[kv.1 := x]> acc.1, Json.firstError acc.2 e))
            (map (λ kv : string * A, (kv.1, enc kv.2)) l)
            (acc, None)
  = (fold_left (λ a (kv : string * A), <[kv.1 := f kv.2]> a) l acc, None).
Proof.
  intros Hdec Hl. revert acc. induction Hl as [|[k a] l Ha _ IH]; intros acc; [reflexivity|].
  cbn [map fold_left fst snd] in *. rewrite (Hdec a Ha). cbn [Json.firstError]. apply IH.
Qed.

Lemma sortedEntries_fmap {A B} (f : A → B) (m : gmap string A) :
  fold_left (λ (a : gmap string B) (kv : string * A), <[kv.1 := f kv.2]> a)
            (Json.sortedEntries m) ∅ = f <$> m.
Proof.
  rewrite <- (sortedEntries_to_map m) at 2.
  generalize (Json.sortedEntries m) as l. intros l.
  rewrite <- (fmap_empty f) at 1. generalize (∅ : gmap string A) as acc.
  induction l as [|[k a] l IH]; intros acc; [reflexivity|].
  cbn [fold_left fst snd]. rewrite <- fmap_insert. apply IH.
Qed.

Lemma Part000_wellFormed_marshalConfig (c : Part000.Config) :
  validConfig000 c → wellFormed (Part000.marshalConfig c).
Proof.
  intros Hc. unfold Part000.marshalConfig.
  apply wellFormed_object. constructor; [|constructor].
  split; [vm_compute; reflexivity|]. cbn [snd].
  destruct c as [[m|]]; cbn [Part000.Servers]; [|exact I].
  specialize (Hc m eq_refl).
  apply wellFormed_object, Forall_fmap, Forall_forall. intros [k sc] Hin.
  unfold Json.sortedEntries in Hin. rewrite merge_sort_Permutation in Hin.
  apply elem_of_map_to_list in Hin. destruct (Hc k sc Hin) as [Hk (Hv & Ha & Hr)].
  split; [done|]. unfold Part000.marshalServerConfig. apply wellFormed_object.
  repeat (constructor; [split; [vm_compute; reflexivity|cbn [snd wellFormed]]|]);
    [exact Hv|exact Ha|exact Hr|constructor].
Qed.

Lemma valid_entries {A} (P : string → A → Prop) (Q : A → Prop) (m : gmap string A) :
  map_Forall P m → (∀ k a, P k a → Q a) →
  Forall (λ kv : string * A, Q kv.2) (Json.sortedEntries m).
Proof.
  intros Hm HPQ. apply Forall_forall. intros [k a] Hin.
  unfold Json.sortedEntries in Hin. rewrite merge_sort_Permutation in Hin.
  apply elem_of_map_to_list in Hin. exact (HPQ k a (Hm k a Hin)).
Qed.

Lemma Part000_Unmarshal_MarshalIndent (c : Part000.Config) :
  validConfig000 c →
  Json.Unmarshal Part000.decodeConfig (Part000.MarshalIndent c) Part000.zeroConfig
  = (c, None).
Proof.
  intros Hc. unfold Json.Unmarshal, Part000.MarshalIndent.
  rewrite JsonFacts.parse_render by by apply Part000_wellFormed_marshalConfig.
  destruct c as [[m|]]; [|reflexivity].
  specialize (Hc m eq_refl).
  unfold Part000.decodeConfig, Part000.marshalConfig, Json.decodeStruct.
  cbn [fold_left fst snd Part000.Servers].
  change (Json.findField _ "servers") with
    (Some (λ (v : Json.json) (c : Part000.Config),
             let '(m, e) := Json.decodeMap Part000.zeroServerConfig
                              Part000.decodeServerConfig v (Part000.Servers c) in
             (Part000.mkConfig m, e))).
  cbv beta iota. cbn [Json.decodeMap Part000.Servers Part000.zeroConfig from_option].
  rewrite (decodeMap_members Part000.marshalServerConfig Part000.decodeServerConfig
             Part000.zeroServerConfig id (λ _, True)).
  - rewrite sortedEntries_fmap. by rewrite map_fmap_id.
  - intros [v a r] _. reflexivity.
  - by apply Forall_true.
Qed.

Lemma current_Unmarshal_earlier (c : Part000.Config) :
  validConfig000 c →
  Json.Unmarshal Part001.decodeConfig (Part000.MarshalIndent c) Part001.zeroConfig
  = (upgradeConfig c, None).
Proof.
  intros Hc. unfold Json.Unmarshal, Part000.MarshalIndent.
  rewrite JsonFacts.parse_render by by apply Part000_wellFormed_marshalConfig.
  destruct c as [[m|]]; [|reflexivity].
  unfold Part001.decodeConfig, Part000.marshalConfig, Json.decodeStruct, upgradeConfig.
  cbn [fold_left fst snd Part000.Servers].
  change (Json.findField _ "servers") with
    (Some (λ (v : Json.json) (c : Part001.Config),
             let '(m, e) := Json.decodeMap Part001.zeroServerConfig
                              Part001.decodeServerConfig v (Part001.Servers c) in
             (Part001.mkConfig m, e))).
  cbv beta iota. cbn [Json.decodeMap Part001.Servers Part001.zeroConfig from_option].
  rewrite (decodeMap_members Part000.marshalServerConfig Part001.decodeServerConfig
             Part001.zeroServerConfig upgrade (λ _, True)).
  - by rewrite sortedEntries_fmap.
  - intros [v a r] _. reflexivity.
  - by apply Forall_true.
Qed.

(** X17: in [main.go] and in the revision after it, for a configuration
    whose strings are valid UTF-8, when [saveConfig] can write the file, the
    file [config.json] holds the indented document, and a [loadConfig] in a
    fresh process returns no error and leaves the same configuration. *)
Theorem earlier_save_then_load (os : OS) (st : State Part000.Config) :
  validConfig000 (config st) →
  os_WriteFile os Part000.configPath (Part000.MarshalIndent (config st)) = Ok tt →
  let saved := MainGo.saveConfig os st in
  let loaded := MainGo.loadConfig (freshState Part000.zeroConfig (disk saved.1)) in
  saved.2 = Return None
  ∧ disk saved.1 !! Part000.configPath = Some (Readable (Part000.MarshalIndent (config st)))
  ∧ loaded.2 = Return None
  ∧ config loaded.1 = config st.
Proof.
  intros Hc Hwr. cbn zeta.
  unfold MainGo.saveConfig, Part000.saveConfig. unfold_M. rewrite Hwr. unfold_M.
  split; [done|]. split; [apply lookup_insert_eq|].
  unfold MainGo.loadConfig, Part000.loadConfig, freshState. unfold_M.
  rewrite lookup_insert_eq. unfold_M.
  rewrite Part000_Unmarshal_MarshalIndent by done. by unfold_M.
Qed.

Lemma earlier_save_then_load_witness :
  config (MainGo.loadConfig
            (freshState Part000.zeroConfig
               (disk (MainGo.saveConfig exampleOS (freshState exampleConfig000 ∅)).1))).1
  = exampleConfig000.
Proof.
  assert (Hvalid : validConfig000 exampleConfig000).
  { intros m [= <-]. apply map_Forall_singleton. repeat split; vm_compute; congruence. }
  exact (proj2 (proj2 (proj2 (earlier_save_then_load exampleOS
                                (freshState exampleConfig000 ∅) Hvalid eq_refl)))).
Defined.

(** X18: from the revision before to the current one.  The current revision
    reads its configuration from another path: a process of the current
    revision that finds only the file [config.json] of the revision before
    starts with an empty map.  When that document is put at the new path, the
    load returns no error and every guild keeps its audit channel and its
    unverified role; the verification channel is dropped and the rate limit
    is disabled, with a duration of zero. *)
Theorem earlier_file_in_current_revision (c : Part000.Config) :
  validConfig000 c →
  let data := Part000.MarshalIndent c in
  Part001.loadConfig (freshState Part001.zeroConfig {[ Part000.configPath := Readable data ]})
  = (mkState (Part001.mkConfig (Some ∅)) ∅ {[ Part000.configPath := Readable data ]} [],
     Return None)
  ∧ Part001.loadConfig
      (freshState Part001.zeroConfig {[ Part001.configPath := Readable data ]})
    = (mkState (upgradeConfig c) ∅ {[ Part001.configPath := Readable data ]} [],
       Return None).
Proof.
  intros Hc. cbn zeta. split.
  - unfold Part001.loadConfig, freshState. unfold_M.
    rewrite lookup_singleton_ne by done. reflexivity.
  - unfold Part001.loadConfig, freshState. unfold_M.
    rewrite lookup_singleton_eq. unfold_M.
    rewrite current_Unmarshal_earlier by done. reflexivity.
Qed.

Lemma earlier_file_in_current_revision_witness :
  config (Part001.loadConfig
            (freshState Part001.zeroConfig
               {[ Part001.configPath := Readable (Part000.MarshalIndent exampleConfig000) ]})).1
  = Part001.mkConfig (Some {[ "g1" := Part001.mkServerConfig "audit" "unverified" false 0 ]}).
Proof.
  assert (Hvalid : validConfig000 exampleConfig000).
  { intros m [= <-]. apply map_Forall_singleton. repeat split; vm_compute; congruence. }
  rewrite (proj2 (earlier_file_in_current_revision exampleConfig000 Hvalid)).
  cbn [fst config]. unfold upgradeConfig, exampleConfig000. cbn [Part000.Servers].
  by rewrite map_fmap_singleton.
Defined.

(** X19: the three commands of [main.go] and of the revision after it, on an
    allocated map: each creates the default entry of the guild when there is
    none and stores the entry with its own field changed, the verification
    channel, the audit channel or the unverified role; the other two fields of
    the entry and the entries of all other guilds are unchanged, whether or
    not the save succeeds. *)
Theorem earlier_command_frame (os : OS) (s : Session) (i : InteractionCreate)
    (st : State Part000.Config) (m : gmap string Part000.ServerConfig) :
  Part000.Servers (config st) = Some m →
  let g := i_GuildID i in
  let old := default Part000.zeroServerConfig (m !! g) in
  let after h := Part000.Servers (config (run (h os s i) st)) in
  (∀ channelID rest, i_Options i = OptChannel channelID :: rest →
     after MainGo.setVerificationChannel =
     Some (<[g := Part000.mkServerConfig channelID (Part000.MemberAuditChannelID old)
                    (Part000.UnverifiedRoleID old)]> m)
     ∧ after MainGo.setMemberAuditChannel =
       Some (<[g := Part000.mkServerConfig (Part000.VerificationChannelID old) channelID
                      (Part000.UnverifiedRoleID old)]> m))
  ∧ (∀ roleID rest, i_Options i = OptRole roleID :: rest →
     after MainGo.setUnverifiedRole =
     Some (<[g := Part000.mkServerConfig (Part000.VerificationChannelID old)
                    (Part000.MemberAuditChannelID old) roleID]> m)).
Proof.
  intros Hm. cbn zeta.
  assert (Hrun : ∀ change msg,
    Part000.Servers (config (run (Part000.updateServer (i_GuildID i) change;;
                                  Part000.saveAndRespond os msg) st))
    = Some (<[i_GuildID i := change (default Part000.zeroServerConfig (m !! i_GuildID i))]> m)).
  { intros change msg. rewrite <- (run_call (R' := unit)). unfold run.
    by destruct (Part000_writing_command_run os change msg (i_GuildID i) st m Hm)
      as (calls & -> & _). }
  split.
  - intros channelID rest Hopt.
    unfold MainGo.setVerificationChannel, Part000.setVerificationChannel,
      MainGo.setMemberAuditChannel, Part000.setMemberAuditChannel, Part000.option0.
    rewrite Hopt. split; apply Hrun.
  - intros roleID rest Hopt.
    unfold MainGo.setUnverifiedRole, Part000.setUnverifiedRole, Part000.option0.
    rewrite Hopt. apply Hrun.
Qed.

Lemma earlier_command_frame_witness :
  Part000.Servers
    (config (run (MainGo.setVerificationChannel readOnlyOS exampleSession
                    (command "set_verification_channel" [OptChannel "lobby"]))
               configuredState000))
  = Some (<["g1" := Part000.mkServerConfig "lobby" "audit" "unverified"]>
            {[ "g1" := Part000.mkServerConfig "verify" "audit" "unverified" ]}).
Proof.
  pose proof (earlier_command_frame readOnlyOS exampleSession
                (command "set_verification_channel" [OptChannel "lobby"])
                configuredState000 _ eq_refl) as H.
  cbn zeta in H. destruct H as (H & _).
  exact (proj1 (H "lobby" [] eq_refl)).
Defined.

(** ** The start of the process *)

Lemma call_loadConfig (st : State Part001.Config) :
  ∃ err, call (R' := exit) Part001.loadConfig st = (run Part001.loadConfig st, Val err)
         ∧ (Part001.loadConfig st).2 = Return err.
Proof.
  pose proof (Part001_loadConfig_outcome st) as H. unfold call, run.
  destruct (Part001.loadConfig st) as [st' o]. cbn [snd fst] in *. subst o. by eexists.
Qed.

(** X20: the order of the start, in the current revision.  The connection is
    opened only after the configuration has been loaded without error, the
    environment file has been loaded, a token has been found and the session
    has been created; the commands are registered only after the connection
    has been opened, under the id of the bot, for the guild of [GUILD_ID]
    (all guilds when it is empty), and they are the declared commands; [main]
    returns exactly when it has closed the connection, which it does only
    after the registration has succeeded; every other end is fatal.  The
    configuration is what [loadConfig] left. *)
Theorem startup_order (env : Startup) (st : State Part001.Config) :
  let events := (Part001.main env st).1.2 in
  let status := (Part001.main env st).2 in
  let token := Getenv env "DISCORD_TOKEN" in
  (Part001.main env st).1.1 = run Part001.loadConfig st
  ∧ (Open ∈ events →
       (Part001.loadConfig st).2 = Return None
       ∧ godotenv_Load env = Ok tt
       ∧ token ≠ ""
       ∧ ∃ client, discordgo_New env ("Bot " +:+ token) = Ok client)
  ∧ (∀ appID guildID cmds,
       ApplicationCommandBulkOverwrite appID guildID cmds ∈ events →
       Open ∈ events
       ∧ Open_res env = Ok tt
       ∧ guildID = Getenv env "GUILD_ID"
       ∧ cmds = Part001.commands
       ∧ ∃ client, discordgo_New env ("Bot " +:+ token) = Ok client
                   ∧ appID = State_User_ID client)
  ∧ (Close ∈ events →
       ∃ appID n,
         ApplicationCommandBulkOverwrite appID (Getenv env "GUILD_ID") Part001.commands
           ∈ events
         ∧ ApplicationCommandBulkOverwrite_res env appID (Getenv env "GUILD_ID")
             Part001.commands = Ok n)
  ∧ (status = Returned ↔ Close ∈ events).
Proof.
  cbn zeta. unfold Part001.main.
  destruct (call_loadConfig st) as (err & -> & Hload). rewrite Hload.
  destruct err as [e|]; cbn [fst snd].
  { repeat split; try (intros; match goal with H : _ ∈ _ |- _ => not_in H end); done. }
  destruct (godotenv_Load env) as [[]|e]; cbn [fst snd].
  2: { repeat split; try (intros; match goal with H : _ ∈ _ |- _ => not_in H end); done. }
  destruct (String.eqb_spec (Getenv env "DISCORD_TOKEN") "") as [Htok|Htok]; cbn [fst snd app].
  { repeat split; try (intros; match goal with H : _ ∈ _ |- _ => not_in H end); done. }
  destruct (discordgo_New env _) as [client|e]; cbn [fst snd app].
  2: { repeat split; try (intros; match goal with H : _ ∈ _ |- _ => not_in H end); done. }
  destruct (Open_res env) as [[]|e]; cbn [fst snd app].
  2: { repeat split; try (intros; match goal with H : _ ∈ _ |- _ => not_in H end);
       try done; by eexists. }
  destruct (ApplicationCommandBulkOverwrite_res env _ _ _) as [n|e] eqn:Hreg;
    cbn [fst snd app].
  - split; [done|]. split; [by eauto|]. split; [|split; [|split]].
    + intros appID guildID cmds H.
      repeat (apply elem_of_cons in H as [H|H]; [try discriminate H|]);
        [|by apply elem_of_nil in H].
      injection H as -> -> ->. split; [in_list|]. by eauto 10.
    + intros _. exists (State_User_ID client), n. split; [in_list|done].
    + intros _. in_list.
    + done.
  - split; [done|]. split; [by eauto|]. split; [|split; [|split]].
    + intros appID guildID cmds H.
      repeat (apply elem_of_cons in H as [H|H]; [try discriminate H|]);
        [|by apply elem_of_nil in H].
      injection H as -> -> ->. split; [in_list|]. by eauto 10.
    + intros H. not_in H.
    + done.
    + intros H. not_in H.
Qed.



(** ** Ping and pong *)

(** X22: the first program answers ["ping"] with ["Pong!"] and ["pong"] with
    ["Ping!"], in the channel of the message, and nothing else: a message of
    the bot itself leaves the state untouched, a message gets at most one
    answer, and an answer, read as a message by the program, is never
    answered in turn. *)
Theorem answers_are_not_answered (s : Session) (m : MessageCreate) (st : State unit) :
  let new := effectsOf (Part002.messageCreate s m) st in
  (ID (m_Author m) = State_User_ID s → run (Part002.messageCreate s m) st = st)
  ∧ (length new ≤ 1)%nat
  ∧ (ID (m_Author m) ≠ State_User_ID s → m_Content m = "ping" →
       new = [ChannelMessageSend (m_ChannelID m) "Pong!"])
  ∧ (ID (m_Author m) ≠ State_User_ID s → m_Content m = "pong" →
       new = [ChannelMessageSend (m_ChannelID m) "Ping!"])
  ∧ ∀ e, e ∈ new →
      ∃ content, e = ChannelMessageSend (m_ChannelID m) content
        ∧ ∀ s' m' st',
            m_Content m' = content → effectsOf (Part002.messageCreate s' m') st' = [].
Proof.
  cbn zeta. unfold effectsOf, Part002.messageCreate.
  assert (Hquiet : ∀ content s' m' (st' : State unit),
            content = "Pong!" ∨ content = "Ping!" → m_Content m' = content →
            drop (length (trace st'))
              (trace (run (if String.eqb (ID (m_Author m')) (State_User_ID s')
                           then return_ ()
                           else (if String.eqb (m_Content m') "ping"
                                 then emit (ChannelMessageSend (m_ChannelID m') "Pong!")
                                 else ret ());;
                                (if String.eqb (m_Content m') "pong"
                                 then emit (ChannelMessageSend (m_ChannelID m') "Ping!")
                                 else ret ())) st')) = []).
  { intros content s' m' st' Hc ->.
    destruct (String.eqb _ (State_User_ID s')); unfold_M; [by rewrite drop_all|].
    destruct Hc as [-> | ->]; cbn [String.eqb Ascii.eqb Bool.eqb];
      cbn [fst snd trace]; by rewrite drop_all. }
  destruct (String.eqb_spec (ID (m_Author m)) (State_User_ID s)) as [Hown|Hown]; unfold_M.
  { rewrite drop_all.
    repeat split;
      first [done | cbn [length]; lia | intros e H; by apply elem_of_nil in H]. }
  destruct (String.eqb_spec (m_Content m) "ping") as [Hp|Hp];
    destruct (String.eqb_spec (m_Content m) "pong") as [Hq|Hq];
    try (rewrite Hp in Hq; discriminate Hq);
    cbn [fst snd trace]; rewrite ?drop_app_length, ?drop_all; cbn [length].
  - repeat split; try done; try lia;
      try (intros _ Hc; rewrite Hp in Hc; discriminate Hc).
    intros e H. apply elem_of_cons in H as [->|H]; [|by apply elem_of_nil in H].
    eexists. split; [done|]. intros s' m' st'. apply Hquiet. by left.
  - repeat split; try done; try lia;
      try (intros _ Hc; rewrite Hq in Hc; discriminate Hc).
    intros e H. apply elem_of_cons in H as [->|H]; [|by apply elem_of_nil in H].
    eexists. split; [done|]. intros s' m' st'. apply Hquiet. by right.
  - repeat split; try done; try lia. intros e H. by apply elem_of_nil in H.
Qed.
